(* ===== verification/_CoqProject ===== *)
-Q . S2P
Prelude.v
FormData.v
JsNumber.v
JsString.v
JsHeap.v
NestedUpdate.v
TsTypes.v
Zod.v
EmailSpec.v
AddressHistory.v
PersonalDetails.v
PersonalInfoStep.v
FinancialDetails.v
Wizard.v
ComponentTree.v
PageViews.v
