(* ===== verification/Prelude.v ===== *)
(** * A verification development of the visa application wizard (forms)

    The program (src/app) is a Next.js client application: a wizard of
    pages that collect identity, family, address-history and financial
    data in one in-memory record [FormData]
    (src/app/providers/FormDataProvider.tsx), with zod schemas
    (src/app/lib/schemas.ts) and pages that read and write the record
    through the React context [useFormData()].  Each page file wraps
    itself in its own [<FormDataProvider>]; pages move on with
    [router.push].

    Files, in dependency order (_CoqProject):
    - [Prelude] (this file): the [result] type of code that throws, with
      its bind notation in [form_scope]; the [forms] hint databases; the
      development's Ltac; [rtc_invariant] (rule induction on reachable
      states); and the list lemmas of the [filter(x => x.id !== id)] and
      [map(x => x.id === id ? .. : x)] idioms shared by the pages.
    - [FormData]: the TypeScript type [FormData] (one Module per nested
      object type and per union of string literals, optional members as
      [option]), [initialFormData], [Partial<FormData>] as [Patch],
      [updateFormData]'s spread as [mergeSection], and the [FormStore]
      typeclass: the interface a provider offers its pages
      ([formData], [updateFormData] and its law).  The pages are proved
      against the class; [typed_store] is the provider's [useState].
    - [JsNumber]: integer-valued Numbers: [double_round] is the Number
      value of an integer (IEEE-754 binary64, 53-bit significand, ties to
      even), [js_mul] and [js_add] are [*] and [+] on such values.
    - [JsString]: [parseInt] (whitespace, sign, "0x" prefix, longest digit
      prefix), [parseInt(v) || 0], [split('.')] and [join('.')].
    - [JsHeap]: a heap of JavaScript objects (locations, property maps,
      the [Object.prototype] chain with its [__proto__] accessor and the
      prototypes of the string, number and boolean wrappers with their
      methods, [[Get]]/[[Set]] on objects, GetValue/PutValue of [v[k]] on
      any value ([get_value], [set_value]: undefined and null throw, a
      primitive is read through its wrapper and cannot be written but
      through the [__proto__] setter), allocation, spread, nested
      literals).
    - [NestedUpdate]: [updateNestedFormData] line by line on that heap,
      [initialFormData] as the module-level object it starts from.
    - [TsTypes]: [type FormData] as a type descriptor and the check that a
      heap value has that type.
    - [Zod]: the combinators the schemas use ([string().min],
      [string().email] with zod 3's email pattern decided directly,
      [number().min/max]) and every schema of schemas.ts as a function
      from a value to its list of issues; [errors_of] is the
      first-issue-per-field error map of [zodResolver].
    - [EmailSpec]: the language of zod's email pattern written as a
      proposition, and its equivalence with the validator.
    - [AddressHistory]: [AddressHistoryContent] of address-history/page.tsx
      as a state machine: the store, the local [previousAddresses] and
      [showPreviousAddresses], every handler, the [useEffect] with its
      dependency array, and the disabled Next button.
    - [PersonalDetails]: [PersonalDetailsContent]: marital status, the
      spouse sub-form, the children list.
    - [PersonalInfoStep]: [HomePage], the home page's components
      PersonalInfo.tsx (react-hook-form values, zod validation on submit,
      passport and national-id edits) and NationalIDAnalysis.tsx.
    - [FinancialDetails]: [FinancialDetailsContent]: the two effects that
      store the employment/education and sponsor sub-forms.
    - [Wizard]: the four pages, [router.push] and one fresh provider per
      page ([FormProvider] extends [FormStore] with a provider's initial
      state); the rank of each page in the order, for termination.
    - [ComponentTree]: React's render of the pages' element trees: the
      [FormContext] with its default [undefined], one provider instance
      (one [useState]) per [<FormDataProvider>], [useFormData()] and its
      throw, [FormLayout]'s markup; components/ui elements as widgets with
      the props the code passes them (id, value, checked, type, min, max,
      rows, disabled); the text and controls a rendered tree shows.
    - [PageViews]: the markup of every page: the home page's components
      (labels, registered inputs with their error paragraphs, radio groups,
      passport and national-id inputs, banner), [PersonalDetailsContent]'s
      return (spouse card, one card per child) and
      [AddressHistoryContent]'s return (current-address card, one card per
      previous address, the Next button's [disabled]), each a function of
      the page's state.

    Each page is a Section over a [FormStore]: its state is a Record
    holding the store and the page's [useState]s, one Definition per
    handler, [after_render] runs the effects whose dependencies changed,
    and [step] is one user event (handler, render, effects) returning the
    path it pushes.  [available] says which events the rendered page
    offers (a control inside a hidden section cannot be used); the
    relations of reachable states take only those.  [uuidv4()] is an
    argument of the events that call it; its freshness is the hypothesis
    [fresh_event].

    Theorems:
    - invariants by rule induction on [rtc] of each page's step: local
      copies agree with the record, the derived flags are the threshold
      rules, ids stay distinct ([AddressHistory], [PersonalDetails],
      [FinancialDetails]);
    - functional behaviour of the handlers on every branch: the Next
      button is disabled exactly when the previous-address list is shown
      and empty, a submit is accepted iff the schema accepts, removal keeps the
      others in order, the error map of a rejected submit;
    - [updateNestedFormData]: creation of missing intermediates, the
      TypeError through a primitive (and the paths through one that
      return), the writes that reach the previous state and the module
      constant [initialFormData] (aliasing), and the write to
      [Object.prototype] through "__proto__";
    - numbers: typing the decimal text of an integer into Years or Months
      stores its Number value ([parseInt] round trip, through the
      handler); [calculateTotalMonths] is exact up to 2^48 years and 2^52
      months, and beyond can decide the 12-month threshold wrongly; typed
      durations within those bounds show the previous-address section
      exactly by the integer rule;
    - the wizard: linear navigation, remount on every page change, no
      identity data reaching the later pages, and liveness: the financial
      page is reachable in at most nine events from every reachable page;
      termination: the relation "an event shows another page" is well
      founded (a measure, the rank of the page, decreases), and a run
      changes page at most three times;
    - the component tree: a render throws exactly when a consumer has no
      provider above it, with [useFormData]'s message; every page renders
      with one provider instance to which all its consumers are bound; the
      home page always ends with the "received successfully by server"
      banner, also on its first render and after a rejected submit, and
      after any rejected submit shows exactly one error paragraph per
      rejected field, in the order of the form;
    - composition of views and state machines: on every state reachable
      from mounting, the family page's inputs show the record's spouse
      (exactly when Married) and children, the address page's inputs show
      the record's current address and (under 12 months) its previous
      addresses, and its Next button's [disabled] prop is the record's
      rule;
    - lemmas on the models of the libraries: [zod_email] accepts exactly
      the language of zod's email pattern ([EmailSpec]); [double_round]
      errs by at most 2^-53 and is exact up to 2^53 ([JsNumber]);
      [split('.')]/[join('.')] round trips ([JsString]);
    - types: from every state of type [FormData], a wrong-typed write at
      a nested member leaves new and previous states that are not;
    - bounds: [updateNestedFormData] allocates between one object and one
      object per path segment.

    Fuel and bounds: every recursion is structural (the type check
    recurses on the type, the wizard's runs on the list of events, the
    nested update on the path, the render on the element tree).  The one
    fuel is [digits_fuel z] for printing [z] in decimal: the bit length of
    [z], at least its number of decimal digits, proved enough
    ([digits_fuel_enough]).  Numbers are integers held as doubles: a
    [parseInt] result, and the [*] and [+] of [calculateTotalMonths], go
    through [double_round]; NaN is replaced by [|| 0] before it is stored.
    A value past [Number.MAX_VALUE] ([Infinity]) needs an input of more
    than 308 digits and is not modelled.

    Not modelled: styling (every [className], and FormLayout's [cn],
    which comes from lib/utils, not in the sources); the event handlers
    attached to the markup (each is a Definition of the page's Section,
    and the markup keeps which control it sits on by its id); the
    internals of the components of components/ui (not in the sources: an
    element is kept with the props the code passes it); the
    PassportAnalysis component (imported by page.tsx but absent from the
    sources); the handlers of the financial page, its submission and its
    markup (the file ends in the middle of the sponsor sub-form and does
    not compile, so the financial page has no element tree); the own
    [length]/[name] of function objects and [Function.prototype] (the
    built-in methods are plain objects whose prototype is
    [Object.prototype]), and the exotic [length] of arrays; react-hook-form's
    re-validation on change after a failed submit (it only refreshes the
    displayed errors); the internals of Next.js routing beyond "push
    unmounts the page and mounts the next one". *)

From stdpp Require Export base list strings gmap relations.
From Stdlib Require Export ZArith.

Declare Scope form_scope.
Delimit Scope form_scope with form.

(** ** Results of code that may throw *)

(** [Err e] is an exception [e] escaping the modelled code. *)
Inductive result (A E : Type) : Type :=
| Ok (a : A)
| Err (e : E).
Arguments Ok {A E} a.
Arguments Err {A E} e.

Definition result_bind {A B E} (r : result A E) (f : A -> result B E) : result B E :=
  match r with
  | Ok a => f a
  | Err e => Err e
  end.

Notation "x <-? c ;; k" := (result_bind c (fun x => k))
  (at level 100, c at next level, right associativity) : form_scope.

Lemma result_bind_assoc {A B C E} (c : result A E) (f : A -> result B E) (g : B -> result C E) :
  result_bind (result_bind c f) g = result_bind c (fun a => result_bind (f a) g).
Proof. by destruct c. Qed.

Definition is_ok {A E} (r : result A E) : bool :=
  match r with Ok _ => true | Err _ => false end.

(** ** Shared tactics and hint database *)

Create HintDb forms.
Create Rewrite HintDb forms_rw.

Ltac inv_clear H := inversion H; subst; clear H.

(** Split every [if decide] / [bool_decide] in the goal and close the
    trivial cases. *)
Ltac decide_all :=
  repeat (case_decide || case_bool_decide); simplify_eq/=; try done.

(** ** Invariants of a step relation *)

Section Invariant.
Context {St : Type} (step : St -> St -> Prop) (I : St -> Prop).

(** An invariant preserved by every step holds on every state reachable
      by the reflexive-transitive closure. *)
Lemma rtc_invariant :
    (forall s s', I s -> step s s' -> I s') ->
    forall s s', I s -> rtc step s s' -> I s'.
  Proof.
    intros Hpres s s' Hs Hrtc. induction Hrtc as [|x y z Hxy _ IH]; eauto.
  Qed.
End Invariant.

(** ** Lists of records with an [id]: [filter] and [map] by id *)

(** The pages keep arrays of records with a string [id] and update them
    with [arr.filter(x => x.id !== id)] and
    [arr.map(x => x.id === id ? {...x, [field]: value} : x)]. *)
Section Keyed.
Context {A : Type} (key : A -> string).

Definition filter_out (k : string) (l : list A) : list A :=
    filter (fun x => key x <> k) l.

Definition map_at (k : string) (f : A -> A) (l : list A) : list A :=
    map (fun x => if decide (key x = k) then f x else x) l.

Lemma keys_filter_out k l :
    map key (filter_out k l) = filter (fun k' => k' <> k) (map key l).
  Proof.
    unfold filter_out. induction l as [|x l IH]; [done|].
    simpl. rewrite !filter_cons.
    destruct (decide (key x <> k)); simpl; by rewrite IH.
  Qed.

Lemma NoDup_filter_out k l :
    NoDup (map key l) -> NoDup (map key (filter_out k l)).
  Proof. rewrite keys_filter_out. apply NoDup_filter. Qed.

Lemma elem_of_filter_out x k l :
    x ∈ filter_out k l <-> x ∈ l /\ key x <> k.
  Proof. unfold filter_out. rewrite list_elem_of_filter. tauto. Qed.

Lemma filter_out_absent k l :
    k ∉ map key l -> filter_out k l = l.
  Proof.
    unfold filter_out. induction l as [|x l IH]; intros Hk; [done|].
    rewrite filter_cons. simpl in Hk. rewrite not_elem_of_cons in Hk.
    destruct Hk as [Hx Hl]. rewrite decide_True by congruence. by rewrite IH.
  Qed.

(** Removing the id of the head of a list whose ids are distinct gives
      back the tail. *)
Lemma filter_out_head x l :
    NoDup (map key (x :: l)) -> filter_out (key x) (x :: l) = l.
  Proof.
    simpl. rewrite NoDup_cons. intros [Hx _].
    unfold filter_out. rewrite filter_cons_False by tauto.
    by apply filter_out_absent.
  Qed.

Lemma keys_map_at k f l :
    (forall x, key (f x) = key x) -> map key (map_at k f l) = map key l.
  Proof.
    intros Hf. unfold map_at. induction l as [|x l IH]; [done|].
    simpl. case_decide; by rewrite ?Hf, IH.
  Qed.

Lemma length_filter_out_le k l : length (filter_out k l) <= length l.
  Proof. apply length_filter. Qed.
End Keyed.

#[export] Hint Resolve NoDup_filter_out : forms.
#[export] Hint Rewrite @keys_filter_out : forms_rw.
