(* ===== verification/FormData.v ===== *)
(** * The application record and the store interface

    The type [FormData] of src/app/providers/FormDataProvider.tsx, its
    default value [initialFormData], [Partial<FormData>] as [Patch], and
    [updateFormData] (the shallow merge [{ ...prev, ...newData }]) as
    [mergeSection].  Nested object types are one Module each, so that the
    source's field names ([firstName], [startDate], ...) can be kept; a
    union of string literals is an inductive with one constructor per
    literal ([''] is the [Unset] constructor).  Numbers of the record are
    integers here ([Z]): the only numbers the code stores come from
    [parseInt(..) || 0].

    [FormStore] is the interface the pages use ([useFormData()]): the
    current record and [updateFormData], with the law that an update is a
    [mergeSection] of the record.  The pages are proved against the
    interface; [typed_store] implements it. *)

From S2P Require Import Prelude.

Module Gender.
Inductive t := Male | Female | Other.
#[global] Instance eq_dec : EqDecision t.
  Proof. solve_decision. Defined.
End Gender.

Module MaritalStatus.
Inductive t := Single | Married | Divorced | Widowed | Unset.
#[global] Instance eq_dec : EqDecision t.
  Proof. solve_decision. Defined.
End MaritalStatus.

Module EmploymentStatus.
Inductive t := Employed | SelfEmployed | Student | Retired | Unemployed | Unset.
#[global] Instance eq_dec : EqDecision t.
  Proof. solve_decision. Defined.
End EmploymentStatus.

Module TripSponsor.
Inductive t := Self | Employer | Family | Other | Unset.
#[global] Instance eq_dec : EqDecision t.
  Proof. solve_decision. Defined.
End TripSponsor.

(** [passport] and [nationalId] have the same shape. *)
Module IdDocument.
Record t := mk {
    number : string; issuingAuthority : string;
    dateOfIssue : string; dateOfExpiry : string }.
Definition blank : t := mk "" "" "" "".
#[global] Instance eq_dec : EqDecision t.
Proof. solve_decision. Defined.
End IdDocument.

Module PersonalInfo.
Record t := mk {
    email : string; phone : string; firstName : string; lastName : string;
    gender : Gender.t; placeOfBirth : string; hasNameChanged : bool }.
#[global] Instance eq_dec : EqDecision t.
Proof. solve_decision. Defined.
End PersonalInfo.

Module Spouse.
Record t := mk {
    firstName : string; lastName : string; dateOfBirth : string;
    nationality : string; travelingWithYou : bool }.
#[global] Instance eq_dec : EqDecision t.
Proof. solve_decision. Defined.
End Spouse.

Module Child.
Record t := mk {
    id : string; firstName : string; lastName : string;
    dateOfBirth : string; relationship : string; travelingWithYou : bool }.
#[global] Instance eq_dec : EqDecision t.
Proof. solve_decision. Defined.
End Child.

Module CurrentAddress.
Record t := mk {
    street : string; city : string; state : string; postalCode : string;
    country : string; yearsAtAddress : Z; monthsAtAddress : Z }.
#[global] Instance eq_dec : EqDecision t.
Proof. solve_decision. Defined.
End CurrentAddress.

Module PreviousAddress.
Record t := mk {
    id : string; street : string; city : string; state : string;
    postalCode : string; country : string; fromDate : string;
    toDate : string; reasonForLeaving : string }.
#[global] Instance eq_dec : EqDecision t.
Proof. solve_decision. Defined.
End PreviousAddress.

Module Employment.
Record t := mk {
    companyName : string; jobTitle : string; startDate : string;
    salary : string; employerAddress : string; employerPhone : string }.
#[global] Instance eq_dec : EqDecision t.
Proof. solve_decision. Defined.
End Employment.

Module SelfEmployment.
Record t := mk {
    businessName : string; businessType : string;
    annualIncome : string; startDate : string }.
#[global] Instance eq_dec : EqDecision t.
Proof. solve_decision. Defined.
End SelfEmployment.

Module Education.
Record t := mk {
    institutionName : string; course : string; startDate : string;
    endDate : string; isFullTime : bool }.
#[global] Instance eq_dec : EqDecision t.
Proof. solve_decision. Defined.
End Education.

Module SponsorDetails.
Record t := mk { name : string; relationship : string; contactInfo : string }.
#[global] Instance eq_dec : EqDecision t.
Proof. solve_decision. Defined.
End SponsorDetails.

(** Optional members ([spouse?: ...]) are [option]s: [None] is an absent
    key. *)
Record FormData := {
  passport : IdDocument.t;
  nationalId : IdDocument.t;
  personalInfo : PersonalInfo.t;
  maritalStatus : MaritalStatus.t;
  spouse : option Spouse.t;
  children : list Child.t;
  currentAddress : CurrentAddress.t;
  previousAddresses : list PreviousAddress.t;
  employmentStatus : EmploymentStatus.t;
  employment : option Employment.t;
  selfEmployment : option SelfEmployment.t;
  education : option Education.t;
  tripSponsor : TripSponsor.t;
  sponsorDetails : option SponsorDetails.t }.

Definition initialFormData : FormData := {|
  passport := IdDocument.blank;
  nationalId := IdDocument.blank;
  personalInfo := PersonalInfo.mk "" "" "" "" Gender.Male "" false;
  maritalStatus := MaritalStatus.Unset;
  spouse := None;
  children := [];
  currentAddress := CurrentAddress.mk "" "" "" "" "" 0 0;
  previousAddresses := [];
  employmentStatus := EmploymentStatus.Unset;
  employment := None;
  selfEmployment := None;
  education := None;
  tripSponsor := TripSponsor.Unset;
  sponsorDetails := None |}.

(** ** [Partial<FormData>] and [updateFormData] *)

(** A key of the partial object is absent ([None]) or present with a value;
    for an optional member the value may itself be [undefined]. *)
Record Patch := {
  p_passport : option IdDocument.t;
  p_nationalId : option IdDocument.t;
  p_personalInfo : option PersonalInfo.t;
  p_maritalStatus : option MaritalStatus.t;
  p_spouse : option (option Spouse.t);
  p_children : option (list Child.t);
  p_currentAddress : option CurrentAddress.t;
  p_previousAddresses : option (list PreviousAddress.t);
  p_employmentStatus : option EmploymentStatus.t;
  p_employment : option (option Employment.t);
  p_selfEmployment : option (option SelfEmployment.t);
  p_education : option (option Education.t);
  p_tripSponsor : option TripSponsor.t;
  p_sponsorDetails : option (option SponsorDetails.t) }.

(** The object literal [{}]. *)
Definition patch_empty : Patch :=
  Build_Patch None None None None None None None None None None None None None None.

(** [updateFormData(newData)] runs [setFormData(prev => ({ ...prev, ...newData }))]:
    every key present in [newData] replaces the key of [prev]. *)
Definition mergeSection (p : Patch) (prev : FormData) : FormData := {|
  passport := default (passport prev) (p_passport p);
  nationalId := default (nationalId prev) (p_nationalId p);
  personalInfo := default (personalInfo prev) (p_personalInfo p);
  maritalStatus := default (maritalStatus prev) (p_maritalStatus p);
  spouse := default (spouse prev) (p_spouse p);
  children := default (children prev) (p_children p);
  currentAddress := default (currentAddress prev) (p_currentAddress p);
  previousAddresses := default (previousAddresses prev) (p_previousAddresses p);
  employmentStatus := default (employmentStatus prev) (p_employmentStatus p);
  employment := default (employment prev) (p_employment p);
  selfEmployment := default (selfEmployment prev) (p_selfEmployment p);
  education := default (education prev) (p_education p);
  tripSponsor := default (tripSponsor prev) (p_tripSponsor p);
  sponsorDetails := default (sponsorDetails prev) (p_sponsorDetails p) |}.

(** The spread [{ ...a, ...b }] of two partial objects: [b] wins. *)
Definition patch_then (a b : Patch) : Patch :=
  let pick {X} (x y : option X) := match y with Some _ => y | None => x end in {|
  p_passport := pick (p_passport a) (p_passport b);
  p_nationalId := pick (p_nationalId a) (p_nationalId b);
  p_personalInfo := pick (p_personalInfo a) (p_personalInfo b);
  p_maritalStatus := pick (p_maritalStatus a) (p_maritalStatus b);
  p_spouse := pick (p_spouse a) (p_spouse b);
  p_children := pick (p_children a) (p_children b);
  p_currentAddress := pick (p_currentAddress a) (p_currentAddress b);
  p_previousAddresses := pick (p_previousAddresses a) (p_previousAddresses b);
  p_employmentStatus := pick (p_employmentStatus a) (p_employmentStatus b);
  p_employment := pick (p_employment a) (p_employment b);
  p_selfEmployment := pick (p_selfEmployment a) (p_selfEmployment b);
  p_education := pick (p_education a) (p_education b);
  p_tripSponsor := pick (p_tripSponsor a) (p_tripSponsor b);
  p_sponsorDetails := pick (p_sponsorDetails a) (p_sponsorDetails b) |}.

(** Single-key patches, as the pages write them
    ([updateFormData({ children: updated })] and the like). *)
Definition set_children l := {| patch_empty with p_children := Some l |}.
Definition set_previousAddresses l := {| patch_empty with p_previousAddresses := Some l |}.
Definition set_currentAddress a := {| patch_empty with p_currentAddress := Some a |}.
Definition set_maritalStatus m := {| patch_empty with p_maritalStatus := Some m |}.
Definition set_spouse s := {| patch_empty with p_spouse := Some (Some s) |}.
Definition set_personalInfo i := {| patch_empty with p_personalInfo := Some i |}.
Definition set_passport d := {| patch_empty with p_passport := Some d |}.
Definition set_nationalId d := {| patch_empty with p_nationalId := Some d |}.

(** ** The store interface of [useFormData()] *)

Class FormStore (S : Type) := {
  formData : S -> FormData;
  updateFormData : Patch -> S -> S;
  updateFormData_law : forall p s, formData (updateFormData p s) = mergeSection p (formData s)
}.

(** The React state of [FormDataProvider]: the record itself. *)
#[export] Instance typed_store : FormStore FormData := {|
  formData := fun d => d;
  updateFormData := mergeSection;
  updateFormData_law := fun _ _ => eq_refl |}.

(** ** Laws of [mergeSection] *)

Lemma mergeSection_empty d : mergeSection patch_empty d = d.
Proof. by destruct d. Qed.

(** Two successive [updateFormData] calls are one update with the spread
    of the two partial objects (the later one wins key by key). *)
Lemma mergeSection_then a b d :
  mergeSection b (mergeSection a d) = mergeSection (patch_then a b) d.
Proof.
  destruct a, b, d; unfold mergeSection, patch_then; simpl. f_equal;
  repeat match goal with |- context [match ?o with Some _ => _ | None => _ end] =>
    destruct o end; reflexivity.
Qed.

Lemma updateFormData_then {St} `{FormStore St} a b (s : St) :
  formData (updateFormData b (updateFormData a s)) = mergeSection (patch_then a b) (formData s).
Proof. by rewrite !updateFormData_law, mergeSection_then. Qed.

#[export] Hint Rewrite @updateFormData_law mergeSection_empty : forms_rw.
