(* ===== verification/JsNumber.v ===== *)
(** * JavaScript numbers on integer values

    The numbers the code handles ([parseInt] results, [yearsAtAddress],
    [monthsAtAddress] and [calculateTotalMonths]) are integers, held in
    IEEE-754 binary64.  An integer value is kept here as [Z];
    [double_round] is ECMAScript's "the Number value for x" on an integer:
    the nearest double, ties to the one with an even significand.
    Integers of magnitude up to 2^53 are doubles; above, the significand
    keeps 53 bits.  [js_mul] and [js_add] are [*] and [+] on such numbers:
    the exact result, rounded.  Magnitudes that round past
    [Number.MAX_VALUE] (about 1.8e308) are [Infinity] in JavaScript and
    are outside this model; they need a digit string of more than 308
    digits.

    Theorems: the rounding is the identity up to 2^53, its relative error
    is at most 2^-53, and it rounds 2^53 + 1 down to 2^53 (ties to even). *)

From S2P Require Import Prelude.

Local Open Scope Z_scope.

(** The Number value for the integer [z]. *)
Definition double_round (z : Z) : Z :=
  let a := Z.abs z in
  if a <=? 2 ^ 53 then z
  else
    let e := Z.log2 a - 52 in
    let q := a / 2 ^ e in
    let r := a mod 2 ^ e in
    let q' := if (2 ^ (e - 1) <? r) || ((r =? 2 ^ (e - 1)) && Z.odd q) then q + 1 else q in
    Z.sgn z * (q' * 2 ^ e).

(** [x * y] on numbers. *)
Definition js_mul (x y : Z) : Z := double_round (x * y).

(** [x + y] on numbers. *)
Definition js_add (x y : Z) : Z := double_round (x + y).

(** ** Lemmas *)

Lemma double_round_small z : Z.abs z <= 2 ^ 53 -> double_round z = z.
Proof. intros Hz. unfold double_round. by rewrite (proj2 (Z.leb_le _ _) Hz). Qed.

(** Rounding [a] to a multiple of [2^e] by the quotient [q] or [q + 1]
    errs by at most half of [2^e]. *)
Lemma round_half_error a e q' :
  0 < e -> 0 <= a ->
  q' = a / 2 ^ e \/ (q' = a / 2 ^ e + 1 /\ 2 ^ (e - 1) <= a mod 2 ^ e) ->
  (q' = a / 2 ^ e -> a mod 2 ^ e <= 2 ^ (e - 1)) ->
  Z.abs (q' * 2 ^ e - a) <= 2 ^ (e - 1).
Proof.
  intros He Ha Hq Hle.
  assert (Hp : 2 ^ e = 2 * 2 ^ (e - 1)).
  { rewrite <- Z.pow_succ_r by lia. f_equal. lia. }
  pose proof (Z.mod_pos_bound a (2 ^ e) ltac:(lia)) as Hm.
  pose proof (Z_div_mod_eq_full a (2 ^ e)) as Hd.
  destruct Hq as [Hq|[Hq Hr]].
  - specialize (Hle Hq). subst q'. nia.
  - subst q'. nia.
Qed.

Lemma double_round_error_abs z :
  2 ^ 53 < Z.abs z ->
  Z.abs (double_round z - z) <= 2 ^ (Z.log2 (Z.abs z) - 53).
Proof.
  intros Hz. unfold double_round.
  rewrite (proj2 (Z.leb_gt _ _) Hz). cbv zeta.
  set (a := Z.abs z). set (e := Z.log2 a - 52).
  assert (Hl : 53 <= Z.log2 a).
  { apply Z.log2_le_pow2; lia. }
  assert (He : 0 < e) by (unfold e; lia).
  replace (Z.log2 a - 53) with (e - 1) by (unfold e; lia).
  assert (Hsz : z = Z.sgn z * a) by (unfold a; rewrite Z.mul_comm; symmetry; apply Z.abs_sgn).
  assert (Hs : Z.abs (Z.sgn z) = 1) by (unfold a in Hz; destruct z; simpl in *; lia).
  match goal with |- context [Z.sgn z * (?q * 2 ^ e)] => set (q' := q) end.
  assert (Hq : Z.abs (q' * 2 ^ e - a) <= 2 ^ (e - 1)).
  { apply round_half_error; [lia|unfold a; lia| |].
    - unfold q'. destruct (2 ^ (e - 1) <? a mod 2 ^ e) eqn:E1; simpl.
      + right. split; [done|]. apply Z.ltb_lt in E1. lia.
      + destruct ((a mod 2 ^ e =? 2 ^ (e - 1)) && Z.odd (a / 2 ^ e)) eqn:E2; [|by left].
        apply andb_true_iff in E2 as [E2 _]. apply Z.eqb_eq in E2. right. lia.
    - unfold q'. intros Hqq. destruct (2 ^ (e - 1) <? a mod 2 ^ e) eqn:E1; simpl in Hqq.
      + lia.
      + apply Z.ltb_ge in E1. lia. }
  rewrite Hsz at 2. rewrite <- Z.mul_sub_distr_l, Z.abs_mul, Hs. lia.
Qed.

(** The significand chosen above 2^53 has at most 53 bits. *)
Lemma double_round_significand z :
  2 ^ 53 < Z.abs z ->
  let e := Z.log2 (Z.abs z) - 52 in
  exists m, Z.abs m <= 2 ^ 53 /\ double_round z = m * 2 ^ e.
Proof.
  intros Hz e. unfold double_round. rewrite (proj2 (Z.leb_gt _ _) Hz). cbv zeta. fold e.
  set (a := Z.abs z) in *.
  assert (Hl : 53 <= Z.log2 a) by (apply Z.log2_le_pow2; lia).
  pose proof (Z.log2_spec a ltac:(lia)) as [_ Hhi].
  assert (Hp : 2 ^ 53 * 2 ^ e = 2 ^ Z.succ (Z.log2 a)).
  { rewrite <- Z.pow_add_r by (unfold e; lia). f_equal. unfold e; lia. }
  assert (Hq : 0 <= a / 2 ^ e < 2 ^ 53).
  { split; [apply Z.div_pos; lia|]. apply Z.div_lt_upper_bound; lia. }
  assert (Hs : Z.abs (Z.sgn z) = 1) by (unfold a in Hz; destruct z; simpl in *; lia).
  match goal with |- context [Z.sgn z * (?q * 2 ^ e)] =>
    exists (Z.sgn z * q); split; [|ring] end.
  rewrite Z.abs_mul, Hs. destruct (_ || _); lia.
Qed.

(** ** Theorems *)

(** The Number value of an integer is a double (a significand of at
    most 53 bits times a power of two), its relative error is at most
    2^-53, and it is exact up to 2^53. *)
Theorem double_round_rel_error z :
  (exists m e, Z.abs m <= 2 ^ 53 /\ 0 <= e /\ double_round z = m * 2 ^ e) /\
  2 ^ 53 * Z.abs (double_round z - z) <= Z.abs z /\
  (Z.abs z <= 2 ^ 53 -> double_round z = z).
Proof.
  split; [|split; [|apply double_round_small]].
  { destruct (Z.le_gt_cases (Z.abs z) (2 ^ 53)) as [Hs|Hb].
    - exists z, 0. rewrite double_round_small by done. split; [done|split; [lia|ring]].
    - destruct (double_round_significand z Hb) as [m Hm]. exists m, (Z.log2 (Z.abs z) - 52).
      assert (53 <= Z.log2 (Z.abs z)) by (apply Z.log2_le_pow2; lia). split_and!; tauto || lia. }
  destruct (Z.le_gt_cases (Z.abs z) (2 ^ 53)) as [Hs|Hb].
  - rewrite double_round_small by done. rewrite Z.sub_diag. simpl. lia.
  - pose proof (double_round_error_abs z Hb) as He.
    assert (Hl : 53 <= Z.log2 (Z.abs z)) by (apply Z.log2_le_pow2; lia).
    pose proof (Z.log2_spec (Z.abs z) ltac:(lia)) as [Hlo _].
    assert (Hp : 2 ^ 53 * 2 ^ (Z.log2 (Z.abs z) - 53) = 2 ^ Z.log2 (Z.abs z)).
    { rewrite <- Z.pow_add_r by lia. f_equal. lia. }
    nia.
Qed.

(** Ties go to the even significand: 2^53 + 1 lies half-way between the
    doubles 2^53 and 2^53 + 2 and rounds down, 2^53 + 3 rounds up. *)
Theorem double_round_ties_even :
  double_round (2 ^ 53 + 1) = 2 ^ 53 /\ double_round (2 ^ 53 + 3) = 2 ^ 53 + 4 /\
  double_round (- (2 ^ 53 + 1)) = - 2 ^ 53.
Proof. vm_compute. repeat split. Qed.

(** ** Witnesses *)

Lemma double_round_rel_error_witness :
  2 ^ 53 * Z.abs (double_round (2 ^ 53 + 1) - (2 ^ 53 + 1)) <= Z.abs (2 ^ 53 + 1) /\
  double_round 12 = 12.
Proof.
  split; [exact (proj1 (proj2 (double_round_rel_error (2 ^ 53 + 1))))|].
  apply (proj2 (proj2 (double_round_rel_error 12))). vm_compute. discriminate.
Defined.
