(* ===== verification/JsString.v ===== *)
(** * JavaScript string primitives called by the code

    - [parseInt] as ECMAScript's [parseInt(string)] with no radix
      (used by [handleCurrentAddressChange] of address-history/page.tsx):
      leading white space is skipped, one sign is read, a "0x"/"0X" prefix
      switches to radix 16, the longest prefix of digits is read, and no
      digit at all gives NaN ([None]).  Strings are Rocq strings of 8-bit
      characters; the white-space set is the ASCII part of ECMAScript's
      (TAB, LF, VT, FF, CR, SPACE).  The integer read is turned into a
      Number by [double_round] (JsNumber): exact up to 2^53, rounded to 53
      significant bits above.  (ECMAScript lets an implementation replace
      the digits after the 20th by zeros before rounding; V8 does not, and
      neither does this model.)
    - [parseInt_or_zero] is [parseInt(value) || 0]: NaN and 0 are falsy.
    - [js_split_dot] is [path.split('.')] of [updateNestedFormData], and
      [js_join_dot] its inverse [parts.join('.')].

    Theorems: [parseInt] inverts the decimal printing of every integer up
    to 2^53 in magnitude (round trip), and 2^53 + 1 is the first it
    does not read back; [split] and [join] are inverse on the paths the code
    builds; a leading non-number gives 0. *)

From S2P Require Import Prelude JsNumber.
From Stdlib Require Import Ascii.

(** ** parseInt *)

Definition is_js_space (c : ascii) : bool :=
  bool_decide (nat_of_ascii c ∈ [9; 10; 11; 12; 13; 32]).

Fixpoint trim_start (s : string) : string :=
  match s with
  | String c s' => if is_js_space c then trim_start s' else s
  | EmptyString => EmptyString
  end.

(** The value of a digit in radix up to 36 ('0'-'9', 'a'-'z', 'A'-'Z'). *)
Definition digit_value (c : ascii) : option Z :=
  let n := nat_of_ascii c in
  if bool_decide (48 <= n <= 57) then Some (Z.of_nat (n - 48))
  else if bool_decide (97 <= n <= 122) then Some (Z.of_nat (n - 87))
  else if bool_decide (65 <= n <= 90) then Some (Z.of_nat (n - 55))
  else None.

(** The longest prefix of radix-[R] digits. *)
Fixpoint digits_prefix (R : Z) (s : string) : list Z :=
  match s with
  | String c s' =>
      match digit_value c with
      | Some d => if bool_decide (d < R)%Z then d :: digits_prefix R s' else []
      | None => []
      end
  | EmptyString => []
  end.

Definition digits_to_Z (R : Z) (ds : list Z) : Z :=
  fold_left (fun acc d => acc * R + d)%Z ds 0%Z.

(** Step 3 of ECMAScript 19.2.5: one optional sign. *)
Definition read_sign (S0 : string) : Z * string :=
  match S0 with
  | String c r =>
      if bool_decide (c = "-"%char) then ((-1)%Z, r)
      else if bool_decide (c = "+"%char) then (1%Z, r)
      else (1%Z, S0)
  | EmptyString => (1%Z, S0)
  end.

(** Steps 6-10: with no radix, a "0x" or "0X" prefix selects radix 16. *)
Definition read_radix (S1 : string) : Z * string :=
  match S1 with
  | String c0 (String x r) =>
      if bool_decide (c0 = "0"%char /\ (x = "x"%char \/ x = "X"%char)) then (16%Z, r)
      else (10%Z, S1)
  | _ => (10%Z, S1)
  end.

(** ECMAScript 19.2.5 [parseInt(string, undefined)]; [None] is NaN. *)
Definition parseInt (s : string) : option Z :=
  let '(sign, S1) := read_sign (trim_start s) in
  let '(R, S2) := read_radix S1 in
  match digits_prefix R S2 with
  | [] => None
  | ds => Some (double_round (sign * digits_to_Z R ds))%Z
  end.

(** [parseInt(value) || 0]: NaN, +0 and -0 are falsy. *)
Definition parseInt_or_zero (s : string) : Z :=
  match parseInt s with
  | Some z => if Z.eqb z 0 then 0%Z else z
  | None => 0%Z
  end.

(** ** Decimal printing (what a number input holds for an integer) *)

Fixpoint dec_digits (fuel : nat) (n : Z) : list Z :=
  match fuel with
  | O => [n]
  | S f => if Z.ltb n 10 then [n] else dec_digits f (n / 10) ++ [n mod 10]
  end%Z.

Definition digit_char (d : Z) : ascii := ascii_of_nat (48 + Z.to_nat d).

(** Enough steps for the digits of [n]: its bit length. *)
Definition digits_fuel (n : Z) : nat := Z.to_nat (Z.log2 n + 1).

Fixpoint string_of_digits (ds : list Z) : string :=
  match ds with
  | [] => EmptyString
  | d :: ds' => String (digit_char d) (string_of_digits ds')
  end.

Definition string_of_Z (z : Z) : string :=
  if Z.ltb z 0 then String "-" (string_of_digits (dec_digits (digits_fuel (- z)) (- z)))
  else string_of_digits (dec_digits (digits_fuel z) z).

(** ** split('.') and join('.') *)

Fixpoint js_split_dot (s : string) : list string :=
  match s with
  | EmptyString => [""]
  | String c s' =>
      let parts := js_split_dot s' in
      if bool_decide (c = "."%char) then "" :: parts
      else match parts with
           | p :: ps => String c p :: ps
           | [] => [String c ""]
           end
  end.

Fixpoint js_join_dot (ps : list string) : string :=
  match ps with
  | [] => ""
  | [p] => p
  | p :: ps' => p +:+ String "." (js_join_dot ps')
  end.

Fixpoint has_dot (s : string) : bool :=
  match s with
  | EmptyString => false
  | String c s' => bool_decide (c = "."%char) || has_dot s'
  end.

(** ** Lemmas *)

Lemma digits_to_Z_snoc R ds d :
  digits_to_Z R (ds ++ [d]) = (digits_to_Z R ds * R + d)%Z.
Proof. unfold digits_to_Z. by rewrite fold_left_app. Qed.

Lemma dec_digits_value fuel n : digits_to_Z 10 (dec_digits fuel n) = n.
Proof.
  revert n. induction fuel as [|f IH]; intros n; simpl; [done|].
  destruct (Z.ltb n 10); [done|].
  rewrite digits_to_Z_snoc, IH. pose proof (Z.div_mod n 10). lia.
Qed.

Lemma dec_digits_range fuel n :
  (0 <= n)%Z -> (n < 2 ^ Z.of_nat fuel)%Z ->
  Forall (fun d => 0 <= d < 10)%Z (dec_digits fuel n).
Proof.
  revert n. induction fuel as [|f IH]; intros n Hn Hf; simpl.
  - constructor; [simpl in Hf; lia|constructor].
  - destruct (Z.ltb_spec n 10).
    + repeat constructor; lia.
    + apply Forall_app; split.
      * apply IH; [apply Z.div_pos; lia|].
        rewrite Nat2Z.inj_succ, Z.pow_succ_r in Hf by lia.
        assert (n / 10 <= n / 2)%Z by (apply Z.div_le_compat_l; lia).
        assert (n / 2 < 2 ^ Z.of_nat f)%Z by (apply Z.div_lt_upper_bound; lia). lia.
      * constructor; [|constructor]. apply Z.mod_pos_bound. lia.
Qed.

Lemma digits_fuel_enough n : (0 <= n)%Z -> (n < 2 ^ Z.of_nat (digits_fuel n))%Z.
Proof.
  intros Hn. unfold digits_fuel. rewrite Z2Nat.id by (pose proof (Z.log2_nonneg n); lia).
  destruct (Z.eq_dec n 0) as [->|Hn0]; [done|].
  pose proof (Z.log2_spec n ltac:(lia)) as [_ H]. by rewrite Z.add_1_r.
Qed.

Lemma dec_digits_nonempty fuel n : dec_digits fuel n <> [].
Proof.
  revert n. induction fuel as [|f IH]; intros n; simpl; [done|].
  destruct (Z.ltb n 10); [done|]. intros Happ. apply app_eq_nil in Happ as [_ Hx]. discriminate.
Qed.

Lemma digit_value_char d : (0 <= d < 10)%Z -> digit_value (digit_char d) = Some d.
Proof.
  intros Hd. unfold digit_value, digit_char.
  rewrite nat_ascii_embedding by lia.
  rewrite bool_decide_eq_true_2 by lia. f_equal. lia.
Qed.

Lemma digits_prefix_digits ds :
  Forall (fun d => 0 <= d < 10)%Z ds ->
  digits_prefix 10 (string_of_digits ds) = ds.
Proof.
  induction 1 as [|d ds Hd _ IH]; [done|].
  cbn [string_of_digits digits_prefix]. rewrite digit_value_char by done. rewrite bool_decide_eq_true_2 by lia.
  by rewrite IH.
Qed.

Lemma digit_char_not_space d : (0 <= d < 10)%Z -> is_js_space (digit_char d) = false.
Proof.
  intros Hd. unfold is_js_space, digit_char. rewrite nat_ascii_embedding by lia.
  apply bool_decide_eq_false_2. rewrite !elem_of_cons, elem_of_nil. lia.
Qed.

(** Shared by both signs of [string_of_Z]: parsing the printed digits of
    a non-negative [n] gives [n] back. *)
Lemma parse_printed_digits n (sign : Z) (k : Z -> option Z) :
  (0 <= n)%Z ->
  let ds := dec_digits (digits_fuel n) n in
  (match digits_prefix 10 (string_of_digits ds) with
   | [] => None | ds' => Some (double_round (sign * digits_to_Z 10 ds'))%Z end) =
  Some (double_round (sign * n))%Z.
Proof.
  intros Hn ds. subst ds.
  rewrite digits_prefix_digits by (apply dec_digits_range; [lia|by apply digits_fuel_enough]).
  destruct (dec_digits _ _) eqn:E; [by apply dec_digits_nonempty in E|].
  rewrite <- E, dec_digits_value. done.
Qed.

Lemma first_digit_char n :
  (0 <= n)%Z ->
  exists d ds, dec_digits (digits_fuel n) n = d :: ds /\ (0 <= d < 10)%Z /\
               Forall (fun d => 0 <= d < 10)%Z ds.
Proof.
  intros Hn. pose proof (dec_digits_range (digits_fuel n) n Hn (digits_fuel_enough n Hn)) as Hr.
  destruct (dec_digits _ _) as [|d ds] eqn:E; [by apply dec_digits_nonempty in E|].
  inversion Hr; subst. eauto.
Qed.


Lemma digit_char_nat d : (0 <= d < 10)%Z -> nat_of_ascii (digit_char d) = 48 + Z.to_nat d.
Proof. intros Hd. unfold digit_char. apply nat_ascii_embedding. lia. Qed.

(** A digit character differs from every character outside '0'..'9'. *)
Lemma digit_char_ne d c :
  (0 <= d < 10)%Z -> ~ (48 <= nat_of_ascii c <= 57) -> digit_char d <> c.
Proof. intros Hd Hc Heq. apply Hc. rewrite <- Heq, digit_char_nat by done. lia. Qed.

Lemma read_radix_printed n :
  (0 <= n)%Z ->
  read_radix (string_of_digits (dec_digits (digits_fuel n) n)) =
  (10%Z, string_of_digits (dec_digits (digits_fuel n) n)).
Proof.
  intros Hn. destruct (first_digit_char n Hn) as (d & ds & E & Hd & Hds).
  rewrite E. destruct ds as [|d' ds']; [done|].
  inversion Hds as [|? ? Hd' _]; subst. cbn [string_of_digits read_radix].
  rewrite bool_decide_eq_false_2; [done|].
  intros [_ [Hx|Hx]]; revert Hx; apply digit_char_ne; done || (vm_compute; lia).
Qed.

Lemma read_sign_printed n :
  (0 <= n)%Z ->
  read_sign (trim_start (string_of_digits (dec_digits (digits_fuel n) n))) =
  (1%Z, string_of_digits (dec_digits (digits_fuel n) n)).
Proof.
  intros Hn. destruct (first_digit_char n Hn) as (d & ds & E & Hd & Hds).
  rewrite E. cbn [string_of_digits trim_start]. rewrite digit_char_not_space by done.
  cbn [read_sign].
  rewrite !bool_decide_eq_false_2; [done| |]; apply digit_char_ne; done || (vm_compute; lia).
Qed.

(** Round trip: [parseInt] reads the decimal text of an integer (what an
    [<Input type="number">] holds after the user typed it) as its Number
    value, so it reads back exactly the integers that are doubles, all
    those up to 2^53 in magnitude among them. *)
Lemma parseInt_string_of_Z z :
  parseInt (string_of_Z z) = Some (double_round z) /\
  (parseInt (string_of_Z z) = Some z <-> double_round z = z).
Proof.
  enough (H : parseInt (string_of_Z z) = Some (double_round z)).
  { rewrite H. split; [done|]. split; [by injection 1|by intros ->]. }
  unfold string_of_Z, parseInt. destruct (Z.ltb_spec z 0) as [Hz|Hz].
  - cbn [trim_start]. rewrite (eq_refl : is_js_space "-" = false).
    cbn [read_sign]. rewrite bool_decide_eq_true_2 by done.
    rewrite read_radix_printed by lia.
    rewrite (parse_printed_digits (- z) (-1) (fun _ => None)) by lia. do 2 f_equal. lia.
  - rewrite read_sign_printed, read_radix_printed by done.
    rewrite (parse_printed_digits z 1 (fun _ => None)) by done. do 2 f_equal. lia.
Qed.

(** [parseInt(v) || 0] on the decimal text of an integer. *)
Lemma parseInt_or_zero_printed z : parseInt_or_zero (string_of_Z z) = double_round z.
Proof.
  unfold parseInt_or_zero. rewrite (proj1 (parseInt_string_of_Z z)).
  destruct (Z.eqb_spec (double_round z) 0); congruence.
Qed.

(** Precision loss: the text of 2^53 + 1 reads as 2^53. *)
Theorem parseInt_precision_loss :
  parseInt "9007199254740993" = Some 9007199254740992%Z /\
  string_of_Z (2 ^ 53 + 1)%Z = "9007199254740993".
Proof. vm_compute. split; reflexivity. Qed.

Lemma digit_value_not_decimal c :
  ~ (48 <= nat_of_ascii c <= 57) ->
  match digit_value c with Some d => (10 <= d)%Z | None => True end.
Proof. intros Hc. unfold digit_value. cbv zeta. repeat case_bool_decide; try done; lia. Qed.

(** Non-numeric text coerces to zero: when the first character is neither
    white space, a sign nor a decimal digit, [parseInt(v) || 0] is 0. *)
Theorem parseInt_or_zero_non_numeric c s :
  is_js_space c = false -> c <> "-"%char -> c <> "+"%char ->
  ~ (48 <= nat_of_ascii c <= 57) ->
  parseInt_or_zero (String c s) = 0%Z.
Proof.
  intros Hsp Hm Hp Hd. unfold parseInt_or_zero, parseInt.
  cbn [trim_start]. rewrite Hsp. cbn [read_sign].
  rewrite !bool_decide_eq_false_2 by done.
  assert (Hr : read_radix (String c s) = (10%Z, String c s)).
  { destruct s as [|x r]; [done|]. cbn [read_radix].
    rewrite bool_decide_eq_false_2; [done|]. intros [-> _]. apply Hd. vm_compute. lia. }
  rewrite Hr. cbn [digits_prefix].
  pose proof (digit_value_not_decimal c Hd) as Hv.
  destruct (digit_value c); [|done]. by rewrite bool_decide_eq_false_2 by lia.
Qed.

Lemma js_split_dot_nonempty s : js_split_dot s <> [].
Proof.
  induction s as [|c s IH]; simpl; [done|].
  case_bool_decide; [done|]. by destruct (js_split_dot s).
Qed.

(** Round trip: joining the parts of [path.split('.')] with '.' gives the
    path back. *)
Theorem js_join_split_dot s : js_join_dot (js_split_dot s) = s.
Proof.
  induction s as [|c s IH]; [done|]. cbn [js_split_dot].
  pose proof (js_split_dot_nonempty s) as Hne.
  case_bool_decide as Hc.
  - subst c. destruct (js_split_dot s) as [|p ps]; [done|].
    change (js_join_dot ("" :: p :: ps)) with ("" +:+ String "." (js_join_dot (p :: ps))).
    by rewrite IH.
  - destruct (js_split_dot s) as [|p [|q ps]]; [done| |].
    + cbn in IH |- *. by rewrite IH.
    + change (js_join_dot (String c p :: q :: ps))
        with (String c (p +:+ String "." (js_join_dot (q :: ps)))).
      by rewrite <- IH.
Qed.

Lemma js_split_dot_app p t :
  has_dot p = false ->
  js_split_dot (p +:+ t) =
  match js_split_dot t with q :: qs => (p +:+ q) :: qs | [] => [p] end.
Proof.
  induction p as [|c p IH]; intros Hp.
  - cbn. destruct (js_split_dot t) eqn:E; [by apply js_split_dot_nonempty in E|done].
  - cbn [has_dot] in Hp. apply orb_false_iff in Hp as [Hc Hp].
    change (String c p +:+ t) with (String c (p +:+ t)).
    cbn [js_split_dot]. rewrite IH by done.
    case_bool_decide as Hc'; [subst c; by vm_compute in Hc|].
    by destruct (js_split_dot t).
Qed.

Lemma string_app_nil_r (s : string) : s +:+ "" = s.
Proof. induction s as [|c s IH]; [done|]. change (String c (s +:+ "") = String c s). by rewrite IH. Qed.

(** [split('.')] inverts [join('.')] on dot-free keys. *)
Lemma split_join_dot ps :
  ps <> [] -> Forall (fun p => has_dot p = false) ps ->
  js_split_dot (js_join_dot ps) = ps.
Proof.
  induction ps as [|p ps IH]; intros Hne Hall; [done|].
  inversion Hall as [|? ? Hp Hps]; subst.
  destruct ps as [|q qs].
  - cbn [js_join_dot]. pose proof (js_split_dot_app p "" Hp) as E.
    rewrite string_app_nil_r in E. rewrite E. cbn. by rewrite string_app_nil_r.
  - change (js_join_dot (p :: q :: qs)) with (p +:+ String "." (js_join_dot (q :: qs))).
    rewrite js_split_dot_app by done. cbn [js_split_dot]. rewrite bool_decide_eq_true_2 by done.
    rewrite IH by done. by rewrite string_app_nil_r.
Qed.

(** Round trip the other way: a non-empty list of dot-free keys survives
    [join('.')] then [split('.')]. *)
Theorem js_split_join_dot ps :
  ps <> [] -> Forall (fun p => has_dot p = false) ps ->
  js_split_dot (js_join_dot ps) = ps.
Proof. exact (split_join_dot ps). Qed.

(** ** Witnesses *)

Lemma parseInt_or_zero_non_numeric_witness :
  is_js_space "a" = false /\ "a"%char <> "-"%char /\ "a"%char <> "+"%char /\
  ~ (48 <= nat_of_ascii "a" <= 57) /\ parseInt_or_zero "abc" = 0%Z.
Proof.
  assert (H1 : is_js_space "a" = false) by reflexivity.
  assert (H2 : "a"%char <> "-"%char) by discriminate.
  assert (H3 : "a"%char <> "+"%char) by discriminate.
  assert (H4 : ~ (48 <= nat_of_ascii "a" <= 57)) by (vm_compute; lia).
  split; [exact H1|]. split; [exact H2|]. split; [exact H3|]. split; [exact H4|].
  exact (parseInt_or_zero_non_numeric "a" "bc" H1 H2 H3 H4).
Defined.

Lemma js_split_join_dot_witness :
  ["nationalId"; "number"] <> [] /\
  Forall (fun p => has_dot p = false) ["nationalId"; "number"] /\
  js_split_dot (js_join_dot ["nationalId"; "number"]) = ["nationalId"; "number"].
Proof.
  assert (H1 : ["nationalId"; "number"] <> []) by discriminate.
  assert (H2 : Forall (fun p => has_dot p = false) ["nationalId"; "number"])
    by (repeat constructor).
  split; [exact H1|]. split; [exact H2|]. exact (js_split_join_dot _ H1 H2).
Defined.
