(* ===== verification/JsHeap.v ===== *)
(** * A heap of JavaScript objects

    The untyped half of FormDataProvider.tsx ([updateNestedFormData]) reads
    and writes object properties in place, so it is modelled on a heap:
    [loc]ations, values [jsval] (undefined, null, booleans, integers,
    strings, references), and objects as maps from property names to
    values.  Every object of the program is created by an object literal
    or a spread, so its prototype is [Object.prototype]; the model fixes
    that two-level chain: a property missing on an object is looked up on
    the cell [objproto] (whose own properties are the methods of
    ECMAScript 20.1.3, each a function object of the heap), and
    [__proto__] is the accessor of [Object.prototype].

    - [get_prop h l k] is [[Get]] of [obj[k]];
    - [set_prop h l k v] is [[Set]] of [obj[k] = v] in strict mode: an own
      or inherited data property is created or overwritten on the object;
      the [__proto__] setter ignores primitives, throws [TypeError] on
      [Object.prototype] (an immutable prototype), and on any other object
      would change its prototype, which leaves this model ([ProtoChange]);
    - [alloc] creates an object at the next free location;
    - [get_value h v k] and [set_value h v k x] are [v[k]] and
      [v[k] = x] on any value: undefined and null throw; a string, number
      or boolean is read through its wrapper (a string's [length] and
      characters, then [String.prototype], [Number.prototype] or
      [Boolean.prototype], then [Object.prototype]); writing a property
      of a primitive throws in strict mode except through the
      [__proto__] setter, which ignores it.
    [base_heap] holds the four built-in prototypes with their methods.
    Numbers are integers (no NaN); function objects are plain objects
    (their own [length]/[name] and [Function.prototype] are not
    modelled; a constructor has its own [prototype]).

    [jstree] is a JSON-like value (a nested object literal); [alloc_tree]
    builds it in the heap as the literal does; [read_path] reads a
    property path. *)

From S2P Require Import Prelude.
From Stdlib Require Import Ascii.

Record loc := Loc { loc_car : positive }.

#[global] Instance loc_eq_dec : EqDecision loc.
Proof. solve_decision. Defined.

#[global] Instance loc_countable : Countable loc.
Proof. by apply (inj_countable' loc_car Loc); intros []. Defined.

Inductive jsval :=
| JUndef
| JNull
| JBool (b : bool)
| JNum (z : Z)
| JStr (s : string)
| JRef (l : loc).

#[global] Instance jsval_eq_dec : EqDecision jsval.
Proof. solve_decision. Defined.

Inductive js_error :=
| TypeError
| ProtoChange.

Record heap := {
  h_cells : gmap loc (gmap string jsval);
  h_next : positive }.

(** [ToBoolean]: undefined, null, false, 0 and "" are falsy. *)
Definition truthy (v : jsval) : bool :=
  match v with
  | JUndef | JNull => false
  | JBool b => b
  | JNum z => negb (Z.eqb z 0)
  | JStr s => negb (bool_decide (s = ""))
  | JRef _ => true
  end.

Definition objproto : loc := Loc 1.

(** The own properties of [Object.prototype] (ECMAScript 20.1.3). *)
Definition objproto_members : list string :=
  ["constructor"; "hasOwnProperty"; "isPrototypeOf"; "propertyIsEnumerable";
   "toLocaleString"; "toString"; "valueOf"; "__defineGetter__";
   "__defineSetter__"; "__lookupGetter__"; "__lookupSetter__"].

(** The prototypes of the primitive wrappers: [String.prototype],
    [Number.prototype] and [Boolean.prototype] (ECMAScript 22.1.3,
    21.1.3, 20.3.3), whose own prototype is [Object.prototype]. *)
Definition strproto : loc := Loc 2.
Definition numproto : loc := Loc 3.
Definition boolproto : loc := Loc 4.

Definition strproto_members : list string :=
  ["constructor"; "anchor"; "at"; "big"; "blink"; "bold"; "charAt"; "charCodeAt";
   "codePointAt"; "concat"; "endsWith"; "fixed"; "fontcolor"; "fontsize"; "includes";
   "indexOf"; "isWellFormed"; "italics"; "lastIndexOf"; "link"; "localeCompare"; "match";
   "matchAll"; "normalize"; "padEnd"; "padStart"; "repeat"; "replace"; "replaceAll";
   "search"; "slice"; "small"; "split"; "startsWith"; "strike"; "sub"; "substr";
   "substring"; "sup"; "toLocaleLowerCase"; "toLocaleUpperCase"; "toLowerCase";
   "toString"; "toUpperCase"; "toWellFormed"; "trim"; "trimEnd"; "trimLeft"; "trimRight";
   "trimStart"; "valueOf"].

Definition numproto_members : list string :=
  ["constructor"; "toExponential"; "toFixed"; "toLocaleString"; "toPrecision"; "toString"; "valueOf"].

Definition boolproto_members : list string := ["constructor"; "toString"; "valueOf"].

(** The wrapper prototype [ToObject] gives a primitive. *)
Definition prim_proto (v : jsval) : option loc :=
  match v with
  | JBool _ => Some boolproto
  | JNum _ => Some numproto
  | JStr _ => Some strproto
  | _ => None
  end.

Definition cell (h : heap) (l : loc) : option (gmap string jsval) := h_cells h !! l.

(** [[Get]] of [obj[k]] on the chain [obj -> Object.prototype -> null]. *)
Definition get_prop (h : heap) (l : loc) (k : string) : jsval :=
  match cell h l with
  | None => JUndef
  | Some props =>
      match props !! k with
      | Some v => v
      | None =>
          if bool_decide (k = "__proto__") then
            (if bool_decide (l = objproto) then JNull else JRef objproto)
          else if bool_decide (l = objproto) then JUndef
          else match cell h objproto with
               | Some pp => default JUndef (pp !! k)
               | None => JUndef
               end
      end
  end.

(** ** Property access on any value (GetValue and PutValue of [v[k]]) *)

Definition digit_of (c : ascii) : option Z :=
  let n := nat_of_ascii c in
  if (48 <=? n)%nat && (n <=? 57)%nat then Some (Z.of_nat (n - 48)) else None.

Fixpoint digits_value (s : string) (acc : Z) : option Z :=
  match s with
  | EmptyString => Some acc
  | String c s' => d ← digit_of c; digits_value s' (acc * 10 + d)%Z
  end.

(** An array index written canonically: "0", or decimal digits without a
    leading zero. *)
Definition array_index (k : string) : option Z :=
  match k with
  | EmptyString => None
  | String c EmptyString => digit_of c
  | String c _ => if bool_decide (c = "0"%char) then None else digits_value k 0
  end.

(** The own properties of a String wrapper (ECMAScript 10.4.3): [length]
    and the characters at the integer indices below it. *)
Definition string_own (s : string) (k : string) : option jsval :=
  if bool_decide (k = "length") then Some (JNum (Z.of_nat (String.length s)))
  else match array_index k with
       | Some i =>
           if (i <? Z.of_nat (String.length s))%Z
           then c ← String.get (Z.to_nat i) s; Some (JStr (String c EmptyString))
           else None
       | None => None
       end.

(** A member of a wrapper prototype read from a primitive: the
    prototype's own and inherited properties, where the [__proto__]
    getter answers the wrapper prototype itself. *)
Definition get_proto_member (h : heap) (proto : loc) (k : string) : jsval :=
  match cell h proto with
  | Some props =>
      match props !! k with
      | Some x => x
      | None => if bool_decide (k = "__proto__") then JRef proto else get_prop h proto k
      end
  | None => JUndef
  end.

(** [v[k]]: undefined and null throw; a primitive is read through its
    wrapper. *)
Definition get_value (h : heap) (v : jsval) (k : string) : result jsval js_error :=
  match v with
  | JUndef | JNull => Err TypeError
  | JRef l => Ok (get_prop h l k)
  | JStr s => Ok (default (get_proto_member h strproto k) (string_own s k))
  | JNum _ => Ok (get_proto_member h numproto k)
  | JBool _ => Ok (get_proto_member h boolproto k)
  end.

Definition put_own (h : heap) (l : loc) (props : gmap string jsval) : heap :=
  {| h_cells := <[l := props]> (h_cells h); h_next := h_next h |}.

(** [[Set]] of [obj[k] = v] in strict mode. *)
Definition set_prop (h : heap) (l : loc) (k : string) (v : jsval) : result heap js_error :=
  match cell h l with
  | None => Ok h
  | Some props =>
      match props !! k with
      | Some _ => Ok (put_own h l (<[k := v]> props))
      | None =>
          if bool_decide (k = "__proto__") then
            match v with
            | JRef _ | JNull =>
                if bool_decide (l = objproto) then
                  (if bool_decide (v = JNull) then Ok h else Err TypeError)
                else Err ProtoChange
            | _ => Ok h
            end
          else Ok (put_own h l (<[k := v]> props))
      end
  end.

(** [v[k] = x] in strict mode.  On a primitive, [[Set]] runs with the
    primitive as receiver: every data property, own (a string's
    non-writable [length] and characters), inherited or absent, makes it
    return false, hence a [TypeError]; only the [__proto__] setter of
    [Object.prototype] runs, and it ignores a primitive receiver
    (ECMAScript 10.1.9.2, B.2.2.1.2). *)
Definition set_value (h : heap) (v : jsval) (k : string) (x : jsval) : result heap js_error :=
  match v with
  | JUndef | JNull => Err TypeError
  | JRef l => set_prop h l k x
  | _ => if bool_decide (k = "__proto__") then Ok h else Err TypeError
  end.

Definition alloc (props : gmap string jsval) (h : heap) : loc * heap :=
  (Loc (h_next h),
   {| h_cells := <[Loc (h_next h) := props]> (h_cells h); h_next := Pos.succ (h_next h) |}).

(** [{ ...o }]: a new object with the own properties of [o]. *)
Definition spread (h : heap) (l : loc) : gmap string jsval :=
  default ∅ (cell h l).

(** The built-in prototypes with their own members. *)
Definition builtin_protos : list (loc * list string) :=
  [(objproto, objproto_members); (strproto, strproto_members);
   (numproto, numproto_members); (boolproto, boolproto_members)].

(** One function object per member; a constructor's own [prototype]
    points back to the prototype. *)
Fixpoint alloc_methods (proto : loc) (ms : list string) (h : heap) : list (string * jsval) * heap :=
  match ms with
  | [] => ([], h)
  | m :: ms' =>
      let '(f, h1) := alloc (if bool_decide (m = "constructor") then {[ "prototype" := JRef proto ]} else ∅) h in
      let '(ps, h2) := alloc_methods proto ms' h1 in
      ((m, JRef f) :: ps, h2)
  end.

Definition install_proto (h : heap) (pm : loc * list string) : heap :=
  let '(ps, h1) := alloc_methods pm.1 pm.2 h in
  let extra := if bool_decide (pm.1 = strproto) then {[ "length" := JNum 0 ]} else ∅ in
  put_own h1 pm.1 (list_to_map ps ∪ extra).

(** The heap of a fresh page: the built-in prototypes and their methods. *)
Definition base_heap : heap :=
  foldl install_proto
    {| h_cells := list_to_map (map (fun pm => (pm.1, ∅)) builtin_protos); h_next := 5%positive |}
    builtin_protos.

(** Well-formed heaps: [Object.prototype] exists and every cell lies below
    the allocation pointer. *)
Definition wf_heap (h : heap) : Prop :=
  is_Some (cell h objproto) /\ forall l, is_Some (cell h l) -> (loc_car l < h_next h)%positive.

(** Decidable versions, for checking concrete heaps by evaluation. *)
Definition has_cell_b (h : heap) (l : loc) : bool := bool_decide (is_Some (cell h l)).

Definition wf_heap_b (h : heap) : bool :=
  has_cell_b h objproto &&
  forallb (fun lx => bool_decide (loc_car lx.1 < h_next h)%positive) (map_to_list (h_cells h)).

(** ** Nested literals *)

Inductive jstree :=
| TVal (v : jsval)
| TObj (kvs : list (string * jstree)).

(** Evaluating a nested object literal: inner objects first, then the
    object itself. *)
Fixpoint alloc_tree (t : jstree) (h : heap) : jsval * heap :=
  match t with
  | TVal v => (v, h)
  | TObj kvs =>
      let fix go (kvs : list (string * jstree)) (h : heap) : list (string * jsval) * heap :=
        match kvs with
        | [] => ([], h)
        | (k, t') :: rest =>
            let '(v, h1) := alloc_tree t' h in
            let '(ps, h2) := go rest h1 in
            ((k, v) :: ps, h2)
        end in
      let '(ps, h1) := go kvs h in
      let '(l, h2) := alloc (list_to_map ps) h1 in
      (JRef l, h2)
  end.

(** Reading [o.k1.k2...]: a property of a primitive reads as undefined. *)
Fixpoint read_path (h : heap) (v : jsval) (ks : list string) : jsval :=
  match ks with
  | [] => v
  | k :: ks' =>
      match v with
      | JRef l => read_path h (get_prop h l k) ks'
      | _ => JUndef
      end
  end.

(** The paths to the scalar leaves of a literal. *)
Fixpoint leaf_paths (t : jstree) : list (list string) :=
  match t with
  | TVal _ => [[]]
  | TObj kvs => mjoin (map (fun '(k, t') => map (cons k) (leaf_paths t')) kvs)
  end.

(** ** Frame lemmas *)

Lemma cell_put_own h l props l' :
  cell (put_own h l props) l' = if decide (l' = l) then Some props else cell h l'.
Proof. unfold cell, put_own. simpl. case_decide; subst; by simplify_map_eq. Qed.

Lemma cell_alloc props h l' :
  cell (alloc props h).2 l' = if decide (l' = Loc (h_next h)) then Some props else cell h l'.
Proof. unfold cell, alloc. simpl. case_decide; subst; by simplify_map_eq. Qed.

Lemma alloc_fresh props h : wf_heap h -> cell h (alloc props h).1 = None.
Proof.
  intros [_ Hwf]. simpl. destruct (cell h (Loc (h_next h))) eqn:E; [|done].
  specialize (Hwf (Loc (h_next h)) ltac:(by eexists)). simpl in Hwf. lia.
Qed.

Lemma alloc_not_objproto props h : wf_heap h -> (alloc props h).1 <> objproto.
Proof.
  intros Hwf Heq. pose proof (alloc_fresh props h Hwf) as Hf. rewrite Heq in Hf.
  destruct Hwf as [[? Hp] _]. congruence.
Qed.

Lemma alloc_wf props h : wf_heap h -> wf_heap (alloc props h).2.
Proof.
  intros [Hp Hwf]. split.
  - rewrite cell_alloc. case_decide; [by eexists|done].
  - intros l. rewrite cell_alloc. simpl. case_decide as Hl; [subst; simpl; lia|].
    intros Hs. specialize (Hwf l Hs). lia.
Qed.

Lemma put_own_wf h l props : wf_heap h -> is_Some (cell h l) -> wf_heap (put_own h l props).
Proof.
  intros [Hp Hwf] Hl. split.
  - rewrite cell_put_own. case_decide; [by eexists|done].
  - intros l'. rewrite cell_put_own. simpl. case_decide; subst; auto.
Qed.

(** A property read depends only on the object's cell and on
    [Object.prototype]'s cell. *)
Lemma get_prop_frame h h' l k :
  cell h' l = cell h l -> cell h' objproto = cell h objproto ->
  get_prop h' l k = get_prop h l k.
Proof. intros Hl Hp. unfold get_prop. by rewrite Hl, Hp. Qed.

(** Writing a key other than [__proto__] to an existing object makes it
    an own property. *)
Lemma set_prop_plain h l k v props :
  cell h l = Some props -> k <> "__proto__" ->
  set_prop h l k v = Ok (put_own h l (<[k := v]> props)).
Proof.
  intros Hc Hk. unfold set_prop. rewrite Hc.
  destruct (props !! k); [done|]. by rewrite bool_decide_eq_false_2.
Qed.

Lemma get_prop_own h l k props v : cell h l = Some props -> props !! k = Some v -> get_prop h l k = v.
Proof. intros Hc Hk. unfold get_prop. by rewrite Hc, Hk. Qed.

(** An existing object is its own spread. *)
Lemma cell_spread h l : has_cell_b h l = true -> cell h l = Some (spread h l).
Proof. unfold has_cell_b, spread. intros [x ->]%bool_decide_eq_true. done. Qed.

Lemma wf_heap_b_sound h : wf_heap_b h = true -> wf_heap h.
Proof.
  unfold wf_heap_b. intros [Hp Hall]%andb_prop. split; [by apply bool_decide_eq_true in Hp|].
  intros l [x Hx]. rewrite forallb_forall in Hall. specialize (Hall (l, x)).
  apply bool_decide_eq_true in Hall; [done|]. apply list_elem_of_In. by apply elem_of_map_to_list.
Qed.

(** A read through a primitive depends only on its wrapper prototype's
    cell and on [Object.prototype]'s. *)
Lemma get_value_frame h h' p pr k :
  prim_proto p = Some pr -> cell h' pr = cell h pr -> cell h' objproto = cell h objproto ->
  get_value h' p k = get_value h p k.
Proof.
  intros Hp Hc Ho.
  assert (Hm : get_proto_member h' pr k = get_proto_member h pr k).
  { unfold get_proto_member. rewrite Hc. destruct (cell h pr) as [props|] eqn:E; [|done].
    destruct (props !! k); [done|]. case_bool_decide; [done|].
    apply get_prop_frame; [by rewrite Hc|done]. }
  destruct p; simplify_eq/=; by rewrite Hm.
Qed.
