(* ===== verification/NestedUpdate.v ===== *)
(** * [updateNestedFormData] (src/app/providers/FormDataProvider.tsx)

    The updater passed to [setFormData], on the heap of [JsHeap]:
<<
      const result = { ...prev };
      const parts = path.split('.');
      let current: any = result;
      for (let i = 0; i < parts.length - 1; i++) {
        if (!current[parts[i]]) { current[parts[i]] = {}; }
        current = current[parts[i]];
      }
      current[parts[parts.length - 1]] = value;
      return result;
>>
    [descend] is the loop over [parts.slice(0, -1)] and [assign] the last
    statement, both through [get_value]/[set_value] of [JsHeap], so that
    a primitive [current] behaves as in JavaScript: [current[k]] on
    undefined or null throws; on a string, number or boolean it reads
    the wrapper's own properties (a string's [length] and characters),
    then the wrapper prototype's members (functions, which the walk
    enters), then [Object.prototype]'s; [current[k] = ...] on a
    primitive throws in strict mode (modules are strict) except for
    [__proto__], whose setter ignores it.

    Theorems: a path whose first key is missing or falsy succeeds and
    creates every intermediate object, leaving the previous state
    untouched (which also means a falsy leaf on the way is replaced by an
    object); a two-segment path writes into the nested object shared with
    the previous state, so the previous state (and the module constant
    [initialFormData]) changes too; "__proto__.k" writes [k] into
    [Object.prototype], visible from every object; a truthy primitive on
    the way makes the update throw when the next key reads a falsy member
    of it, or is the last key, and returns normally without writing
    anything when the last key is "__proto__"; a one-segment path is a shallow update (the empty
    path included, which sets a property named with the empty string); an update that
    returns allocates the top-level copy and at most one object per
    further segment. *)

From S2P Require Import Prelude FormData JsString JsHeap.

Fixpoint descend (h : heap) (current : jsval) (ks : list string)
  : result (heap * jsval) js_error :=
  match ks with
  | [] => Ok (h, current)
  | k :: ks' =>
      (c <-? get_value h current k ;;
       if truthy c then descend h c ks'
       else
         let '(l', h1) := alloc ∅ h in
         (h2 <-? set_value h1 current k (JRef l') ;;
          c' <-? get_value h2 current k ;;
          descend h2 c' ks'))%form
  end.

Definition assign (h : heap) (current : jsval) (k : string) (value : jsval) : result heap js_error :=
  set_value h current k value.

(** The new state and its location, or the exception thrown by the
    updater. *)
Definition updateNestedFormData (path : string) (value : jsval) (h : heap) (prev : loc)
  : result (heap * loc) js_error :=
  let '(res, h1) := alloc (spread h prev) h in
  let parts := js_split_dot path in
  (p <-? descend h1 (JRef res) (removelast parts) ;;
   h3 <-? assign p.1 p.2 (List.last parts "") value ;;
   Ok (h3, res))%form.

(** A key the walk can create below a fresh object: not the prototype
    accessor, and falsy on [Object.prototype]. *)
Definition key_ok (pp : gmap string jsval) (k : string) : Prop :=
  k <> "__proto__" /\ truthy (default JUndef (pp !! k)) = false.

(** ** Lemmas *)

Lemma get_prop_fresh h l pp k :
  cell h l = Some ∅ -> l <> objproto -> cell h objproto = Some pp -> k <> "__proto__" ->
  get_prop h l k = default JUndef (pp !! k).
Proof.
  intros Hl Hne Hp Hk. unfold get_prop. rewrite Hl, lookup_empty.
  rewrite !bool_decide_eq_false_2 by done. by rewrite Hp.
Qed.

(** Writing [k1] on one object changes no read of another key. *)
Lemma get_prop_put_other h o oprops k1 v l k :
  cell h o = Some oprops -> k <> k1 ->
  get_prop (put_own h o (<[k1 := v]> oprops)) l k = get_prop h l k.
Proof.
  intros Ho Hk. unfold get_prop. rewrite !cell_put_own.
  destruct (decide (l = o)) as [->|]; [rewrite Ho, lookup_insert_ne by done|];
  destruct (decide (objproto = o)) as [->|]; rewrite ?Ho, ?lookup_insert_ne by done; done.
Qed.

Lemma split_join_snoc ks klast :
  Forall (fun p => has_dot p = false) (ks ++ [klast]) ->
  js_split_dot (js_join_dot (ks ++ [klast])) = ks ++ [klast].
Proof. intros H. apply split_join_dot; [by destruct ks|done]. Qed.

Lemma removelast_snoc {A} (ks : list A) x : removelast (ks ++ [x]) = ks.
Proof. rewrite removelast_app by done. simpl. apply app_nil_r. Qed.

Lemma last_snoc (ks : list string) x : List.last (ks ++ [x]) "" = x.
Proof. apply last_last. Qed.

(** The loop below an object [l] whose first key is falsy creates one
    fresh object per remaining key, and the final assignment stores the
    value at the end of the path; no other existing object changes. *)
Lemma descend_write_fresh pp klast v : forall ks h l props,
  wf_heap h -> cell h objproto = Some pp -> cell h l = Some props -> l <> objproto ->
  Forall (key_ok pp) ks -> klast <> "__proto__" ->
  match ks with k :: _ => truthy (get_prop h l k) = false | [] => True end ->
  exists h',
    (p <-? descend h (JRef l) ks ;; assign p.1 p.2 klast v)%form = Ok h' /\
    read_path h' (JRef l) (ks ++ [klast]) = v /\
    (forall l0, l0 <> l -> is_Some (cell h l0) -> cell h' l0 = cell h l0) /\
    cell h' objproto = Some pp /\ wf_heap h'.
Proof.
  induction ks as [|k ks IH]; intros h l props Hwf Hpp Hl Hlp Hks Hlast Hhead.
  - exists (put_own h l (<[klast := v]> props)). simpl.
    rewrite (set_prop_plain _ _ _ _ props) by done. split; [done|].
    split; [apply (get_prop_own _ _ _ (<[klast := v]> props));
            [by rewrite cell_put_own, decide_True|by rewrite lookup_insert_eq]|].
    split; [intros l0 Hne _; by rewrite cell_put_own, decide_False|].
    split; [by rewrite cell_put_own, decide_False|]. by apply put_own_wf; [|eexists].
  - inversion Hks as [|? ? [Hk Hkp] Hks']; subst.
    cbn [descend get_value result_bind]. rewrite Hhead.
    change (alloc ∅ h) with (Loc (h_next h), (alloc ∅ h).2). cbn iota. cbn [set_value].
    pose proof (alloc_fresh ∅ h Hwf) as Hfresh. pose proof (alloc_not_objproto ∅ h Hwf) as Hl1p.
    pose proof (alloc_wf ∅ h Hwf) as Hwf1. pose proof (cell_alloc ∅ h) as Hc1. simpl in Hfresh, Hl1p.
    set (l1 := Loc (h_next h)) in *. set (h1 := (alloc ∅ h).2) in *.
    assert (Hl1l : l1 <> l) by (intros ->; congruence).
    assert (Hcl : cell h1 l = Some props) by (rewrite Hc1, decide_False; done).
    rewrite (set_prop_plain h1 l k (JRef l1) props) by done. simpl.
    set (h2 := put_own h1 l (<[k := JRef l1]> props)).
    assert (Hc2 : forall l0, cell h2 l0 = if decide (l0 = l) then Some (<[k := JRef l1]> props)
                                         else cell h1 l0) by (intros; apply cell_put_own).
    rewrite (get_prop_own h2 l k (<[k := JRef l1]> props) (JRef l1));
      [|by rewrite Hc2, decide_True|by rewrite lookup_insert_eq].
    assert (Hpp2 : cell h2 objproto = Some pp) by (rewrite Hc2, decide_False, Hc1, decide_False; done).
    assert (Hl12 : cell h2 l1 = Some ∅) by (rewrite Hc2, decide_False, Hc1, decide_True; done).
    destruct (IH h2 l1 ∅) as (h' & Hrun & Hread & Hframe & Hpp' & Hwf');
      [by apply put_own_wf; [|eexists]|done|done|done|done|done| |].
    { destruct ks as [|k' ks'']; [done|]. inversion Hks' as [|? ? [Hk' Hkp'] _]; subst.
      by rewrite (get_prop_fresh h2 l1 pp). }
    exists h'. split; [done|]. split.
    + simpl. rewrite (get_prop_own h' l k (<[k := JRef l1]> props) (JRef l1)); [done| |by rewrite lookup_insert_eq].
      rewrite Hframe by (done || (rewrite Hc2, decide_True; by eexists)).
      by rewrite Hc2, decide_True.
    + split; [|done]. intros l0 Hne Hs.
      assert (l0 <> l1) by (intros ->; rewrite Hfresh in Hs; by destruct Hs).
      rewrite Hframe by (done || (rewrite Hc2, decide_False, Hc1, decide_False; done)).
      by rewrite Hc2, decide_False, Hc1, decide_False.
Qed.

(** Reads of a spread copy are reads of the original. *)
Lemma get_prop_copy h h' r prev props k :
  cell h' r = Some props -> cell h prev = Some props ->
  cell h' objproto = cell h objproto -> r <> objproto -> prev <> objproto ->
  get_prop h' r k = get_prop h prev k.
Proof.
  intros Hr Hp Ho Hr' Hp'. unfold get_prop. rewrite Hr, Hp, Ho.
  by rewrite (bool_decide_eq_false_2 (r = objproto)), (bool_decide_eq_false_2 (prev = objproto)).
Qed.

(** The first statement [const result = { ...prev }]. *)
Lemma alloc_copy_facts h prev pprops :
  wf_heap h -> cell h prev = Some pprops ->
  let r := Loc (h_next h) in let h1 := (alloc (spread h prev) h).2 in
  cell h1 r = Some pprops /\ cell h r = None /\ r <> objproto /\ prev <> r /\
  cell h1 prev = cell h prev /\ cell h1 objproto = cell h objproto /\ wf_heap h1 /\
  (forall l0, l0 <> r -> cell h1 l0 = cell h l0).
Proof.
  intros Hwf Hp r h1.
  pose proof (alloc_fresh (spread h prev) h Hwf) as Hf.
  pose proof (alloc_not_objproto (spread h prev) h Hwf) as Hn. simpl in Hf, Hn.
  assert (Hother : forall l0, l0 <> r -> cell h1 l0 = cell h l0)
    by (intros l0 Hl0; unfold h1; by rewrite cell_alloc, decide_False).
  assert (prev <> r) by (intros Heq; subst r; rewrite <- Heq, Hp in Hf; done).
  split; [unfold h1; rewrite cell_alloc, decide_True by done; unfold spread; by rewrite Hp|].
  do 3 (split; [done|]). split; [by apply Hother|]. split; [by apply Hother|].
  split; [by apply alloc_wf|done].
Qed.

Lemma removelast_length {A} (l : list A) : length (removelast l) = length l - 1.
Proof. induction l as [|x [|y l] IH]; simpl in *; lia. Qed.

(** A write never allocates. *)
Lemma set_prop_next h l k v h' : set_prop h l k v = Ok h' -> h_next h' = h_next h.
Proof. unfold set_prop. repeat case_match; intros; simplify_eq; done. Qed.

Lemma set_value_next h c k v h' : set_value h c k v = Ok h' -> h_next h' = h_next h.
Proof.
  destruct c; simpl; try discriminate; [..|apply set_prop_next];
    case_bool_decide; intros; simplify_eq; done.
Qed.

Lemma assign_next h c k v h' : assign h c k v = Ok h' -> h_next h' = h_next h.
Proof. apply set_value_next. Qed.

(** Each iteration of the loop allocates at most one object. *)
Lemma descend_next ks : forall h c h' c', descend h c ks = Ok (h', c') ->
  (Pos.to_nat (h_next h) <= Pos.to_nat (h_next h') <= Pos.to_nat (h_next h) + length ks)%nat.
Proof.
  induction ks as [|k ks IH]; intros h c h' c' Hd; simpl in Hd.
  - simplify_eq. lia.
  - destruct (get_value h c k) as [x|] eqn:Eg; [|discriminate]. simpl in Hd.
    destruct (truthy x).
    + specialize (IH _ _ _ _ Hd). simpl. lia.
    + destruct (set_value _ _ _ _) as [h2|] eqn:Es; [|discriminate]. simpl in Hd.
      destruct (get_value h2 c k) as [x'|]; [|discriminate]. simpl in Hd.
      apply set_value_next in Es. simpl in Es. specialize (IH _ _ _ _ Hd).
      rewrite Es, Pos2Nat.inj_succ in IH. simpl. lia.
Qed.

(** C23. A path whose first key is missing (or falsy) on the previous state
    never fails: every intermediate object is created, the value is
    stored at the end of the path of the new state, and the previous
    state is left as it was.  (A falsy leaf such as "" or 0 on the way is
    replaced by a new object.) *)
Theorem updateNested_creates ks klast v h prev pprops pp :
  wf_heap h -> cell h prev = Some pprops -> prev <> objproto -> cell h objproto = Some pp ->
  Forall (fun p => has_dot p = false) (ks ++ [klast]) -> Forall (key_ok pp) ks ->
  klast <> "__proto__" ->
  match ks with k :: _ => truthy (get_prop h prev k) = false | [] => True end ->
  exists h' r,
    updateNestedFormData (js_join_dot (ks ++ [klast])) v h prev = Ok (h', r) /\
    read_path h' (JRef r) (ks ++ [klast]) = v /\
    forall k, get_prop h' prev k = get_prop h prev k.
Proof.
  intros Hwf Hprev Hpn Hpp Hdots Hks Hlast Hhead.
  destruct (alloc_copy_facts h prev pprops Hwf Hprev) as (Hr & Hrf & Hrn & Hpr & Hc1p & Hc1o & Hwf1 & Hoth).
  unfold updateNestedFormData.
  change (alloc (spread h prev) h) with (Loc (h_next h), (alloc (spread h prev) h).2). cbn iota.
  rewrite split_join_snoc, removelast_snoc, last_snoc by done.
  set (r := Loc (h_next h)) in *. set (h1 := (alloc (spread h prev) h).2) in *.
  destruct (descend_write_fresh pp klast v ks h1 r pprops) as (h' & Hrun & Hread & Hframe & Hpp' & Hwf');
    try done; [by rewrite Hc1o| |].
  { destruct ks as [|k ks']; [done|]. rewrite (get_prop_copy h h1 r prev pprops); try done. }
  exists h', r. rewrite <- result_bind_assoc, Hrun. split; [done|]. split; [done|].
  intros k. apply get_prop_frame; [|by rewrite Hpp'].
  rewrite Hframe by (done || (rewrite Hc1p, Hprev; by eexists)). done.
Qed.

(** A two-segment path writes into the object the previous state holds at
    the first key. *)
Lemma updateNested_two h prev pprops k0 k1 o oprops v :
  wf_heap h -> cell h prev = Some pprops -> prev <> objproto ->
  get_prop h prev k0 = JRef o -> cell h o = Some oprops -> k1 <> "__proto__" ->
  has_dot k0 = false -> has_dot k1 = false ->
  updateNestedFormData (js_join_dot [k0; k1]) v h prev =
  Ok (put_own (alloc (spread h prev) h).2 o (<[k1 := v]> oprops), Loc (h_next h)).
Proof.
  intros Hwf Hprev Hpn Hk0 Ho Hk1 Hd0 Hd1.
  destruct (alloc_copy_facts h prev pprops Hwf Hprev) as (Hr & Hrf & Hrn & Hpr & Hc1p & Hc1o & Hwf1 & Hoth).
  unfold updateNestedFormData.
  change (alloc (spread h prev) h) with (Loc (h_next h), (alloc (spread h prev) h).2). cbn iota.
  rewrite (split_join_dot [k0; k1]) by (done || (repeat constructor; done)).
  change (removelast [k0; k1]) with [k0]. change (List.last [k0; k1] "") with k1.
  set (r := Loc (h_next h)) in *. set (h1 := (alloc (spread h prev) h).2) in *.
  clearbody r h1. cbn [descend get_value result_bind].
  rewrite (get_prop_copy h h1 r prev pprops), Hk0 by done.
  cbn [truthy descend result_bind fst snd assign set_value].
  assert (Hor : o <> r) by (intros ->; congruence).
  rewrite (set_prop_plain h1 o k1 v oprops); [done| |done]. by rewrite Hoth.
Qed.

(** C4. A two-segment path such as "passport.number" mutates the nested
    object in place: the new state and the previous state (which shares
    that object, as does the module constant it was created from) both
    read the new value. *)
Theorem updateNested_aliases h prev pprops k0 k1 o oprops v :
  wf_heap h -> cell h prev = Some pprops -> prev <> objproto ->
  get_prop h prev k0 = JRef o -> cell h o = Some oprops -> k1 <> "__proto__" -> k0 <> k1 ->
  has_dot k0 = false -> has_dot k1 = false ->
  exists h' r,
    updateNestedFormData (js_join_dot [k0; k1]) v h prev = Ok (h', r) /\
    read_path h' (JRef r) [k0; k1] = v /\ read_path h' (JRef prev) [k0; k1] = v.
Proof.
  intros Hwf Hprev Hpn Hk0 Ho Hk1 Hne Hd0 Hd1.
  destruct (alloc_copy_facts h prev pprops Hwf Hprev) as (Hr & Hrf & Hrn & Hpr & Hc1p & Hc1o & Hwf1 & Hoth).
  rewrite (updateNested_two h prev pprops k0 k1 o oprops v) by done.
  set (h1 := (alloc (spread h prev) h).2) in *.
  assert (Ho1 : cell h1 o = Some oprops) by (rewrite Hoth; [done|]; intros ->; congruence).
  eexists _, _. split; [done|]. simpl.
  rewrite !(get_prop_put_other h1 o oprops k1 v) by done.
  rewrite (get_prop_copy h h1 _ prev pprops), (get_prop_frame h h1 prev), Hk0 by done.
  split; apply (get_prop_own _ _ _ (<[k1 := v]> oprops));
    rewrite ?cell_put_own, ?decide_True, ?lookup_insert_eq; done.
Qed.

(** C5. Prototype pollution: with the path "__proto__.k" the walk reaches
    [Object.prototype] through the [__proto__] accessor, and the write
    makes [k] readable on every object of the heap that has no own [k]. *)
Theorem updateNested_pollutes h prev pprops pp k v :
  wf_heap h -> cell h prev = Some pprops -> prev <> objproto -> pprops !! "__proto__" = None ->
  cell h objproto = Some pp -> k <> "__proto__" -> has_dot k = false ->
  exists h' r,
    updateNestedFormData (js_join_dot ["__proto__"; k]) v h prev = Ok (h', r) /\
    forall x xprops, cell h' x = Some xprops -> x <> objproto -> xprops !! k = None ->
                     get_prop h' x k = v.
Proof.
  intros Hwf Hprev Hpn Hown Hpp Hk Hd.
  assert (Hget : get_prop h prev "__proto__" = JRef objproto).
  { unfold get_prop. rewrite Hprev, Hown. by rewrite bool_decide_eq_true_2, bool_decide_eq_false_2. }
  rewrite (updateNested_two h prev pprops "__proto__" k objproto pp v) by done.
  eexists _, _. split; [done|]. intros x xprops Hx Hxo Hxk.
  unfold get_prop. rewrite Hx, Hxk. rewrite !bool_decide_eq_false_2 by done.
  rewrite cell_put_own, decide_True by done. simpl. by rewrite lookup_insert_eq.
Qed.

(** C24. A truthy primitive on the way (a non-empty string, a non-zero
    number, true): when the next key is the last one, or reads a falsy
    member of the primitive (any key that is not a character index,
    [length], or a member of its wrapper prototype or of
    [Object.prototype]), the updater throws a TypeError, since it assigns
    a property of the primitive; a path that ends in "__proto__" after it
    returns normally and writes nothing (the [__proto__] setter ignores a
    primitive), leaving only the copy of the previous state. *)
Theorem updateNested_primitive_throws h prev pprops k0 v p pr :
  wf_heap h -> cell h prev = Some pprops -> prev <> objproto ->
  get_prop h prev k0 = p -> truthy p = true -> prim_proto p = Some pr -> is_Some (cell h pr) ->
  has_dot k0 = false ->
  (forall k1 ks, Forall (fun q => has_dot q = false) (k1 :: ks) -> k1 <> "__proto__" ->
     (ks = [] \/ exists c, get_value h p k1 = Ok c /\ truthy c = false) ->
     updateNestedFormData (js_join_dot (k0 :: k1 :: ks)) v h prev = Err TypeError) /\
  updateNestedFormData (js_join_dot [k0; "__proto__"]) v h prev =
    Ok ((alloc (spread h prev) h).2, Loc (h_next h)).
Proof.
  intros Hwf Hprev Hpn Hp Htr Hpr Hprc Hd0.
  destruct (alloc_copy_facts h prev pprops Hwf Hprev) as (Hr & Hrf & Hrn & Hpr' & Hc1p & Hc1o & Hwf1 & Hoth).
  unfold updateNestedFormData.
  change (alloc (spread h prev) h) with (Loc (h_next h), (alloc (spread h prev) h).2). cbn iota.
  set (r := Loc (h_next h)) in *. set (h1 := (alloc (spread h prev) h).2) in *.
  assert (Hrpr : pr <> r) by (intros ->; rewrite Hrf in Hprc; by destruct Hprc).
  assert (Hv1 : forall k, get_value h1 p k = get_value h p k)
    by (intros; apply (get_value_frame h h1 p pr); [done|by apply Hoth|done]).
  assert (Hs1 : forall h' k x, set_value h' p k x = if bool_decide (k = "__proto__") then Ok h' else Err TypeError)
    by (intros; destruct p; simplify_eq/=; done).
  assert (Hk0 : get_value h1 (JRef r) k0 = Ok p)
    by (simpl; rewrite (get_prop_copy h h1 r prev pprops); by subst p).
  split.
  - intros k1 ks Hd Hk1 Hks.
    rewrite split_join_dot by (done || by constructor).
    destruct ks as [|k2 ks] using rev_ind.
    + change (removelast [k0; k1]) with [k0]. change (List.last [k0; k1] "") with k1.
      cbn [descend]. rewrite Hk0. cbn [result_bind]. rewrite Htr. cbn [descend result_bind fst snd assign].
      rewrite Hs1. by rewrite bool_decide_eq_false_2.
    + destruct Hks as [Hks|(c & Hc & Hcf)]; [by destruct ks|].
      rewrite !app_comm_cons, removelast_snoc.
      cbn [descend]. rewrite Hk0. cbn [result_bind]. rewrite Htr. cbn [descend].
      rewrite Hv1, Hc. cbn [result_bind]. rewrite Hcf.
      destruct (alloc ∅ h1) as [l' h2]. rewrite Hs1, bool_decide_eq_false_2 by done. done.
  - rewrite (split_join_dot [k0; "__proto__"]) by (done || (repeat constructor; done)).
    change (removelast [k0; "__proto__"]) with [k0]. change (List.last [k0; "__proto__"] "") with "__proto__".
    cbn [descend]. rewrite Hk0. cbn [result_bind]. rewrite Htr. cbn [descend result_bind fst snd assign].
    by rewrite Hs1, bool_decide_eq_true_2.
Qed.

(** A path without '.' is a shallow update: the new state holds the
    value at that key and the previous state's values elsewhere, and the
    previous state is unchanged. *)
Theorem updateNested_top_level h prev pprops k v :
  wf_heap h -> cell h prev = Some pprops -> prev <> objproto ->
  k <> "__proto__" -> has_dot k = false ->
  exists h' r,
    updateNestedFormData k v h prev = Ok (h', r) /\ get_prop h' r k = v /\
    (forall k', k' <> k -> get_prop h' r k' = get_prop h prev k') /\
    (forall k', get_prop h' prev k' = get_prop h prev k').
Proof.
  intros Hwf Hprev Hpn Hk Hd.
  destruct (alloc_copy_facts h prev pprops Hwf Hprev) as (Hr & Hrf & Hrn & Hpr & Hc1p & Hc1o & Hwf1 & Hoth).
  unfold updateNestedFormData.
  change (alloc (spread h prev) h) with (Loc (h_next h), (alloc (spread h prev) h).2). cbn iota.
  assert (Hs : js_split_dot k = [k]).
  { apply (split_join_dot [k]); [done|by repeat constructor]. }
  rewrite Hs. change (removelast [k]) with (@nil string). change (List.last [k] "") with k.
  set (r := Loc (h_next h)) in *. set (h1 := (alloc (spread h prev) h).2) in *.
  clearbody r h1. cbn [descend result_bind fst snd assign set_value].
  rewrite (set_prop_plain h1 r k v pprops) by done. cbn [result_bind].
  eexists _, _. split; [done|]. split.
  { apply (get_prop_own _ _ _ (<[k := v]> pprops)); by rewrite ?cell_put_own, ?decide_True, ?lookup_insert_eq. }
  split.
  - intros k' Hk'. rewrite (get_prop_put_other h1 r pprops k v) by done.
    by apply (get_prop_copy h h1 r prev pprops).
  - intros k'. rewrite get_prop_frame with (h := h); [done| |].
    + by rewrite cell_put_own, decide_False, Hc1p.
    + rewrite cell_put_own, decide_False by done. done.
Qed.

(** C25. Bound on the work of the loop: an update that returns allocates
    the top-level copy and at most one object per further segment of the
    path, so at least one and at most [parts.length] objects. *)
Theorem updateNested_alloc_bound path v h prev h' r :
  updateNestedFormData path v h prev = Ok (h', r) ->
  (Pos.to_nat (h_next h) < Pos.to_nat (h_next h') <=
   Pos.to_nat (h_next h) + length (js_split_dot path))%nat.
Proof.
  unfold updateNestedFormData. simpl. unfold result_bind.
  destruct (descend _ _ _) as [[h2 c]|] eqn:Ed; [|discriminate].
  destruct (assign _ _ _ _) as [h3|] eqn:Ea; [|discriminate]. intros [= <- <-].
  apply assign_next in Ea. apply descend_next in Ed. simpl in Ed, Ea. rewrite Ea.
  rewrite Pos2Nat.inj_succ, removelast_length in Ed.
  pose proof (js_split_dot_nonempty path). destruct (js_split_dot path); simpl in *; [done|]. lia.
Qed.

(** ** The record as a JavaScript object *)

Definition jstr (s : string) : jstree := TVal (JStr s).

Definition gender_str (g : Gender.t) : string :=
  match g with Gender.Male => "Male" | Gender.Female => "Female" | Gender.Other => "Other" end.

Definition maritalStatus_str (m : MaritalStatus.t) : string :=
  match m with
  | MaritalStatus.Single => "Single" | MaritalStatus.Married => "Married"
  | MaritalStatus.Divorced => "Divorced" | MaritalStatus.Widowed => "Widowed"
  | MaritalStatus.Unset => ""
  end.

Definition employmentStatus_str (e : EmploymentStatus.t) : string :=
  match e with
  | EmploymentStatus.Employed => "Employed" | EmploymentStatus.SelfEmployed => "Self-employed"
  | EmploymentStatus.Student => "Student" | EmploymentStatus.Retired => "Retired"
  | EmploymentStatus.Unemployed => "Unemployed" | EmploymentStatus.Unset => ""
  end.

Definition tripSponsor_str (t : TripSponsor.t) : string :=
  match t with
  | TripSponsor.Self => "Self" | TripSponsor.Employer => "Employer"
  | TripSponsor.Family => "Family" | TripSponsor.Other => "Other" | TripSponsor.Unset => ""
  end.

Definition tree_of_doc (d : IdDocument.t) : jstree :=
  TObj [("number", jstr (IdDocument.number d)); ("issuingAuthority", jstr (IdDocument.issuingAuthority d));
        ("dateOfIssue", jstr (IdDocument.dateOfIssue d)); ("dateOfExpiry", jstr (IdDocument.dateOfExpiry d))].

Definition tree_of_personalInfo (p : PersonalInfo.t) : jstree :=
  TObj [("email", jstr (PersonalInfo.email p)); ("phone", jstr (PersonalInfo.phone p));
        ("firstName", jstr (PersonalInfo.firstName p)); ("lastName", jstr (PersonalInfo.lastName p));
        ("gender", jstr (gender_str (PersonalInfo.gender p)));
        ("placeOfBirth", jstr (PersonalInfo.placeOfBirth p));
        ("hasNameChanged", TVal (JBool (PersonalInfo.hasNameChanged p)))].

Definition tree_of_spouse (s : Spouse.t) : jstree :=
  TObj [("firstName", jstr (Spouse.firstName s)); ("lastName", jstr (Spouse.lastName s));
        ("dateOfBirth", jstr (Spouse.dateOfBirth s)); ("nationality", jstr (Spouse.nationality s));
        ("travelingWithYou", TVal (JBool (Spouse.travelingWithYou s)))].

Definition tree_of_child (c : Child.t) : jstree :=
  TObj [("id", jstr (Child.id c)); ("firstName", jstr (Child.firstName c));
        ("lastName", jstr (Child.lastName c)); ("dateOfBirth", jstr (Child.dateOfBirth c));
        ("relationship", jstr (Child.relationship c));
        ("travelingWithYou", TVal (JBool (Child.travelingWithYou c)))].

Definition tree_of_currentAddress (a : CurrentAddress.t) : jstree :=
  TObj [("street", jstr (CurrentAddress.street a)); ("city", jstr (CurrentAddress.city a));
        ("state", jstr (CurrentAddress.state a)); ("postalCode", jstr (CurrentAddress.postalCode a));
        ("country", jstr (CurrentAddress.country a));
        ("yearsAtAddress", TVal (JNum (CurrentAddress.yearsAtAddress a)));
        ("monthsAtAddress", TVal (JNum (CurrentAddress.monthsAtAddress a)))].

Definition tree_of_previousAddress (a : PreviousAddress.t) : jstree :=
  TObj [("id", jstr (PreviousAddress.id a)); ("street", jstr (PreviousAddress.street a));
        ("city", jstr (PreviousAddress.city a)); ("state", jstr (PreviousAddress.state a));
        ("postalCode", jstr (PreviousAddress.postalCode a)); ("country", jstr (PreviousAddress.country a));
        ("fromDate", jstr (PreviousAddress.fromDate a)); ("toDate", jstr (PreviousAddress.toDate a));
        ("reasonForLeaving", jstr (PreviousAddress.reasonForLeaving a))].

Definition tree_of_employment (e : Employment.t) : jstree :=
  TObj [("companyName", jstr (Employment.companyName e)); ("jobTitle", jstr (Employment.jobTitle e));
        ("startDate", jstr (Employment.startDate e)); ("salary", jstr (Employment.salary e));
        ("employerAddress", jstr (Employment.employerAddress e));
        ("employerPhone", jstr (Employment.employerPhone e))].

Definition tree_of_selfEmployment (e : SelfEmployment.t) : jstree :=
  TObj [("businessName", jstr (SelfEmployment.businessName e));
        ("businessType", jstr (SelfEmployment.businessType e));
        ("annualIncome", jstr (SelfEmployment.annualIncome e));
        ("startDate", jstr (SelfEmployment.startDate e))].

Definition tree_of_education (e : Education.t) : jstree :=
  TObj [("institutionName", jstr (Education.institutionName e)); ("course", jstr (Education.course e));
        ("startDate", jstr (Education.startDate e)); ("endDate", jstr (Education.endDate e));
        ("isFullTime", TVal (JBool (Education.isFullTime e)))].

Definition tree_of_sponsor (s : SponsorDetails.t) : jstree :=
  TObj [("name", jstr (SponsorDetails.name s)); ("relationship", jstr (SponsorDetails.relationship s));
        ("contactInfo", jstr (SponsorDetails.contactInfo s))].

(** An array as an object with index keys and [length] (the array
    exotic behaviour of [length] is not modelled). *)
Definition tree_of_array (ts : list jstree) : jstree :=
  TObj (imap (fun i t => (string_of_Z (Z.of_nat i), t)) ts ++
        [("length", TVal (JNum (Z.of_nat (length ts))))]).

Definition opt_key {A} (k : string) (f : A -> jstree) (o : option A) : list (string * jstree) :=
  match o with Some x => [(k, f x)] | None => [] end.

(** The object of type [FormData]; an absent optional member is an absent
    key. *)
Definition tree_of_FormData (d : FormData) : jstree :=
  TObj ([("passport", tree_of_doc (passport d)); ("nationalId", tree_of_doc (nationalId d));
         ("personalInfo", tree_of_personalInfo (personalInfo d));
         ("maritalStatus", jstr (maritalStatus_str (maritalStatus d)))] ++
        opt_key "spouse" tree_of_spouse (spouse d) ++
        [("children", tree_of_array (map tree_of_child (children d)));
         ("currentAddress", tree_of_currentAddress (currentAddress d));
         ("previousAddresses", tree_of_array (map tree_of_previousAddress (previousAddresses d)));
         ("employmentStatus", jstr (employmentStatus_str (employmentStatus d)))] ++
        opt_key "employment" tree_of_employment (employment d) ++
        opt_key "selfEmployment" tree_of_selfEmployment (selfEmployment d) ++
        opt_key "education" tree_of_education (education d) ++
        [("tripSponsor", jstr (tripSponsor_str (tripSponsor d)))] ++
        opt_key "sponsorDetails" tree_of_sponsor (sponsorDetails d)).

(** The module constant [initialFormData], evaluated once when the module
    loads; [useState(initialFormData)] makes it the provider's first
    state. *)
Definition initial_module : jsval * heap := alloc_tree (tree_of_FormData initialFormData) base_heap.
Definition init_heap : heap := initial_module.2.
Definition init_loc : loc := match initial_module.1 with JRef l => l | _ => objproto end.

(** A computable sufficient condition for [wf_heap]. *)
Lemma init_heap_wf : wf_heap init_heap.
Proof. apply wf_heap_b_sound. vm_compute. reflexivity. Qed.

(** The spec's example on a fresh provider: [updateNestedFormData
    ("nationalId.number", "X123")] succeeds, the new state holds "X123"
    there and the same value as before at every other leaf of the record,
    and the module constant [initialFormData] now also holds "X123": the
    next [FormDataProvider] to mount starts from it. *)
Theorem nationalId_number_update :
  match updateNestedFormData "nationalId.number" (JStr "X123") init_heap init_loc with
  | Ok (h', r) =>
      read_path h' (JRef r) ["nationalId"; "number"] = JStr "X123" /\
      forallb (fun q => bool_decide (q = ["nationalId"; "number"]) ||
                        bool_decide (read_path h' (JRef r) q = read_path init_heap (JRef init_loc) q))
              (leaf_paths (tree_of_FormData initialFormData)) = true /\
      read_path h' (JRef init_loc) ["nationalId"; "number"] = JStr "X123"
  | Err _ => False
  end.
Proof. vm_compute. split; [reflexivity|]. split; reflexivity. Qed.

(** ** Witnesses on the heap of a fresh page *)

Definition init_props : gmap string jsval := spread init_heap init_loc.
Definition init_pp : gmap string jsval := spread init_heap objproto.
Definition nid_loc : loc :=
  match get_prop init_heap init_loc "nationalId" with JRef l => l | _ => objproto end.

Lemma init_facts :
  wf_heap init_heap /\ cell init_heap init_loc = Some init_props /\ init_loc <> objproto /\
  cell init_heap objproto = Some init_pp.
Proof.
  split; [apply init_heap_wf|]. split; [apply cell_spread; vm_compute; reflexivity|].
  split; [vm_compute; discriminate|apply cell_spread; vm_compute; reflexivity].
Qed.

Lemma updateNested_creates_witness :
  Forall (fun p => has_dot p = false) (["spouse"] ++ ["firstName"]) /\
  Forall (key_ok init_pp) ["spouse"] /\ "firstName" <> "__proto__" /\
  truthy (get_prop init_heap init_loc "spouse") = false /\
  exists h' r,
    updateNestedFormData (js_join_dot (["spouse"] ++ ["firstName"])) (JStr "Ann") init_heap init_loc = Ok (h', r) /\
    read_path h' (JRef r) (["spouse"] ++ ["firstName"]) = JStr "Ann" /\
    forall k, get_prop h' init_loc k = get_prop init_heap init_loc k.
Proof.
  destruct init_facts as (Hwf & Hc & Hn & Hp).
  assert (H1 : Forall (fun p => has_dot p = false) (["spouse"] ++ ["firstName"])) by (repeat constructor).
  assert (H2 : Forall (key_ok init_pp) ["spouse"])
    by (constructor; [split; [discriminate|vm_compute; reflexivity]|constructor]).
  assert (H3 : "firstName" <> "__proto__") by discriminate.
  assert (H4 : truthy (get_prop init_heap init_loc "spouse") = false) by (vm_compute; reflexivity).
  split; [exact H1|]. split; [exact H2|]. split; [exact H3|]. split; [exact H4|].
  exact (updateNested_creates ["spouse"] "firstName" (JStr "Ann") init_heap init_loc
           init_props init_pp Hwf Hc Hn Hp H1 H2 H3 H4).
Defined.

Lemma updateNested_aliases_witness :
  get_prop init_heap init_loc "nationalId" = JRef nid_loc /\
  cell init_heap nid_loc = Some (spread init_heap nid_loc) /\
  exists h' r,
    updateNestedFormData (js_join_dot ["nationalId"; "number"]) (JStr "X123") init_heap init_loc = Ok (h', r) /\
    read_path h' (JRef r) ["nationalId"; "number"] = JStr "X123" /\
    read_path h' (JRef init_loc) ["nationalId"; "number"] = JStr "X123".
Proof.
  destruct init_facts as (Hwf & Hc & Hn & Hp).
  assert (H1 : get_prop init_heap init_loc "nationalId" = JRef nid_loc) by (vm_compute; reflexivity).
  assert (H2 : cell init_heap nid_loc = Some (spread init_heap nid_loc))
    by (apply cell_spread; vm_compute; reflexivity).
  split; [exact H1|]. split; [exact H2|].
  exact (updateNested_aliases init_heap init_loc init_props "nationalId" "number" nid_loc
           (spread init_heap nid_loc) (JStr "X123") Hwf Hc Hn H1 H2
           ltac:(discriminate) ltac:(discriminate) eq_refl eq_refl).
Defined.

Lemma updateNested_pollutes_witness :
  init_props !! "__proto__" = None /\
  exists h' r,
    updateNestedFormData (js_join_dot ["__proto__"; "isAdmin"]) (JBool true) init_heap init_loc = Ok (h', r) /\
    forall x xprops, cell h' x = Some xprops -> x <> objproto -> xprops !! "isAdmin" = None ->
                     get_prop h' x "isAdmin" = JBool true.
Proof.
  destruct init_facts as (Hwf & Hc & Hn & Hp).
  assert (H1 : init_props !! "__proto__" = None) by (vm_compute; reflexivity).
  split; [exact H1|].
  exact (updateNested_pollutes init_heap init_loc init_props init_pp "isAdmin" (JBool true)
           Hwf Hc Hn H1 Hp ltac:(discriminate) eq_refl).
Defined.

(** The state after [updateNestedFormData("maritalStatus", "Married")]. *)
Definition married_state : heap * loc :=
  match updateNestedFormData "maritalStatus" (JStr "Married") init_heap init_loc with
  | Ok p => p
  | Err _ => (init_heap, init_loc)
  end.

Lemma updateNested_primitive_throws_witness :
  updateNestedFormData (js_join_dot ["maritalStatus"; "spouseName"]) (JStr "x")
    married_state.1 married_state.2 = Err TypeError /\
  updateNestedFormData (js_join_dot ["maritalStatus"; "foo"; "bar"]) (JStr "x")
    married_state.1 married_state.2 = Err TypeError /\
  updateNestedFormData (js_join_dot ["maritalStatus"; "__proto__"]) (JStr "x")
    married_state.1 married_state.2 =
    Ok ((alloc (spread married_state.1 married_state.2) married_state.1).2, Loc (h_next married_state.1)).
Proof.
  assert (H1 : wf_heap married_state.1) by (apply wf_heap_b_sound; vm_compute; reflexivity).
  assert (H2 : cell married_state.1 married_state.2 = Some (spread married_state.1 married_state.2))
    by (apply cell_spread; vm_compute; reflexivity).
  assert (H3 : married_state.2 <> objproto) by (vm_compute; discriminate).
  assert (H4 : get_prop married_state.1 married_state.2 "maritalStatus" = JStr "Married")
    by (vm_compute; reflexivity).
  assert (H5 : is_Some (cell married_state.1 strproto))
    by (apply (bool_decide_eq_true_1 _ : has_cell_b _ _ = true -> _); vm_compute; reflexivity).
  destruct (updateNested_primitive_throws married_state.1 married_state.2 _ "maritalStatus" (JStr "x")
              (JStr "Married") strproto H1 H2 H3 H4 eq_refl eq_refl H5 eq_refl) as [Hthrow Hproto].
  split; [apply Hthrow; [repeat constructor|discriminate|by left]|].
  split; [|exact Hproto].
  apply Hthrow; [repeat constructor|discriminate|].
  right. exists JUndef. split; vm_compute; reflexivity.
Defined.

(** Through a primitive the walk enters the members of its wrapper
    prototype: "maritalStatus.constructor.x" on a married state returns
    normally and writes [x] on the String function, which every string
    then reaches through [constructor]. *)
Example updateNested_writes_String :
  match updateNestedFormData "maritalStatus.constructor.x" (JStr "x") married_state.1 married_state.2 with
  | Ok (h', _) => (c <-? get_value h' (JStr "any") "constructor" ;; get_value h' c "x")%form = Ok (JStr "x")
  | Err _ => False
  end.
Proof. vm_compute. reflexivity. Qed.

Lemma updateNested_top_level_witness :
  exists h' r,
    updateNestedFormData "maritalStatus" (JStr "Married") init_heap init_loc = Ok (h', r) /\
    get_prop h' r "maritalStatus" = JStr "Married" /\
    (forall k', k' <> "maritalStatus" -> get_prop h' r k' = get_prop init_heap init_loc k') /\
    (forall k', get_prop h' init_loc k' = get_prop init_heap init_loc k').
Proof.
  destruct init_facts as (Hwf & Hc & Hn & Hp).
  exact (updateNested_top_level init_heap init_loc init_props "maritalStatus" (JStr "Married")
           Hwf Hc Hn ltac:(discriminate) eq_refl).
Defined.

Definition nid_update_result : heap * loc :=
  match updateNestedFormData "nationalId.number" (JStr "X123") init_heap init_loc with
  | Ok p => p
  | Err _ => (init_heap, init_loc)
  end.

Lemma updateNested_alloc_bound_witness :
  updateNestedFormData "nationalId.number" (JStr "X123") init_heap init_loc =
    Ok (nid_update_result.1, nid_update_result.2) /\
  (Pos.to_nat (h_next init_heap) < Pos.to_nat (h_next nid_update_result.1) <=
   Pos.to_nat (h_next init_heap) + length (js_split_dot "nationalId.number"))%nat.
Proof.
  assert (H : updateNestedFormData "nationalId.number" (JStr "X123") init_heap init_loc =
              Ok (nid_update_result.1, nid_update_result.2)) by (vm_compute; reflexivity).
  split; [exact H|]. exact (updateNested_alloc_bound _ _ _ _ _ _ H).
Defined.
