(* ===== verification/TsTypes.v ===== *)
(** * The TypeScript type [FormData] and the values of the heap that have it

    [tstype] describes the types FormDataProvider.tsx writes for the
    record: strings, numbers, booleans, unions of string literals, object
    types with required and optional members, and [Array<..>].
    [formDataType] is [type FormData] (FormDataProvider.tsx lines 7-100)
    written in that syntax.  [conforms h v t] checks that the heap value
    [v] has type [t] the way the declaration reads: every required member
    present with its type, an optional member absent or of its type,
    every index below [length] of an array of the element type (the
    encoding of arrays is the one of [tree_of_array]).  The check recurses
    on the type, not on the heap, so shared or cyclic objects need no
    fuel.

    Theorems: on every state of type [FormData], [updateNestedFormData]
    (whose [value] is [any]) writing a primitive of the wrong type at a
    required member of a nested object leaves a state that is not a
    [FormData], and through the aliasing of the nested objects the
    previous state loses its type too; the module constant
    [initialFormData] has type [FormData] (the witness starts from it). *)

From S2P Require Import Prelude FormData JsString JsHeap NestedUpdate.

Inductive tstype :=
| TString
| TNumber
| TBoolean
| TLit (ss : list string)
| TObject (fields : list (string * bool * tstype))
| TArray (t : tstype).

Definition obj (fs : list (string * tstype)) : tstype :=
  TObject (map (fun '(k, t) => (k, false, t)) fs).

Definition idDocumentType : tstype :=
  obj [("number", TString); ("issuingAuthority", TString);
       ("dateOfIssue", TString); ("dateOfExpiry", TString)].

(** The members of [type FormData]. *)
Definition formData_members : list (string * bool * tstype) := [
    ("passport", false, idDocumentType);
    ("nationalId", false, idDocumentType);
    ("personalInfo", false,
      obj [("email", TString); ("phone", TString); ("firstName", TString); ("lastName", TString);
           ("gender", TLit ["Male"; "Female"; "Other"]); ("placeOfBirth", TString);
           ("hasNameChanged", TBoolean)]);
    ("maritalStatus", false, TLit ["Single"; "Married"; "Divorced"; "Widowed"; ""]);
    ("spouse", true,
      obj [("firstName", TString); ("lastName", TString); ("dateOfBirth", TString);
           ("nationality", TString); ("travelingWithYou", TBoolean)]);
    ("children", false,
      TArray (obj [("id", TString); ("firstName", TString); ("lastName", TString);
                   ("dateOfBirth", TString); ("relationship", TString);
                   ("travelingWithYou", TBoolean)]));
    ("currentAddress", false,
      obj [("street", TString); ("city", TString); ("state", TString); ("postalCode", TString);
           ("country", TString); ("yearsAtAddress", TNumber); ("monthsAtAddress", TNumber)]);
    ("previousAddresses", false,
      TArray (obj [("id", TString); ("street", TString); ("city", TString); ("state", TString);
                   ("postalCode", TString); ("country", TString); ("fromDate", TString);
                   ("toDate", TString); ("reasonForLeaving", TString)]));
    ("employmentStatus", false,
      TLit ["Employed"; "Self-employed"; "Student"; "Retired"; "Unemployed"; ""]);
    ("employment", true,
      obj [("companyName", TString); ("jobTitle", TString); ("startDate", TString);
           ("salary", TString); ("employerAddress", TString); ("employerPhone", TString)]);
    ("selfEmployment", true,
      obj [("businessName", TString); ("businessType", TString); ("annualIncome", TString);
           ("startDate", TString)]);
    ("education", true,
      obj [("institutionName", TString); ("course", TString); ("startDate", TString);
           ("endDate", TString); ("isFullTime", TBoolean)]);
    ("tripSponsor", false, TLit ["Self"; "Employer"; "Family"; "Other"; ""]);
    ("sponsorDetails", true,
      obj [("name", TString); ("relationship", TString); ("contactInfo", TString)])].

(** [type FormData]. *)
Definition formDataType : tstype := TObject formData_members.

Definition is_undef (v : jsval) : bool := match v with JUndef => true | _ => false end.

(** [v] has type [t] in heap [h]. *)
Fixpoint conforms (h : heap) (v : jsval) (t : tstype) {struct t} : bool :=
  match t with
  | TString => match v with JStr _ => true | _ => false end
  | TNumber => match v with JNum _ => true | _ => false end
  | TBoolean => match v with JBool _ => true | _ => false end
  | TLit ss => match v with JStr s => bool_decide (s ∈ ss) | _ => false end
  | TObject fs =>
      match v with
      | JRef l =>
          (fix members (fs : list (string * bool * tstype)) : bool :=
             match fs with
             | [] => true
             | (k, optional, t') :: fs' =>
                 (if optional && is_undef (get_prop h l k) then true
                  else conforms h (get_prop h l k) t') && members fs'
             end) fs
      | _ => false
      end
  | TArray t' =>
      match v with
      | JRef l =>
          match get_prop h l "length" with
          | JNum n =>
              bool_decide (0 <= n)%Z &&
              forallb (fun i => conforms h (get_prop h l (string_of_Z (Z.of_nat i))) t')
                      (seq 0 (Z.to_nat n))
          | _ => false
          end
      | _ => false
      end
  end.

(** ** Lemmas *)

Lemma conforms_undef h t : conforms h JUndef t = false.
Proof. by destruct t. Qed.

(** The type of a primitive does not depend on the heap. *)
Lemma conforms_prim h h' v t : (forall l, v <> JRef l) -> conforms h' v t = conforms h v t.
Proof. intros Hv. destruct t, v; try done; by destruct (Hv l). Qed.

(** An object has its type only if each required member has its type. *)
Lemma conforms_member h l fs k t :
  In (k, false, t) fs -> conforms h (JRef l) (TObject fs) = true ->
  conforms h (get_prop h l k) t = true.
Proof.
  induction fs as [|[[k' o'] t'] fs IH]; [done|]. intros [Heq|Hin] Hc; simpl in Hc.
  - injection Heq as -> -> ->. simpl in Hc. by apply andb_prop in Hc as [Hc _].
  - apply andb_prop in Hc as [_ Hc]. by apply IH.
Qed.

Lemma conforms_member_false h l fs k t :
  In (k, false, t) fs -> conforms h (get_prop h l k) t = false ->
  conforms h (JRef l) (TObject fs) = false.
Proof.
  intros Hin Hf. destruct (conforms h (JRef l) (TObject fs)) eqn:E; [|done].
  by rewrite (conforms_member h l fs k t) in Hf.
Qed.

(** ** Theorems *)

(** The module constant [initialFormData], as the object the module
    allocates, has the declared type [FormData]. *)
Lemma initialFormData_conforms : conforms init_heap (JRef init_loc) formDataType = true.
Proof. vm_compute. reflexivity. Qed.

(** C12. [updateNestedFormData] (whose [value] is [any]) does not keep the
    record's type: on any state of type [FormData], writing a primitive
    of the wrong type at a required member of a required object member
    (a string at "currentAddress.yearsAtAddress", declared [number])
    returns a state that is not a [FormData], and, the nested object
    being shared, the previous state stops being one too. *)
Theorem updateNested_breaks_type h prev pprops k0 fs1 k1 t1 v :
  wf_heap h -> cell h prev = Some pprops -> prev <> objproto ->
  conforms h (JRef prev) formDataType = true ->
  In (k0, false, TObject fs1) formData_members -> In (k1, false, t1) fs1 ->
  k0 <> k1 -> k1 <> "__proto__" -> has_dot k0 = false -> has_dot k1 = false ->
  (forall l, v <> JRef l) -> conforms h v t1 = false ->
  exists h' r,
    updateNestedFormData (js_join_dot [k0; k1]) v h prev = Ok (h', r) /\
    conforms h' (JRef r) formDataType = false /\ conforms h' (JRef prev) formDataType = false.
Proof.
  intros Hwf Hprev Hpn Hty Hk0 Hk1 Hne Hp1 Hd0 Hd1 Hv Hvt.
  pose proof (conforms_member h prev _ k0 _ Hk0 Hty) as Ho.
  destruct (get_prop h prev k0) as [| | | | |o] eqn:Eo; try done.
  destruct (cell h o) as [oprops|] eqn:Eco.
  2:{ pose proof (conforms_member h o fs1 k1 t1 Hk1 Ho) as Hm.
      unfold get_prop in Hm. by rewrite Eco, conforms_undef in Hm. }
  rewrite (updateNested_two h prev pprops k0 k1 o oprops v) by done.
  destruct (alloc_copy_facts h prev pprops Hwf Hprev) as (Hr & Hrf & Hrn & Hpr & Hc1p & Hc1o & Hwf1 & Hoth).
  set (h1 := (alloc (spread h prev) h).2) in *. set (r := Loc (h_next h)) in *.
  assert (Ho1 : cell h1 o = Some oprops) by (rewrite Hoth; [done|]; intros ->; congruence).
  set (h' := put_own h1 o (<[k1 := v]> oprops)).
  assert (Hv' : get_prop h' o k1 = v).
  { apply (get_prop_own _ _ _ (<[k1 := v]> oprops)); unfold h'; by rewrite ?cell_put_own, ?decide_True, ?lookup_insert_eq. }
  assert (Hobj : conforms h' (JRef o) (TObject fs1) = false).
  { apply (conforms_member_false h' o fs1 k1 t1 Hk1). by rewrite Hv', (conforms_prim h). }
  exists h', r. split; [done|]. split.
  - apply (conforms_member_false h' r _ k0 _ Hk0).
    rewrite (get_prop_put_other h1 o oprops k1 v) by done.
    by rewrite (get_prop_copy h h1 r prev pprops), Eo.
  - apply (conforms_member_false h' prev _ k0 _ Hk0).
    rewrite (get_prop_put_other h1 o oprops k1 v) by done.
    by rewrite (get_prop_frame h h1 prev), Eo.
Qed.

(** ** Witnesses *)

Lemma updateNested_breaks_type_witness :
  exists h' r,
    updateNestedFormData (js_join_dot ["currentAddress"; "yearsAtAddress"]) (JStr "5") init_heap init_loc
      = Ok (h', r) /\
    conforms h' (JRef r) formDataType = false /\ conforms h' (JRef init_loc) formDataType = false.
Proof.
  destruct init_facts as (Hwf & Hc & Hn & _).
  apply (updateNested_breaks_type init_heap init_loc init_props "currentAddress"
           (map (fun '(k, t) => (k, false, t))
              [("street", TString); ("city", TString); ("state", TString); ("postalCode", TString);
               ("country", TString); ("yearsAtAddress", TNumber); ("monthsAtAddress", TNumber)])
           "yearsAtAddress" TNumber (JStr "5") Hwf Hc Hn initialFormData_conforms).
  - repeat (first [left; reflexivity | right]).
  - repeat (first [left; reflexivity | right]).
  - discriminate.
  - discriminate.
  - vm_compute; reflexivity.
  - vm_compute; reflexivity.
  - discriminate.
  - vm_compute; reflexivity.
Defined.
