(* ===== verification/Zod.v ===== *)
(** * The zod schemas of src/app/lib/schemas.ts

    Each schema is a validator from the typed record to the list of zod
    issues [(path, message)] in the order of the object's keys; a schema
    accepts a value iff the list is empty.  The combinators are zod 3's:
    - [z.string().min(n, msg)]: the string has at least [n] characters
      (UTF-16 code units in JavaScript; one per character for the 8-bit
      strings of this model);
    - [z.string().email(msg)]: zod 3.22's [emailRegex]
      [/^(?!\.)(?!.*\.\.)([A-Z0-9_'+\-\.]* )[A-Z0-9_+-]@([A-Z0-9][A-Z0-9\-]*\.)+[A-Z]{2,}$/i],
      decided here directly: exactly one '@'; a local part that does not
      start with '.', has no "..", uses [A-Za-z0-9_'+-.] and ends in
      [A-Za-z0-9_+-]; a domain of one or more labels (a letter or digit,
      then letters, digits or '-') each followed by '.', then a top-level
      label of two or more letters;
    - [z.number().min(0).max(11)] with zod's default messages;
    - [z.enum] and [z.boolean] accept every value of the typed record.
    [errors_of] is what [zodResolver] hands to react-hook-form: the first
    issue of each field, in a map from field name to message.

    Theorems: the personal-info schema accepts exactly the records whose
    fields meet their rules; an accepted email has one '@' and a dotted
    domain; the current-address schema bounds the months. *)

From S2P Require Import Prelude FormData.
From Stdlib Require Import Ascii.

Definition Issue : Type := string * string.

(** ** Combinators *)

Definition z_string_min (n : nat) (msg field v : string) : list Issue :=
  if bool_decide (n <= String.length v) then [] else [(field, msg)].

Definition z_number_min (lo : Z) (field : string) (v : Z) : list Issue :=
  if bool_decide (lo <= v)%Z then []
  else [(field, "Number must be greater than or equal to 0")].

Definition z_number_max (hi : Z) (field : string) (v : Z) : list Issue :=
  if bool_decide (v <= hi)%Z then []
  else [(field, "Number must be less than or equal to 11")].

(** *** The email regular expression *)

Definition in_range (lo hi : nat) (c : ascii) : bool :=
  bool_decide (lo <= nat_of_ascii c <= hi).

Definition is_alpha (c : ascii) : bool := in_range 65 90 c || in_range 97 122 c.
Definition is_digit (c : ascii) : bool := in_range 48 57 c.
Definition is_alnum (c : ascii) : bool := is_alpha c || is_digit c.
Definition is_char (d : ascii) (c : ascii) : bool := bool_decide (c = d).

(** [[A-Z0-9_'+\-\.]] and [[A-Z0-9_+-]] under the [i] flag. *)
Definition local_char (c : ascii) : bool :=
  is_alnum c || is_char "_" c || is_char "'" c || is_char "+" c || is_char "-" c || is_char "." c.
Definition local_last_char (c : ascii) : bool :=
  is_alnum c || is_char "_" c || is_char "+" c || is_char "-" c.

(** The characters before the first occurrence of [d], and those after. *)
Fixpoint split_first (d : ascii) (l : list ascii) : option (list ascii * list ascii) :=
  match l with
  | [] => None
  | c :: r =>
      if is_char d c then Some ([], r)
      else match split_first d r with
           | Some (a, b) => Some (c :: a, b)
           | None => None
           end
  end.

(** All pieces between occurrences of [d]. *)
Fixpoint split_all (d : ascii) (l : list ascii) : list (list ascii) :=
  match l with
  | [] => [[]]
  | c :: r =>
      if is_char d c then [] :: split_all d r
      else match split_all d r with
           | p :: ps => (c :: p) :: ps
           | [] => [[c]]
           end
  end.

Fixpoint no_double_dot (l : list ascii) : bool :=
  match l with
  | c1 :: (c2 :: _) as r => negb (is_char "." c1 && is_char "." c2) && no_double_dot r
  | _ => true
  end.

(** The part of the regular expression before the '@'. *)
Definition valid_local (l : list ascii) : bool :=
  match l with
  | [] => false
  | c :: _ =>
      negb (is_char "." c) && forallb local_char l &&
      local_last_char (List.last l "a"%char) && no_double_dot l
  end.

(** [[A-Z0-9][A-Z0-9\-]*] *)
Definition valid_label (l : list ascii) : bool :=
  match l with
  | [] => false
  | c :: r => is_alnum c && forallb (fun x => is_alnum x || is_char "-" x) r
  end.

(** [[A-Z]{2,}] *)
Definition valid_tld (l : list ascii) : bool :=
  bool_decide (2 <= length l) && forallb is_alpha l.

(** [([A-Z0-9][A-Z0-9\-]*\.)+[A-Z]{2,}$] *)
Definition valid_domain (l : list ascii) : bool :=
  let parts := split_all "." l in
  bool_decide (2 <= length parts) &&
  forallb valid_label (removelast parts) && valid_tld (List.last parts []).

Definition zod_email (s : string) : bool :=
  match split_first "@" (String.list_ascii_of_string s) with
  | Some (local, domain) => valid_local local && valid_domain domain
  | None => false
  end.

Definition z_string_email (msg field v : string) : list Issue :=
  if zod_email v then [] else [(field, msg)].

(** ** The schemas *)

Definition personalInfoSchema (v : PersonalInfo.t) : list Issue :=
  z_string_email "Valid email required" "email" (PersonalInfo.email v) ++
  z_string_min 5 "Phone number is required" "phone" (PersonalInfo.phone v) ++
  z_string_min 1 "First name is required" "firstName" (PersonalInfo.firstName v) ++
  z_string_min 1 "Last name is required" "lastName" (PersonalInfo.lastName v) ++
  z_string_min 1 "Place of birth is required" "placeOfBirth" (PersonalInfo.placeOfBirth v).

Definition passportSchema (v : IdDocument.t) : list Issue :=
  z_string_min 1 "Passport number is required" "number" (IdDocument.number v) ++
  z_string_min 1 "Issuing authority is required" "issuingAuthority" (IdDocument.issuingAuthority v) ++
  z_string_min 1 "Date of issue is required" "dateOfIssue" (IdDocument.dateOfIssue v) ++
  z_string_min 1 "Date of expiry is required" "dateOfExpiry" (IdDocument.dateOfExpiry v).

Definition nationalIdSchema (v : IdDocument.t) : list Issue :=
  z_string_min 1 "ID number is required" "number" (IdDocument.number v) ++
  z_string_min 1 "Issuing authority is required" "issuingAuthority" (IdDocument.issuingAuthority v) ++
  z_string_min 1 "Date of issue is required" "dateOfIssue" (IdDocument.dateOfIssue v) ++
  z_string_min 1 "Date of expiry is required" "dateOfExpiry" (IdDocument.dateOfExpiry v).

Definition spouseSchema (v : Spouse.t) : list Issue :=
  z_string_min 1 "First name is required" "firstName" (Spouse.firstName v) ++
  z_string_min 1 "Last name is required" "lastName" (Spouse.lastName v) ++
  z_string_min 1 "Date of birth is required" "dateOfBirth" (Spouse.dateOfBirth v) ++
  z_string_min 1 "Nationality is required" "nationality" (Spouse.nationality v).

Definition childSchema (v : Child.t) : list Issue :=
  z_string_min 1 "First name is required" "firstName" (Child.firstName v) ++
  z_string_min 1 "Last name is required" "lastName" (Child.lastName v) ++
  z_string_min 1 "Date of birth is required" "dateOfBirth" (Child.dateOfBirth v) ++
  z_string_min 1 "Relationship is required" "relationship" (Child.relationship v).

Definition currentAddressSchema (v : CurrentAddress.t) : list Issue :=
  z_string_min 1 "Street address is required" "street" (CurrentAddress.street v) ++
  z_string_min 1 "City is required" "city" (CurrentAddress.city v) ++
  z_string_min 1 "State/province is required" "state" (CurrentAddress.state v) ++
  z_string_min 1 "Postal code is required" "postalCode" (CurrentAddress.postalCode v) ++
  z_string_min 1 "Country is required" "country" (CurrentAddress.country v) ++
  z_number_min 0 "yearsAtAddress" (CurrentAddress.yearsAtAddress v) ++
  z_number_min 0 "monthsAtAddress" (CurrentAddress.monthsAtAddress v) ++
  z_number_max 11 "monthsAtAddress" (CurrentAddress.monthsAtAddress v).

Definition previousAddressSchema (v : PreviousAddress.t) : list Issue :=
  z_string_min 1 "Street address is required" "street" (PreviousAddress.street v) ++
  z_string_min 1 "City is required" "city" (PreviousAddress.city v) ++
  z_string_min 1 "State/province is required" "state" (PreviousAddress.state v) ++
  z_string_min 1 "Postal code is required" "postalCode" (PreviousAddress.postalCode v) ++
  z_string_min 1 "Country is required" "country" (PreviousAddress.country v) ++
  z_string_min 1 "From date is required" "fromDate" (PreviousAddress.fromDate v) ++
  z_string_min 1 "To date is required" "toDate" (PreviousAddress.toDate v) ++
  z_string_min 1 "Reason for leaving is required" "reasonForLeaving" (PreviousAddress.reasonForLeaving v).

Definition employmentSchema (v : Employment.t) : list Issue :=
  z_string_min 1 "Company name is required" "companyName" (Employment.companyName v) ++
  z_string_min 1 "Job title is required" "jobTitle" (Employment.jobTitle v) ++
  z_string_min 1 "Start date is required" "startDate" (Employment.startDate v) ++
  z_string_min 1 "Salary is required" "salary" (Employment.salary v) ++
  z_string_min 1 "Employer address is required" "employerAddress" (Employment.employerAddress v) ++
  z_string_min 1 "Employer phone is required" "employerPhone" (Employment.employerPhone v).

Definition selfEmploymentSchema (v : SelfEmployment.t) : list Issue :=
  z_string_min 1 "Business name is required" "businessName" (SelfEmployment.businessName v) ++
  z_string_min 1 "Business type is required" "businessType" (SelfEmployment.businessType v) ++
  z_string_min 1 "Annual income is required" "annualIncome" (SelfEmployment.annualIncome v) ++
  z_string_min 1 "Start date is required" "startDate" (SelfEmployment.startDate v).

Definition educationSchema (v : Education.t) : list Issue :=
  z_string_min 1 "Institution name is required" "institutionName" (Education.institutionName v) ++
  z_string_min 1 "Course name is required" "course" (Education.course v) ++
  z_string_min 1 "Start date is required" "startDate" (Education.startDate v) ++
  z_string_min 1 "End date is required" "endDate" (Education.endDate v).

Definition sponsorDetailsSchema (v : SponsorDetails.t) : list Issue :=
  z_string_min 1 "Sponsor name is required" "name" (SponsorDetails.name v) ++
  z_string_min 1 "Relationship is required" "relationship" (SponsorDetails.relationship v) ++
  z_string_min 1 "Contact information is required" "contactInfo" (SponsorDetails.contactInfo v).

(** [zodResolver]: the first issue of each field (react-hook-form's
    [criteriaMode: "firstError"]). *)
Definition errors_of (issues : list Issue) : gmap string string :=
  foldr (fun '(f, m) acc => <[f := m]> acc) ∅ issues.

(** ** Lemmas on the combinators *)

Lemma z_string_min_nil n msg f v : z_string_min n msg f v = [] <-> n <= String.length v.
Proof. unfold z_string_min. case_bool_decide; naive_solver. Qed.

Lemma z_string_email_nil msg f v : z_string_email msg f v = [] <-> zod_email v = true.
Proof. unfold z_string_email. destruct (zod_email v); naive_solver. Qed.

Lemma z_number_min_nil lo f v : z_number_min lo f v = [] <-> (lo <= v)%Z.
Proof. unfold z_number_min. case_bool_decide; naive_solver. Qed.

Lemma z_number_max_nil hi f v : z_number_max hi f v = [] <-> (v <= hi)%Z.
Proof. unfold z_number_max. case_bool_decide; naive_solver. Qed.

#[export] Hint Rewrite z_string_min_nil z_string_email_nil z_number_min_nil
  z_number_max_nil @app_nil : forms_rw.

Lemma split_first_spec d l a b :
  split_first d l = Some (a, b) -> l = a ++ d :: b /\ d ∉ a.
Proof.
  revert a b. induction l as [|c r IH]; intros a b H; simpl in H; [done|].
  unfold is_char in H. case_bool_decide as Hc.
  - injection H as <- <-. subst. split; [done|]. apply not_elem_of_nil.
  - destruct (split_first d r) as [[a' b']|] eqn:E; [|done].
    injection H as <- <-. destruct (IH a' b' eq_refl) as [-> Ha'].
    split; [done|]. rewrite not_elem_of_cons. auto.
Qed.

Lemma split_all_no_sep d l : d ∉ l -> split_all d l = [l].
Proof.
  induction l as [|c r IH]; intros Hd; [done|]. simpl.
  rewrite not_elem_of_cons in Hd. destruct Hd as [Hc Hr].
  unfold is_char. rewrite bool_decide_eq_false_2 by congruence. by rewrite IH.
Qed.

Lemma split_all_chars d l c :
  c ∈ l -> c = d \/ exists p, p ∈ split_all d l /\ c ∈ p.
Proof.
  induction l as [|x r IH]; intros Hc; [by apply elem_of_nil in Hc|]. simpl.
  unfold is_char. apply elem_of_cons in Hc as [->|Hc].
  - case_bool_decide; [by left|]. right.
    destruct (split_all d r) as [|p ps]; eexists; split; by left.
  - destruct (IH Hc) as [->|(p & Hp & Hcp)]; [by left|]. right.
    case_bool_decide; [exists p; split; [by right|done]|].
    destruct (split_all d r) as [|q qs]; [by apply elem_of_nil in Hp|].
    apply elem_of_cons in Hp as [->|Hp].
    + exists (x :: q). split; [by left|]. by right.
    + exists p. split; [by right|]. done.
Qed.

Lemma valid_label_chars l c : valid_label l = true -> c ∈ l -> is_alnum c || is_char "-" c = true.
Proof.
  destruct l as [|x r]; [done|]. simpl. intros [Hx Hr]%andb_true_iff Hc.
  apply elem_of_cons in Hc as [->|Hc]; [by rewrite Hx|].
  rewrite forallb_forall in Hr. apply Hr. by apply list_elem_of_In.
Qed.

Lemma valid_tld_chars l c : valid_tld l = true -> c ∈ l -> is_alpha c = true.
Proof.
  unfold valid_tld. intros [_ Hl]%andb_true_iff Hc.
  rewrite forallb_forall in Hl. apply Hl. by apply list_elem_of_In.
Qed.

(** Every character of an accepted domain is a letter, a digit, '-' or '.'. *)
Lemma valid_domain_chars l c :
  valid_domain l = true -> c ∈ l -> c = "."%char \/ is_alnum c || is_char "-" c = true.
Proof.
  unfold valid_domain. intros [[_ Hlab]%andb_true_iff Htld]%andb_true_iff Hc.
  destruct (split_all_chars "." l c Hc) as [->|(p & Hp & Hcp)]; [by left|]. right.
  assert (Hne : split_all "." l <> []) by (destruct l; simpl; [done|by repeat case_match]).
  rewrite (app_removelast_last [] Hne) in Hp.
  apply elem_of_app in Hp as [Hp|Hp]; [|apply list_elem_of_singleton in Hp; subst p].
  - apply (valid_label_chars p); [|done].
    rewrite forallb_forall in Hlab. apply Hlab. by apply list_elem_of_In.
  - apply valid_tld_chars with (c := c) in Htld; [|done]. unfold is_alnum. by rewrite Htld.
Qed.

(** ** Theorems *)

(** The conditions under which [personalInfoSchema] reports no issue. *)
Lemma personalInfoSchema_nil_iff v :
  personalInfoSchema v = [] <->
  zod_email (PersonalInfo.email v) = true /\ 5 <= String.length (PersonalInfo.phone v) /\
  1 <= String.length (PersonalInfo.firstName v) /\ 1 <= String.length (PersonalInfo.lastName v) /\
  1 <= String.length (PersonalInfo.placeOfBirth v).
Proof. unfold personalInfoSchema. autorewrite with forms_rw. tauto. Qed.

(** The personal-info schema accepts a record iff its email passes the
    email rule, its phone has at least 5 characters, and its names and
    place of birth are not empty. *)
Theorem personalInfoSchema_accepts v :
  personalInfoSchema v = [] <->
  zod_email (PersonalInfo.email v) = true /\ 5 <= String.length (PersonalInfo.phone v) /\
  1 <= String.length (PersonalInfo.firstName v) /\ 1 <= String.length (PersonalInfo.lastName v) /\
  1 <= String.length (PersonalInfo.placeOfBirth v).
Proof. exact (personalInfoSchema_nil_iff v). Qed.

(** An address accepted by [z.string().email()] has exactly one '@',
    a non-empty part before it, and a domain after it that contains a
    '.' and no '@'. *)
Theorem zod_email_shape s :
  zod_email s = true ->
  exists local domain,
    String.list_ascii_of_string s = local ++ "@"%char :: domain /\
    local <> [] /\ ("@"%char ∉ local) /\ ("@"%char ∉ domain) /\ ("."%char ∈ domain).
Proof.
  unfold zod_email. destruct (split_first _ _) as [[local domain]|] eqn:E; [|done].
  intros [Hl Hd]%andb_true_iff. destruct (split_first_spec _ _ _ _ E) as [Hs Hat].
  exists local, domain. split; [done|]. split; [by destruct local|]. split; [done|].
  split.
  - intros Hin. destruct (valid_domain_chars domain "@" Hd Hin) as [H|H]; [done|].
    revert H. vm_compute. done.
  - destruct (decide ("."%char ∈ domain)) as [|Hn]; [done|].
    unfold valid_domain in Hd. rewrite split_all_no_sep in Hd by done. done.
Qed.

(** The month bounds enforced by [currentAddressSchema]. *)
Lemma currentAddressSchema_months v :
  currentAddressSchema v = [] ->
  (0 <= CurrentAddress.yearsAtAddress v)%Z /\ (0 <= CurrentAddress.monthsAtAddress v <= 11)%Z.
Proof. unfold currentAddressSchema. autorewrite with forms_rw. lia. Qed.

(** The current-address schema accepts only a non-negative number of
    years and a number of months from 0 to 11. *)
Theorem currentAddressSchema_bounds v :
  currentAddressSchema v = [] ->
  (0 <= CurrentAddress.yearsAtAddress v)%Z /\ (0 <= CurrentAddress.monthsAtAddress v <= 11)%Z.
Proof. exact (currentAddressSchema_months v). Qed.

(** [errors_of] keeps the first issue of each field. *)
Lemma errors_of_first issues f :
  errors_of issues !! f = snd <$> List.find (fun i => bool_decide (i.1 = f)) issues.
Proof.
  induction issues as [|[g m] rest IH]; simpl; [done|].
  case_bool_decide as Hg.
  - subst. by rewrite lookup_insert_eq.
  - by rewrite lookup_insert_ne by done.
Qed.

(** [zodResolver] reports, for each field, the message of its first
    issue, and nothing for a field without issue. *)
Theorem errors_of_lookup issues f :
  errors_of issues !! f = snd <$> List.find (fun i => bool_decide (i.1 = f)) issues.
Proof. exact (errors_of_first issues f). Qed.

(** ** Witnesses *)

Lemma zod_email_shape_witness :
  zod_email "a@b.com" = true /\
  exists local domain,
    String.list_ascii_of_string "a@b.com" = local ++ "@"%char :: domain /\
    local <> [] /\ ("@"%char ∉ local) /\ ("@"%char ∉ domain) /\ ("."%char ∈ domain).
Proof.
  assert (H : zod_email "a@b.com" = true) by reflexivity.
  split; [exact H|]. exact (zod_email_shape _ H).
Defined.

Definition sampleCurrentAddress : CurrentAddress.t :=
  CurrentAddress.mk "1 Park Row" "Leeds" "West Yorkshire" "LS1 5HD" "United Kingdom" 3 4.

Lemma currentAddressSchema_bounds_witness :
  currentAddressSchema sampleCurrentAddress = [] /\
  (0 <= CurrentAddress.yearsAtAddress sampleCurrentAddress)%Z /\
  (0 <= CurrentAddress.monthsAtAddress sampleCurrentAddress <= 11)%Z.
Proof.
  assert (H : currentAddressSchema sampleCurrentAddress = []) by (vm_compute; reflexivity).
  split; [exact H|]. exact (currentAddressSchema_bounds _ H).
Defined.
