(* ===== verification/EmailSpec.v ===== *)
(** * The email pattern as a language, and the validator that decides it

    zod 3 checks [z.string().email()] with a regular expression under
    the [i] flag: the lookaheads [(?!\.)] and [(?!.*\.\.)] at the start,
    then a group of [[A-Z0-9_'+\-\.]] repeated any number of times, one
    [[A-Z0-9_+-]], an '@', the group [([A-Z0-9][A-Z0-9\-]*\.)] repeated at
    least once, and [[A-Z]{2,}] up to the end.  [email_lang] writes the language of that pattern
    directly: a string is a body of local characters and one last local
    character, an '@', one or more labels each followed by a dot, and a
    top-level domain of at least two letters; the first lookahead says
    the string does not start with a dot, the second that it contains no
    two consecutive dots (the pattern's [.] does not cross a line
    terminator, and none can occur in a matching string, so "anywhere"
    is the same condition).

    [Zod.zod_email] decides the pattern by splitting at the first '@' and
    at the dots of the domain.  The theorem of this file is that the two
    agree on every string. *)

From Stdlib Require Import Ascii.
From S2P Require Import Prelude Zod.

Definition dot : ascii := "."%char.
Definition at_sign : ascii := "@"%char.

(** [[A-Z0-9][A-Z0-9\-]*] *)
Definition label_lang (lb : list ascii) : Prop :=
  exists c r, lb = c :: r /\ is_alnum c = true /\
              Forall (fun x => is_alnum x = true \/ x = "-"%char) r.

(** [(label\.)+] for the labels in order. *)
Definition dotted (labels : list (list ascii)) : list ascii :=
  mjoin (map (fun lb => lb ++ [dot]) labels).

(** The lookahead [(?!.*\.\.)]. *)
Definition double_dot_free (l : list ascii) : Prop :=
  forall a b, l <> a ++ dot :: dot :: b.

Definition email_lang (l : list ascii) : Prop :=
  exists body last labels tld,
    l = body ++ last :: at_sign :: dotted labels ++ tld /\
    hd_error l <> Some dot /\ double_dot_free l /\
    Forall (fun c => local_char c = true) body /\ local_last_char last = true /\
    labels <> [] /\ Forall label_lang labels /\
    2 <= length tld /\ Forall (fun c => is_alpha c = true) tld.

(** A list that ends, or starts, with a dot. *)
Definition ends_dot (l : list ascii) : bool :=
  match last l with Some x => is_char "." x | None => false end.
Definition starts_dot (l : list ascii) : bool :=
  match l with x :: _ => is_char "." x | [] => false end.

(** Joining pieces with a separator, the inverse of [split_all]. *)
Fixpoint join_with (d : ascii) (ps : list (list ascii)) : list ascii :=
  match ps with
  | [] => []
  | [p] => p
  | p :: ps' => p ++ d :: join_with d ps'
  end.

(** ** Splitting and joining *)

Lemma split_all_nonempty d l : split_all d l <> [].
Proof. destruct l; simpl; [done|]. by repeat case_match. Qed.

Lemma join_with_cons d p ps : ps <> [] -> join_with d (p :: ps) = p ++ d :: join_with d ps.
Proof. by destruct ps. Qed.

Lemma split_all_join d l : join_with d (split_all d l) = l.
Proof.
  induction l as [|c r IH]; [done|]. simpl. unfold is_char.
  pose proof (split_all_nonempty d r) as Hne. case_bool_decide as Hc.
  - subst. rewrite join_with_cons by done. simpl. by rewrite IH.
  - destruct (split_all d r) as [|p ps] eqn:E; [done|].
    destruct (decide (ps = [])) as [->|Hps]; [simpl in *; by subst|].
    rewrite join_with_cons by done. rewrite join_with_cons in IH by done. simpl. by rewrite IH.
Qed.

Lemma split_all_sep d a b : d ∉ a -> split_all d (a ++ d :: b) = a :: split_all d b.
Proof.
  induction a as [|c r IH]; intros Ha; simpl.
  - unfold is_char. by rewrite bool_decide_eq_true_2.
  - rewrite not_elem_of_cons in Ha. destruct Ha as [Hc Hr].
    unfold is_char. rewrite bool_decide_eq_false_2 by congruence. by rewrite IH.
Qed.

Lemma join_with_snoc d labels tld :
  join_with d (labels ++ [tld]) = mjoin (map (fun lb => lb ++ [d]) labels) ++ tld.
Proof.
  induction labels as [|lb ls IH]; [done|].
  change ((lb :: ls) ++ [tld]) with (lb :: (ls ++ [tld])).
  change (mjoin (map (fun lb => lb ++ [d]) (lb :: ls)))
    with ((lb ++ [d]) ++ mjoin (map (fun lb => lb ++ [d]) ls)).
  rewrite join_with_cons by (by destruct ls). rewrite IH, <- !app_assoc. done.
Qed.

Lemma split_all_dotted labels tld :
  Forall (fun lb => dot ∉ lb) labels -> dot ∉ tld ->
  split_all dot (dotted labels ++ tld) = labels ++ [tld].
Proof.
  induction labels as [|lb ls IH]; intros Hl Ht.
  - by apply split_all_no_sep.
  - inversion Hl as [|? ? Hlb Hls]; subst.
    change (dotted (lb :: ls)) with ((lb ++ [dot]) ++ dotted ls).
    rewrite <- !app_assoc. cbn [app].
    rewrite split_all_sep by done. by rewrite IH.
Qed.

Lemma split_first_sep d a b : d ∉ a -> split_first d (a ++ d :: b) = Some (a, b).
Proof.
  induction a as [|c r IH]; intros Ha; simpl.
  - unfold is_char. by rewrite bool_decide_eq_true_2.
  - rewrite not_elem_of_cons in Ha. destruct Ha as [Hc Hr].
    unfold is_char. rewrite bool_decide_eq_false_2 by congruence. by rewrite IH.
Qed.

(** ** Double dots *)

Lemma no_double_dot_cons c l :
  no_double_dot (c :: l) = negb (is_char "." c && starts_dot l) && no_double_dot l.
Proof. destruct l; simpl; [by destruct (is_char "." c)|done]. Qed.

Lemma no_double_dot_app a b :
  no_double_dot (a ++ b) = no_double_dot a && no_double_dot b && negb (ends_dot a && starts_dot b).
Proof.
  induction a as [|c r IH].
  - simpl. by destruct (no_double_dot b).
  - cbn [app]. rewrite !no_double_dot_cons, IH. destruct r as [|x r'].
    + unfold ends_dot. simpl. destruct (is_char "." c), (starts_dot b), (no_double_dot b); done.
    + change (ends_dot (c :: x :: r')) with (ends_dot (x :: r')). cbn [starts_dot app].
      destruct (is_char "." c), (is_char "." x), (no_double_dot (x :: r')), (no_double_dot b),
        (ends_dot (x :: r')), (starts_dot b); done.
Qed.

Lemma no_double_dot_spec l : no_double_dot l = true <-> double_dot_free l.
Proof.
  split.
  - intros Hl a b ->. rewrite no_double_dot_app in Hl. simpl in Hl.
    unfold is_char in Hl. rewrite bool_decide_eq_true_2 in Hl by done.
    by rewrite !andb_false_r in Hl.
  - induction l as [|c r IH]; intros Hf; [done|].
    rewrite no_double_dot_cons. apply andb_true_intro. split.
    + destruct r as [|x r']; simpl; [by destruct (is_char _ _)|].
      unfold is_char. destruct (decide (c = dot)) as [->|Hc];
        [|by rewrite bool_decide_eq_false_2].
      destruct (decide (x = dot)) as [->|Hx]; [|by rewrite (bool_decide_eq_false_2 (x = _))].
      exfalso. apply (Hf [] r'). done.
    + apply IH. intros a b ->. apply (Hf (c :: a) b). done.
Qed.

Lemma double_dot_free_prefix a b : double_dot_free (a ++ b) -> double_dot_free a.
Proof. intros Hf x y ->. apply (Hf x (y ++ b)). by rewrite <- app_assoc. Qed.

Lemma dot_free_no_double_dot l : dot ∉ l -> no_double_dot l = true.
Proof.
  intros Hl. apply no_double_dot_spec. intros a b ->. apply Hl.
  apply elem_of_app. right. by left.
Qed.

(** ** Character classes *)

Lemma local_last_char_local c : local_last_char c = true -> local_char c = true.
Proof.
  unfold local_last_char, local_char. rewrite !orb_true_iff. tauto.
Qed.

Lemma local_char_not_at c : local_char c = true -> c <> at_sign.
Proof. intros Hc ->. vm_compute in Hc. discriminate. Qed.

Lemma alnum_not_dot c : is_alnum c = true -> c <> dot.
Proof. intros Hc ->. vm_compute in Hc. discriminate. Qed.

Lemma alpha_not_dot c : is_alpha c = true -> c <> dot.
Proof. intros Hc ->. vm_compute in Hc. discriminate. Qed.

Lemma valid_label_spec lb : valid_label lb = true <-> label_lang lb.
Proof.
  unfold valid_label, label_lang. split.
  - destruct lb as [|c r]; [done|]. intros [Hc Hr]%andb_true_iff. exists c, r.
    split; [done|]. split; [done|]. apply Forall_forall. intros x Hx.
    rewrite forallb_forall in Hr. specialize (Hr x (proj1 (list_elem_of_In _ _) Hx)).
    apply orb_true_iff in Hr as [?|Hd]; [by left|right]. by apply bool_decide_eq_true in Hd.
  - intros (c & r & -> & Hc & Hr). apply andb_true_intro. split; [done|].
    apply forallb_forall. intros x Hx%list_elem_of_In. rewrite Forall_forall in Hr.
    destruct (Hr x Hx) as [->| ->]; [by rewrite orb_true_l|]. by vm_compute.
Qed.

Lemma label_dot_free lb : label_lang lb -> dot ∉ lb.
Proof.
  intros (c & r & -> & Hc & Hr) Hin. apply elem_of_cons in Hin as [Heq|Hin].
  - by apply (alnum_not_dot c Hc).
  - rewrite Forall_forall in Hr. destruct (Hr _ Hin) as [Ha|Ha]; [by apply (alnum_not_dot dot)|done].
Qed.

Lemma valid_tld_spec t : valid_tld t = true <-> 2 <= length t /\ Forall (fun c => is_alpha c = true) t.
Proof.
  unfold valid_tld. rewrite andb_true_iff, bool_decide_eq_true, forallb_forall, Forall_forall.
  setoid_rewrite <- list_elem_of_In. done.
Qed.

Lemma tld_dot_free t : Forall (fun c => is_alpha c = true) t -> dot ∉ t.
Proof. intros Ht Hin. rewrite Forall_forall in Ht. exact (alpha_not_dot dot (Ht _ Hin) eq_refl). Qed.

(** ** The two halves *)

(** [(?!\.)], [(?!.*\.\.)] and the characters before the '@'. *)
Lemma valid_local_spec l :
  valid_local l = true <->
  exists body last, l = body ++ [last] /\ Forall (fun c => local_char c = true) body /\
    local_last_char last = true /\ hd_error l <> Some dot /\ double_dot_free l.
Proof.
  unfold valid_local. split.
  - destruct l as [|c r] eqn:El; [done|]. rewrite <- El.
    intros [[[Hc Hall]%andb_true_iff Hlast]%andb_true_iff Hdd]%andb_true_iff.
    assert (Hne : l <> []) by (by subst).
    exists (removelast l), (List.last l "a"%char).
    split; [apply app_removelast_last, Hne|].
    split.
    + apply Forall_forall. intros x Hx. rewrite forallb_forall in Hall. apply Hall.
      apply list_elem_of_In. rewrite (app_removelast_last "a"%char Hne). apply elem_of_app. by left.
    + split; [done|]. split; [|by apply no_double_dot_spec].
      subst. simpl. intros [= ->]. by vm_compute in Hc.
  - intros (body & last & Heq & Hb & Hl & Hhd & Hdd).
    destruct l as [|c r]; [by destruct body|].
    apply andb_true_intro; split; [apply andb_true_intro; split; [apply andb_true_intro; split|]|].
    + simpl in Hhd. unfold is_char. rewrite bool_decide_eq_false_2; [done|].
      intros Hc. apply Hhd. by rewrite Hc.
    + rewrite Heq. apply forallb_forall. intros x Hx%list_elem_of_In. apply elem_of_app in Hx as [Hx|Hx].
      * rewrite Forall_forall in Hb. by apply Hb.
      * apply list_elem_of_singleton in Hx. subst. by apply local_last_char_local.
    + by rewrite Heq, last_last.
    + by apply no_double_dot_spec.
Qed.

(** [([A-Z0-9][A-Z0-9\-]*\.)+[A-Z]{2,}] after the '@'. *)
Lemma valid_domain_spec l :
  valid_domain l = true <->
  exists labels tld, l = dotted labels ++ tld /\ labels <> [] /\ Forall label_lang labels /\
    2 <= length tld /\ Forall (fun c => is_alpha c = true) tld.
Proof.
  unfold valid_domain. split.
  - intros [[Hlen Hlab]%andb_true_iff Htld]%andb_true_iff. apply bool_decide_eq_true in Hlen.
    pose proof (split_all_nonempty "." l) as Hne.
    pose proof (app_removelast_last [] Hne) as Hsplit.
    exists (removelast (split_all "." l)), (List.last (split_all "." l) []).
    split; [|split; [|split]].
    + rewrite <- (split_all_join "." l) at 1. rewrite Hsplit at 1. apply join_with_snoc.
    + intros Hnil. rewrite Hsplit, Hnil in Hlen. simpl in Hlen. lia.
    + apply Forall_forall. intros lb Hlb. apply valid_label_spec.
      rewrite forallb_forall in Hlab. by apply Hlab, list_elem_of_In.
    + by apply valid_tld_spec.
  - intros (labels & tld & -> & Hne & Hlab & Hlen & Ht).
    pose proof (split_all_dotted labels tld (Forall_impl _ _ _ Hlab label_dot_free)
                  (tld_dot_free tld Ht)) as Hs.
    unfold dot in Hs. rewrite Hs, removelast_last, last_last.
    apply andb_true_intro; split; [apply andb_true_intro; split|].
    + apply bool_decide_eq_true. rewrite length_app. destruct labels; [done|]. simpl. lia.
    + apply forallb_forall. intros lb Hlb%list_elem_of_In. apply valid_label_spec.
      rewrite Forall_forall in Hlab. by apply Hlab.
    + by apply valid_tld_spec.
Qed.

(** ** Double dots in a domain *)

Lemma ends_dot_free l : dot ∉ l -> ends_dot l = false.
Proof.
  unfold ends_dot. destruct (last l) as [x|] eqn:E; [|done]. intros Hl.
  apply last_Some_elem_of in E. unfold is_char. apply bool_decide_eq_false_2.
  intros ->. by apply Hl.
Qed.

Lemma starts_dotted ls tld :
  Forall label_lang ls -> tld <> [] -> Forall (fun c => is_alpha c = true) tld ->
  starts_dot (dotted ls ++ tld) = false.
Proof.
  intros Hl Ht Ha. destruct ls as [|lb ls].
  - destruct tld as [|c t]; [done|]. inversion Ha as [|? ? Hc]; subst. simpl.
    unfold is_char. apply bool_decide_eq_false_2. by apply alpha_not_dot.
  - inversion Hl as [|? ? (c & r & -> & Hc & _)]; subst. simpl.
    unfold is_char. apply bool_decide_eq_false_2. by apply alnum_not_dot.
Qed.

Lemma dotted_no_double_dot labels tld :
  Forall label_lang labels -> tld <> [] -> Forall (fun c => is_alpha c = true) tld ->
  no_double_dot (dotted labels ++ tld) = true.
Proof.
  induction labels as [|lb ls IH]; intros Hl Ht Ha.
  - apply dot_free_no_double_dot, tld_dot_free, Ha.
  - inversion Hl as [|? ? Hlb Hls]; subst.
    change (dotted (lb :: ls)) with ((lb ++ [dot]) ++ dotted ls). rewrite <- !app_assoc. cbn [app].
    rewrite no_double_dot_app, no_double_dot_cons, starts_dotted, IH by done.
    rewrite dot_free_no_double_dot, ends_dot_free by (by apply label_dot_free). done.
Qed.

Lemma at_sign_not_dot_char : is_char "." at_sign = false.
Proof. by vm_compute. Qed.

Lemma hd_error_app_snoc body (last : ascii) rest :
  hd_error ((body ++ [last]) ++ rest) = hd_error (body ++ [last]).
Proof. by destruct body. Qed.

(** ** The equivalence *)

(** The validator of [z.string().email()] decides exactly the language
    of zod's email pattern: a string passes [zod_email] iff it is a body of
    local characters, a last local character, '@', one or more labels
    each followed by a dot and a top-level domain of at least two
    letters, with no leading dot and no two consecutive dots. *)
Theorem zod_email_regex s : zod_email s = true <-> email_lang (String.list_ascii_of_string s).
Proof.
  unfold zod_email. set (l := String.list_ascii_of_string s). split.
  - destruct (split_first "@" l) as [[local domain]|] eqn:Es; [|done].
    intros [Hloc Hdom]%andb_true_iff. apply split_first_spec in Es as [Hl _].
    apply valid_local_spec in Hloc as (body & last & -> & Hb & Hlast & Hhd & Hdd).
    apply valid_domain_spec in Hdom as (labels & tld & -> & Hne & Hlab & Hlen & Ht).
    exists body, last, labels, tld. rewrite Hl, hd_error_app_snoc.
    split; [by rewrite <- app_assoc|]. split; [done|]. split; [|done].
    apply no_double_dot_spec. apply no_double_dot_spec in Hdd.
    rewrite no_double_dot_app, no_double_dot_cons, Hdd, dotted_no_double_dot
      by (done || (intros ->; simpl in Hlen; lia)).
    change (is_char "." "@"%char) with (is_char "." at_sign). by rewrite at_sign_not_dot_char, !andb_false_r.
  - intros (body & last & labels & tld & Hl & Hhd & Hdd & Hb & Hlast & Hne & Hlab & Hlen & Ht).
    assert (Hat : at_sign ∉ body ++ [last]).
    { intros [Hin|Hin%list_elem_of_singleton]%elem_of_app.
      - rewrite Forall_forall in Hb. by apply (local_char_not_at at_sign (Hb _ Hin)).
      - by apply (local_char_not_at last (local_last_char_local _ Hlast)). }
    assert (Hl' : l = (body ++ [last]) ++ at_sign :: dotted labels ++ tld)
      by (rewrite Hl, <- app_assoc; done).
    rewrite Hl' in Hhd, Hdd |- *. rewrite (split_first_sep at_sign) by done.
    apply andb_true_intro. split.
    + apply valid_local_spec. exists body, last.
      rewrite hd_error_app_snoc in Hhd. repeat split; try done.
      by apply double_dot_free_prefix in Hdd.
    + apply valid_domain_spec. by exists labels, tld.
Qed.
