(* ===== verification/AddressHistory.v ===== *)
(** * The address-history page (src/app/address-history/page.tsx)

    [AddressHistoryContent] keeps, besides the shared record, two pieces of
    React state of its own: [previousAddresses] (initialised from
    [formData.previousAddresses]) and [showPreviousAddresses] (initialised
    to [false] and set by a [useEffect] on [yearsAtAddress] and
    [monthsAtAddress]).  The page is a state machine [AHState] whose
    events are the handlers of the page; one [step] runs the handler, then
    the effect when one of its dependencies changed, as React does between
    two user events.  The Next button is [disabled] while the section is
    shown and the local list is empty; a click on a disabled button does
    nothing.

    The page is written against the [FormStore] interface; the theorems
    hold for every store that satisfies its law.  Theorems: the local
    copies stay equal to the record and to the threshold rule on every
    reachable state (no desynchronisation); Next navigates exactly when the
    section is hidden or non-empty; adding an entry unblocks it; ids stay
    distinct when the uuid generator does not repeat itself; removing an
    entry keeps the others with their ids; entries are kept when the
    duration later reaches 12 months.  Numbers: the text typed into Years
    or Months is stored as its Number value; [calculateTotalMonths] is
    exact up to 2^48 years and 2^52 months and beyond can cross the
    threshold wrongly; within those bounds typed durations decide the
    section by the integer rule.  The user events are those the rendered
    page offers ([available]): the previous-address controls only while
    the section is shown. *)

From S2P Require Import Prelude FormData JsNumber JsString Zod.

Module CAField.
Inductive t := street | city | state | postalCode | country
               | yearsAtAddress | monthsAtAddress.
End CAField.

Module PAField.
Inductive t := street | city | state | postalCode | country
               | fromDate | toDate | reasonForLeaving.
End PAField.

(** [{ ...formData.currentAddress, [field]: field === 'yearsAtAddress' ||
    field === 'monthsAtAddress' ? parseInt(value) || 0 : value }] *)
Definition set_current_field (a : CurrentAddress.t) (f : CAField.t) (value : string)
  : CurrentAddress.t :=
  match f with
  | CAField.street => {| a with CurrentAddress.street := value |}
  | CAField.city => {| a with CurrentAddress.city := value |}
  | CAField.state => {| a with CurrentAddress.state := value |}
  | CAField.postalCode => {| a with CurrentAddress.postalCode := value |}
  | CAField.country => {| a with CurrentAddress.country := value |}
  | CAField.yearsAtAddress => {| a with CurrentAddress.yearsAtAddress := parseInt_or_zero value |}
  | CAField.monthsAtAddress => {| a with CurrentAddress.monthsAtAddress := parseInt_or_zero value |}
  end.

(** [{ ...address, [field]: value }] *)
Definition set_previous_field (a : PreviousAddress.t) (f : PAField.t) (value : string)
  : PreviousAddress.t :=
  match f with
  | PAField.street => {| a with PreviousAddress.street := value |}
  | PAField.city => {| a with PreviousAddress.city := value |}
  | PAField.state => {| a with PreviousAddress.state := value |}
  | PAField.postalCode => {| a with PreviousAddress.postalCode := value |}
  | PAField.country => {| a with PreviousAddress.country := value |}
  | PAField.fromDate => {| a with PreviousAddress.fromDate := value |}
  | PAField.toDate => {| a with PreviousAddress.toDate := value |}
  | PAField.reasonForLeaving => {| a with PreviousAddress.reasonForLeaving := value |}
  end.

(** The object literal [newPreviousAddress] of [addPreviousAddress]. *)
Definition newPreviousAddress (uuid : string) : PreviousAddress.t :=
  PreviousAddress.mk uuid "" "" "" "" "" "" "" "".

(** [(formData.currentAddress.yearsAtAddress * 12) +
    formData.currentAddress.monthsAtAddress], in doubles. *)
Definition calculateTotalMonths (d : FormData) : Z :=
  js_add (js_mul (CurrentAddress.yearsAtAddress (currentAddress d)) 12)
         (CurrentAddress.monthsAtAddress (currentAddress d)).

(** The state machine of [AddressHistoryContent]. *)
Module AddressHistoryContent.

(** The user events of the page.  [AddPreviousAddress] carries the value
    returned by [uuidv4()]. *)
Inductive Event :=
| CurrentAddressChange (f : CAField.t) (value : string)
| AddPreviousAddress (uuid : string)
| RemovePreviousAddress (id : string)
| UpdatePreviousAddress (id : string) (f : PAField.t) (value : string)
| ClickNext.

Section Page.
Context {St : Type} `{!FormStore St}.

Record AHState := {
    ah_store : St;
    ah_previousAddresses : list PreviousAddress.t;
    ah_showPreviousAddresses : bool }.

Definition ah_form (st : AHState) : FormData := formData (ah_store st).

(** [useEffect(() => setShowPreviousAddresses(calculateTotalMonths() < 12), ...)] *)
Definition showEffect (st : AHState) : AHState :=
    {| st with ah_showPreviousAddresses :=
         bool_decide (calculateTotalMonths (ah_form st) < 12)%Z |}.

(** The dependency list [[yearsAtAddress, monthsAtAddress]]. *)
Definition effect_deps (st : AHState) : Z * Z :=
    (CurrentAddress.yearsAtAddress (currentAddress (ah_form st)),
     CurrentAddress.monthsAtAddress (currentAddress (ah_form st))).

(** After a render the effect runs iff a dependency changed. *)
Definition after_render (before after : AHState) : AHState :=
    if decide (effect_deps before = effect_deps after) then after else showEffect after.

(** Mounting the page: [useState(formData.previousAddresses || [])],
      [useState(false)], then the effect runs once. *)
Definition mount (s : St) : AHState :=
    showEffect {| ah_store := s;
                  ah_previousAddresses := previousAddresses (formData s);
                  ah_showPreviousAddresses := false |}.

Definition handleCurrentAddressChange (f : CAField.t) (value : string) (st : AHState) : AHState :=
    {| st with ah_store := updateFormData
         (set_currentAddress (set_current_field (currentAddress (ah_form st)) f value))
         (ah_store st) |}.

(** Both the local list and the record receive [updatedAddresses]. *)
Definition setAddresses (updated : list PreviousAddress.t) (st : AHState) : AHState :=
    {| ah_store := updateFormData (set_previousAddresses updated) (ah_store st);
       ah_previousAddresses := updated;
       ah_showPreviousAddresses := ah_showPreviousAddresses st |}.

Definition addPreviousAddress (uuid : string) (st : AHState) : AHState :=
    setAddresses (ah_previousAddresses st ++ [newPreviousAddress uuid]) st.

Definition removePreviousAddress (id : string) (st : AHState) : AHState :=
    setAddresses (filter_out PreviousAddress.id id (ah_previousAddresses st)) st.

Definition updatePreviousAddress (id : string) (f : PAField.t) (value : string)
      (st : AHState) : AHState :=
    setAddresses (map_at PreviousAddress.id id (fun a => set_previous_field a f value)
                    (ah_previousAddresses st)) st.

(** [disabled={showPreviousAddresses && previousAddresses.length === 0}] *)
Definition nextDisabled (st : AHState) : bool :=
    ah_showPreviousAddresses st && bool_decide (length (ah_previousAddresses st) = 0).

(** [handleNext] runs [router.push('/financial-details')]; the click
      reaches it only when the button is enabled. *)
Definition handleNext (st : AHState) : option string :=
    if nextDisabled st then None else Some "/financial-details".

Definition handle (e : Event) (st : AHState) : AHState * option string :=
    match e with
    | CurrentAddressChange f v => (handleCurrentAddressChange f v st, None)
    | AddPreviousAddress u => (addPreviousAddress u st, None)
    | RemovePreviousAddress id => (removePreviousAddress id st, None)
    | UpdatePreviousAddress id f v => (updatePreviousAddress id f v st, None)
    | ClickNext => (st, handleNext st)
    end.

(** One user event: the handler, the render, and the effects. *)
Definition step (e : Event) (st : AHState) : AHState * option string :=
    let '(st', nav) := handle e st in (after_render st st', nav).

(** The events the rendered page offers: the buttons and inputs of the
    previous-address section exist only while it is shown
    ([{showPreviousAddresses && (...)}], lines 188-317). *)
Definition available (e : Event) (st : AHState) : bool :=
    match e with
    | AddPreviousAddress _ | RemovePreviousAddress _ | UpdatePreviousAddress _ _ _ =>
        ah_showPreviousAddresses st
    | _ => true
    end.

(** One user event of the page. *)
Definition ah_step (st st' : AHState) : Prop := exists e, available e st = true /\ fst (step e st) = st'.

(** The uuid generator never returns an id already in the list. *)
Definition fresh_event (e : Event) (st : AHState) : Prop :=
    match e with
    | AddPreviousAddress u => u ∉ map PreviousAddress.id (ah_previousAddresses st)
    | _ => True
    end.

Definition ah_fresh_step (st st' : AHState) : Prop :=
    exists e, available e st = true /\ fresh_event e st /\ fst (step e st) = st'.

(** The page invariant: the local list mirrors the record, and the flag
      is the threshold rule of the record. *)
Definition ah_inv (st : AHState) : Prop :=
    ah_previousAddresses st = previousAddresses (ah_form st) /\
    ah_showPreviousAddresses st = bool_decide (calculateTotalMonths (ah_form st) < 12)%Z.

Definition ah_ids (st : AHState) : list string := map PreviousAddress.id (ah_previousAddresses st).
End Page.

Arguments AHState St : clear implicits.
End AddressHistoryContent.

Import AddressHistoryContent.

Section Proofs.
Context {St : Type} `{!FormStore St}.
Implicit Types (st : AHState St).

(** ** How each operation changes the record *)

Lemma ah_form_setAddresses l st :
    ah_form (setAddresses l st) = mergeSection (set_previousAddresses l) (ah_form st).
  Proof. apply updateFormData_law. Qed.

Lemma ah_form_after_render b a : ah_form (after_render b a) = ah_form a.
  Proof. unfold after_render. by repeat case_decide. Qed.

Lemma ah_prev_after_render b a :
    ah_previousAddresses (after_render b a) = ah_previousAddresses a.
  Proof. unfold after_render. by repeat case_decide. Qed.

Lemma calculateTotalMonths_deps st :
    calculateTotalMonths (ah_form st) = js_add (js_mul (effect_deps st).1 12) (effect_deps st).2.
  Proof. done. Qed.

(** After a render the flag follows the record, provided it followed
      the record before the event. *)
Lemma after_render_show b a :
    ah_showPreviousAddresses a = bool_decide (calculateTotalMonths (ah_form b) < 12)%Z ->
    ah_showPreviousAddresses (after_render b a) =
    bool_decide (calculateTotalMonths (ah_form a) < 12)%Z.
  Proof.
    intros Ha. unfold after_render. destruct (decide (effect_deps b = effect_deps a)) as [Hd|Hd]; [|reflexivity].
    by rewrite Ha, !calculateTotalMonths_deps, Hd.
  Qed.

Lemma ah_form_handle e st :
    ah_form (fst (handle e st)) =
    match e with
    | CurrentAddressChange f v =>
        mergeSection (set_currentAddress (set_current_field (currentAddress (ah_form st)) f v))
                     (ah_form st)
    | AddPreviousAddress u =>
        mergeSection (set_previousAddresses (ah_previousAddresses st ++ [newPreviousAddress u]))
                     (ah_form st)
    | RemovePreviousAddress id =>
        mergeSection (set_previousAddresses (filter_out PreviousAddress.id id (ah_previousAddresses st)))
                     (ah_form st)
    | UpdatePreviousAddress id f v =>
        mergeSection (set_previousAddresses
          (map_at PreviousAddress.id id (fun a => set_previous_field a f v) (ah_previousAddresses st)))
          (ah_form st)
    | ClickNext => ah_form st
    end.
  Proof. destruct e; simpl; try apply updateFormData_law; done. Qed.

Lemma ah_form_step e st : ah_form (fst (step e st)) = ah_form (fst (handle e st)).
  Proof. unfold step. destruct (handle e st). apply ah_form_after_render. Qed.

(** Every handler writes the same list to the local state and to the
      record, and none of them touches the flag. *)
Lemma handle_mirror e st :
    ah_inv st ->
    ah_previousAddresses (fst (handle e st)) = previousAddresses (ah_form (fst (handle e st))) /\
    ah_showPreviousAddresses (fst (handle e st)) = ah_showPreviousAddresses st.
  Proof.
    intros [Hp Hs]. rewrite ah_form_handle. destruct e; simpl; split; try done.
  Qed.

Lemma step_inv e st : ah_inv st -> ah_inv (fst (step e st)).
  Proof.
    intros Hinv. pose proof (handle_mirror e st Hinv) as [Hp Hs].
    unfold step. destruct (handle e st) as [st' nav] eqn:E. simpl in *.
    split.
    - by rewrite ah_prev_after_render, ah_form_after_render.
    - rewrite ah_form_after_render. apply after_render_show. rewrite Hs. apply Hinv.
  Qed.

Lemma mount_inv s : ah_inv (mount s).
  Proof. done. Qed.

(** C6. On every state reachable from mounting the page, the local list
      equals [formData.previousAddresses] and the section is shown iff
      [yearsAtAddress * 12 + monthsAtAddress < 12]. *)
Theorem ah_reachable_inv s st :
    rtc ah_step (mount s) st ->
    ah_previousAddresses st = previousAddresses (ah_form st) /\
    ah_showPreviousAddresses st = bool_decide (calculateTotalMonths (ah_form st) < 12)%Z.
  Proof.
    apply (rtc_invariant ah_step ah_inv); [|apply mount_inv].
    intros x y Hx [e [_ <-]]. by apply step_inv.
  Qed.

(** The result of a click on Next under the page invariant. *)
Lemma next_click_result st :
    ah_inv st ->
    snd (step ClickNext st) =
    if bool_decide (calculateTotalMonths (ah_form st) < 12 /\ previousAddresses (ah_form st) = [])%Z
    then None else Some "/financial-details".
  Proof.
    intros [Hp Hs]. unfold step; simpl. unfold handleNext, nextDisabled.
    rewrite Hs, Hp. destruct (previousAddresses (ah_form st)); simpl;
      repeat case_bool_decide; naive_solver.
  Qed.

(** C7. Next navigates to '/financial-details' exactly when the
      previous-address section is hidden or the record holds an entry. *)
Theorem handleNext_spec st :
    ah_inv st ->
    snd (step ClickNext st) =
    if bool_decide (calculateTotalMonths (ah_form st) < 12 /\ previousAddresses (ah_form st) = [])%Z
    then None else Some "/financial-details".
  Proof. exact (next_click_result st). Qed.

(** C28. With the section shown and no entry the click is ignored; one
      [Add Previous Address] makes the next click navigate. *)
Theorem add_unblocks_next st u :
    ah_inv st ->
    (calculateTotalMonths (ah_form st) < 12)%Z -> previousAddresses (ah_form st) = [] ->
    snd (step ClickNext st) = None /\
    snd (step ClickNext (fst (step (AddPreviousAddress u) st))) = Some "/financial-details".
  Proof.
    intros Hinv Hlt Hnil. split.
    - rewrite next_click_result by done. by rewrite bool_decide_eq_true_2.
    - rewrite next_click_result by (by apply step_inv).
      unfold step. simpl. rewrite ah_form_after_render.
      unfold addPreviousAddress. rewrite ah_form_setAddresses. simpl.
      rewrite bool_decide_eq_false_2; [done|]. intros [_ Hn].
      by apply app_eq_nil in Hn as [_ ?].
  Qed.

(** ** Numbers typed into the duration inputs *)

Section Numbers.
Local Open Scope Z_scope.

Lemma reachable_ah_inv s st : rtc ah_step (mount s) st -> ah_inv st.
  Proof.
    apply (rtc_invariant ah_step ah_inv); [|apply mount_inv].
    intros x y Hx [e [_ <-]]. by apply step_inv.
  Qed.

Lemma current_after_change st f v :
    currentAddress (ah_form (fst (step (CurrentAddressChange f v) st))) =
    set_current_field (currentAddress (ah_form st)) f v.
  Proof. by rewrite ah_form_step, ah_form_handle. Qed.

(** Within these bounds [*] and [+] never round. *)
Lemma calculateTotalMonths_exact_bound d :
    Z.abs (CurrentAddress.yearsAtAddress (currentAddress d)) <= 2 ^ 48 ->
    Z.abs (CurrentAddress.monthsAtAddress (currentAddress d)) <= 2 ^ 52 ->
    calculateTotalMonths d =
    CurrentAddress.yearsAtAddress (currentAddress d) * 12 + CurrentAddress.monthsAtAddress (currentAddress d).
  Proof.
    unfold calculateTotalMonths, js_mul, js_add.
    set (y := CurrentAddress.yearsAtAddress _). set (m := CurrentAddress.monthsAtAddress _). intros Hy Hm.
    rewrite (double_round_small (y * 12)) by (rewrite Z.abs_mul; simpl; lia).
    apply double_round_small. pose proof (Z.abs_triangle (y * 12) m). rewrite Z.abs_mul in *. simpl in *. lia.
  Qed.

(** C22. Round trip through the page: typing the decimal text of any
    integer into the Years or Months input stores, through
    [parseInt(value) || 0], its Number value in the record (the integer
    itself up to 2^53 in magnitude). *)
Theorem typed_duration_stored st z :
    CurrentAddress.yearsAtAddress
      (currentAddress (ah_form (fst (step (CurrentAddressChange CAField.yearsAtAddress (string_of_Z z)) st))))
      = double_round z /\
    CurrentAddress.monthsAtAddress
      (currentAddress (ah_form (fst (step (CurrentAddressChange CAField.monthsAtAddress (string_of_Z z)) st))))
      = double_round z.
  Proof. rewrite !current_after_change. cbn [set_current_field]. by rewrite parseInt_or_zero_printed. Qed.

(** C21. [calculateTotalMonths] computes in doubles: with at most 2^48
    years and 2^52 months in magnitude it is the exact integer total;
    beyond, the rounding of [yearsAtAddress * 12] can cross the 12-month
    threshold: with 2^60 - 128 years and -13835058055282161664 months
    (both doubles, so [parseInt] stores them exactly) the exact total is
    512 months and the computed one is 0. *)
Theorem calculateTotalMonths_exact d :
    (Z.abs (CurrentAddress.yearsAtAddress (currentAddress d)) <= 2 ^ 48 ->
     Z.abs (CurrentAddress.monthsAtAddress (currentAddress d)) <= 2 ^ 52 ->
     calculateTotalMonths d =
     CurrentAddress.yearsAtAddress (currentAddress d) * 12 + CurrentAddress.monthsAtAddress (currentAddress d)) /\
    (CurrentAddress.yearsAtAddress (currentAddress d) = 2 ^ 60 - 128 ->
     CurrentAddress.monthsAtAddress (currentAddress d) = -13835058055282161664 ->
     calculateTotalMonths d = 0 /\
     CurrentAddress.yearsAtAddress (currentAddress d) * 12 + CurrentAddress.monthsAtAddress (currentAddress d) = 512).
  Proof.
    split; [apply calculateTotalMonths_exact_bound|].
    unfold calculateTotalMonths. intros -> ->. vm_compute. split; reflexivity.
  Qed.

(** C20. On every reachable state, typing a number of years and then a number
    of months (within the bounds where the doubles are exact) shows the
    previous-address section exactly when [years * 12 + months < 12]. *)
Theorem typed_durations_decide_section s st y m :
    rtc ah_step (mount s) st -> Z.abs y <= 2 ^ 48 -> Z.abs m <= 2 ^ 52 ->
    ah_showPreviousAddresses
      (fst (step (CurrentAddressChange CAField.monthsAtAddress (string_of_Z m))
              (fst (step (CurrentAddressChange CAField.yearsAtAddress (string_of_Z y)) st)))) =
    bool_decide (y * 12 + m < 12).
  Proof.
    intros Hr Hy Hm.
    set (st1 := fst (step (CurrentAddressChange CAField.yearsAtAddress (string_of_Z y)) st)).
    set (st2 := fst (step (CurrentAddressChange CAField.monthsAtAddress (string_of_Z m)) st1)).
    assert (Hr2 : rtc ah_step (mount s) st2).
    { eapply rtc_r; [eapply rtc_r; [exact Hr|]|].
      - exists (CurrentAddressChange CAField.yearsAtAddress (string_of_Z y)). by split.
      - exists (CurrentAddressChange CAField.monthsAtAddress (string_of_Z m)). by split. }
    destruct (reachable_ah_inv s st2 Hr2) as [_ ->].
    assert (Hc : currentAddress (ah_form st2) =
                 set_current_field (set_current_field (currentAddress (ah_form st))
                   CAField.yearsAtAddress (string_of_Z y)) CAField.monthsAtAddress (string_of_Z m))
      by (unfold st2, st1; by rewrite !current_after_change).
    assert (Hy' : CurrentAddress.yearsAtAddress (currentAddress (ah_form st2)) = y)
      by (rewrite Hc; cbn [set_current_field]; simpl;
          rewrite parseInt_or_zero_printed; apply double_round_small; lia).
    assert (Hm' : CurrentAddress.monthsAtAddress (currentAddress (ah_form st2)) = m)
      by (rewrite Hc; cbn [set_current_field]; simpl;
          rewrite parseInt_or_zero_printed; apply double_round_small; lia).
    rewrite calculateTotalMonths_exact_bound by (rewrite ?Hy', ?Hm'; lia). by rewrite Hy', Hm'.
  Qed.
End Numbers.

(** ** Identifiers *)

Lemma step_ids_nodup e st :
    fresh_event e st -> NoDup (ah_ids st) -> NoDup (ah_ids (fst (step e st))).
  Proof.
    intros Hf Hnd. unfold ah_ids, step.
    destruct e; simpl; rewrite ah_prev_after_render; simpl; try done.
    - rewrite map_app. simpl. apply NoDup_app. split; [done|]. split.
      + intros x Hx ->%list_elem_of_singleton. done.
      + apply NoDup_singleton.
    - by apply NoDup_filter_out.
    - by rewrite keys_map_at by (by intros a; destruct f).
  Qed.

(** C26. When [uuidv4()] never returns an id already in the list, the ids
      of the previous addresses stay pairwise distinct on every reachable
      state. *)
Theorem ah_fresh_ids_nodup s st :
    NoDup (map PreviousAddress.id (previousAddresses (formData s))) ->
    rtc ah_fresh_step (mount s) st -> NoDup (ah_ids st).
  Proof.
    intros H0. apply (rtc_invariant ah_fresh_step (fun st => NoDup (ah_ids st))); [|done].
    intros x y Hx [e [_ [Hf <-]]]. by apply step_ids_nodup.
  Qed.

(** [Remove] keeps exactly the entries with another id, unchanged
      (ids included), and in their order. *)
Theorem remove_keeps_others st id :
    ah_inv st ->
    previousAddresses (ah_form (fst (step (RemovePreviousAddress id) st))) =
    filter (fun a => PreviousAddress.id a <> id) (previousAddresses (ah_form st)).
  Proof.
    intros [Hp _]. rewrite ah_form_step, ah_form_handle. simpl. by rewrite Hp.
  Qed.

(** C31. Entries are kept when the duration is edited afterwards (the open
      question of the spec): changing a current-address field never changes
      [previousAddresses], even once the section is hidden again. *)
Theorem current_change_keeps_previous st f v :
    previousAddresses (ah_form (fst (step (CurrentAddressChange f v) st))) =
    previousAddresses (ah_form st).
  Proof. by rewrite ah_form_step, ah_form_handle. Qed.
(** ** The page and the schemas *)

(** C29. The page never applies [previousAddressSchema]: the blank entry
    that [addPreviousAddress] appends fails the schema, and yet it enables
    Next. *)
Theorem blank_entry_unblocks_next st u :
  ah_inv st ->
  (previousAddressSchema (newPreviousAddress u) ≠ []) /\
  snd (step ClickNext (fst (step (AddPreviousAddress u) st))) = Some "/financial-details".
Proof.
  intros Hinv. split; [by vm_compute|].
  rewrite next_click_result by (by apply step_inv).
  rewrite ah_form_step, ah_form_handle. simpl.
  rewrite bool_decide_eq_false_2; [done|]. intros [_ Hn].
  by apply app_eq_nil in Hn as [_ ?].
Qed.

(** C30. The page never applies [currentAddressSchema] either: with at
    least 12 months in total, Next navigates whatever the months field
    holds, including values the schema rejects. *)
Theorem next_ignores_month_bound st :
  ah_inv st ->
  (12 <= calculateTotalMonths (ah_form st))%Z ->
  ~ (0 <= CurrentAddress.monthsAtAddress (currentAddress (ah_form st)) <= 11)%Z ->
  (currentAddressSchema (currentAddress (ah_form st)) ≠ []) /\
  snd (step ClickNext st) = Some "/financial-details".
Proof.
  intros Hinv Hge Hm. split.
  - intros Hs. apply Hm. apply (currentAddressSchema_months _ Hs).
  - rewrite next_click_result by done. rewrite bool_decide_eq_false_2; [done|]. lia.
Qed.
End Proofs.

(** ** Witnesses: the page mounted on a fresh [FormDataProvider] *)

Definition ah0 : AHState FormData := mount initialFormData.
Definition ah1 : AHState FormData := fst (step (AddPreviousAddress "7f1c0a") ah0).

Lemma ah_reachable_inv_witness :
  rtc ah_step ah0 ah1 /\
  ah_previousAddresses ah1 = previousAddresses (ah_form ah1) /\
  ah_showPreviousAddresses ah1 = bool_decide (calculateTotalMonths (ah_form ah1) < 12)%Z.
Proof.
  assert (H : rtc ah_step ah0 ah1) by (apply rtc_once; by exists (AddPreviousAddress "7f1c0a")).
  split; [exact H|]. exact (ah_reachable_inv initialFormData ah1 H).
Defined.

Lemma handleNext_spec_witness :
  ah_inv ah0 /\ snd (step ClickNext ah0) =
  if bool_decide (calculateTotalMonths (ah_form ah0) < 12 /\ previousAddresses (ah_form ah0) = [])%Z
  then None else Some "/financial-details".
Proof.
  assert (H : ah_inv ah0) by apply mount_inv.
  split; [exact H|]. exact (handleNext_spec ah0 H).
Defined.

Lemma add_unblocks_next_witness :
  ah_inv ah0 /\ (calculateTotalMonths (ah_form ah0) < 12)%Z /\ previousAddresses (ah_form ah0) = [] /\
  snd (step ClickNext ah0) = None /\ snd (step ClickNext ah1) = Some "/financial-details".
Proof.
  assert (H : ah_inv ah0) by apply mount_inv.
  assert (Hlt : (calculateTotalMonths (ah_form ah0) < 12)%Z) by (vm_compute; reflexivity).
  assert (Hnil : previousAddresses (ah_form ah0) = []) by reflexivity.
  split; [exact H|]. split; [exact Hlt|]. split; [exact Hnil|].
  exact (add_unblocks_next ah0 "7f1c0a" H Hlt Hnil).
Defined.

Lemma ah_fresh_ids_nodup_witness :
  NoDup (map PreviousAddress.id (previousAddresses (formData initialFormData))) /\
  rtc ah_fresh_step ah0 ah1 /\ NoDup (ah_ids ah1).
Proof.
  assert (H0 : NoDup (map PreviousAddress.id (previousAddresses (formData initialFormData))))
    by constructor.
  assert (H1 : rtc ah_fresh_step ah0 ah1).
  { apply rtc_once. exists (AddPreviousAddress "7f1c0a").
    split; [vm_compute; reflexivity|]. split; [|done]. simpl. apply not_elem_of_nil. }
  split; [exact H0|]. split; [exact H1|]. exact (ah_fresh_ids_nodup initialFormData ah1 H0 H1).
Defined.

Lemma remove_keeps_others_witness :
  ah_inv ah1 /\
  previousAddresses (ah_form (fst (step (RemovePreviousAddress "7f1c0a") ah1))) =
  filter (fun a => PreviousAddress.id a <> "7f1c0a") (previousAddresses (ah_form ah1)).
Proof.
  assert (H : ah_inv ah1) by (apply step_inv, mount_inv).
  split; [exact H|]. exact (remove_keeps_others ah1 "7f1c0a" H).
Defined.

Lemma blank_entry_unblocks_next_witness :
  ah_inv ah0 /\
  (previousAddressSchema (newPreviousAddress "7f1c0a") ≠ []) /\
  snd (step ClickNext ah1) = Some "/financial-details".
Proof.
  assert (H : ah_inv ah0) by apply mount_inv.
  split; [exact H|]. exact (blank_entry_unblocks_next ah0 "7f1c0a" H).
Defined.

(** Years left at 0 and "15" typed in the months field. *)
Definition ah15 : AHState FormData :=
  fst (step (CurrentAddressChange CAField.monthsAtAddress "15") ah0).

Lemma next_ignores_month_bound_witness :
  ah_inv ah15 /\ (12 <= calculateTotalMonths (ah_form ah15))%Z /\
  ~ (0 <= CurrentAddress.monthsAtAddress (currentAddress (ah_form ah15)) <= 11)%Z /\
  (currentAddressSchema (currentAddress (ah_form ah15)) ≠ []) /\
  snd (step ClickNext ah15) = Some "/financial-details".
Proof.
  assert (H1 : ah_inv ah15) by (apply step_inv, mount_inv).
  assert (H2 : (12 <= calculateTotalMonths (ah_form ah15))%Z) by (vm_compute; discriminate).
  assert (H3 : ~ (0 <= CurrentAddress.monthsAtAddress (currentAddress (ah_form ah15)) <= 11)%Z)
    by (vm_compute; intros [_ H]; apply H; reflexivity).
  split; [exact H1|]. split; [exact H2|]. split; [exact H3|].
  exact (next_ignores_month_bound ah15 H1 H2 H3).
Defined.

(** The record after typing the two large durations of
    [calculateTotalMonths_exact] into a fresh page. *)
Definition ah_big_durations : FormData :=
  mergeSection (set_currentAddress
    (set_current_field (set_current_field (currentAddress initialFormData)
       CAField.yearsAtAddress "1152921504606846848") CAField.monthsAtAddress "-13835058055282161664"))
    initialFormData.

Lemma calculateTotalMonths_exact_witness :
  calculateTotalMonths initialFormData =
    (CurrentAddress.yearsAtAddress (currentAddress initialFormData) * 12 +
     CurrentAddress.monthsAtAddress (currentAddress initialFormData))%Z /\
  calculateTotalMonths ah_big_durations = 0%Z /\
  (CurrentAddress.yearsAtAddress (currentAddress ah_big_durations) * 12 +
   CurrentAddress.monthsAtAddress (currentAddress ah_big_durations))%Z = 512%Z.
Proof.
  split; [apply (proj1 (calculateTotalMonths_exact initialFormData)); vm_compute; congruence|].
  apply (proj2 (calculateTotalMonths_exact ah_big_durations)); vm_compute; reflexivity.
Defined.

Lemma typed_durations_decide_section_witness :
  rtc ah_step (mount initialFormData) ah0 /\ (Z.abs 1 <= 2 ^ 48)%Z /\ (Z.abs 0 <= 2 ^ 52)%Z /\
  ah_showPreviousAddresses
    (fst (step (CurrentAddressChange CAField.monthsAtAddress (string_of_Z 0))
            (fst (step (CurrentAddressChange CAField.yearsAtAddress (string_of_Z 1)) ah0)))) =
  bool_decide (1 * 12 + 0 < 12)%Z.
Proof.
  assert (H : rtc ah_step (mount initialFormData) ah0) by apply rtc_refl.
  split; [exact H|]. split; [lia|]. split; [lia|].
  exact (typed_durations_decide_section initialFormData ah0 1 0 H ltac:(lia) ltac:(lia)).
Defined.
