(* ===== verification/PersonalDetails.v ===== *)
(** * The family page (src/app/personal-details/page.tsx)

    [PersonalDetailsContent] keeps two pieces of React state besides the
    record: [showSpouseForm] (initialised from [formData.maritalStatus ===
    'Married'] and set by [handleMaritalStatusChange]) and [children]
    (initialised from [formData.children]).  The page is a state machine
    [PDState] over the [FormStore] interface, one [step] per user event;
    the page has no effect.  [SpouseEdit] and [ChildEdit] are the
    [(field, value)] pairs the inputs pass to [handleSpouseChange] and
    [updateChild] (the spouse checkbox passes [checked], the child checkbox
    [!!checked]; both are booleans here).

    Theorems: the flag and the local list never desynchronise from the
    record; switching the marital status away from "Married" hides the
    sub-form and keeps the spouse data; two children added then the first
    removed leaves exactly the second with its id; ids stay distinct when
    the uuid generator does not repeat.  The user events are those the
    rendered page offers ([available]): the spouse inputs only while the
    sub-form is shown, and the four values of the marital-status radio
    group. *)

From S2P Require Import Prelude FormData.

Inductive SpouseEdit :=
| SpouseFirstName (v : string)
| SpouseLastName (v : string)
| SpouseDateOfBirth (v : string)
| SpouseNationality (v : string)
| SpouseTravelingWithYou (b : bool).

Inductive ChildEdit :=
| ChildFirstName (v : string)
| ChildLastName (v : string)
| ChildDateOfBirth (v : string)
| ChildRelationship (v : string)
| ChildTravelingWithYou (b : bool).

(** [{ ...spouse, [field]: value }] *)
Definition apply_spouse_edit (s : Spouse.t) (e : SpouseEdit) : Spouse.t :=
  match e with
  | SpouseFirstName v => {| s with Spouse.firstName := v |}
  | SpouseLastName v => {| s with Spouse.lastName := v |}
  | SpouseDateOfBirth v => {| s with Spouse.dateOfBirth := v |}
  | SpouseNationality v => {| s with Spouse.nationality := v |}
  | SpouseTravelingWithYou b => {| s with Spouse.travelingWithYou := b |}
  end.

(** [{ ...child, [field]: value }] *)
Definition apply_child_edit (c : Child.t) (e : ChildEdit) : Child.t :=
  match e with
  | ChildFirstName v => {| c with Child.firstName := v |}
  | ChildLastName v => {| c with Child.lastName := v |}
  | ChildDateOfBirth v => {| c with Child.dateOfBirth := v |}
  | ChildRelationship v => {| c with Child.relationship := v |}
  | ChildTravelingWithYou b => {| c with Child.travelingWithYou := b |}
  end.

(** The defaults of [handleSpouseChange] when [formData.spouse] is unset. *)
Definition blankSpouse : Spouse.t := Spouse.mk "" "" "" "" false.

(** The object literal [newChild] of [addChild]. *)
Definition newChild (uuid : string) : Child.t := Child.mk uuid "" "" "" "" false.

(** The state machine of [PersonalDetailsContent]. *)
Module PersonalDetailsContent.

Inductive Event :=
| MaritalStatusChange (v : MaritalStatus.t)
| SpouseChange (e : SpouseEdit)
| AddChild (uuid : string)
| RemoveChild (id : string)
| UpdateChild (id : string) (e : ChildEdit)
| ClickNext.

Section Page.
Context {St : Type} `{!FormStore St}.

Record PDState := {
  pd_store : St;
  pd_showSpouseForm : bool;
  pd_children : list Child.t }.

Definition pd_form (st : PDState) : FormData := formData (pd_store st).

Definition mount (s : St) : PDState := {|
  pd_store := s;
  pd_showSpouseForm := bool_decide (maritalStatus (formData s) = MaritalStatus.Married);
  pd_children := children (formData s) |}.

Definition handleMaritalStatusChange (v : MaritalStatus.t) (st : PDState) : PDState := {|
  pd_store := updateFormData (set_maritalStatus v) (pd_store st);
  pd_showSpouseForm := bool_decide (v = MaritalStatus.Married);
  pd_children := pd_children st |}.

Definition handleSpouseChange (e : SpouseEdit) (st : PDState) : PDState :=
  let s := match spouse (pd_form st) with
           | None => apply_spouse_edit blankSpouse e
           | Some sp => apply_spouse_edit sp e
           end in
  {| st with pd_store := updateFormData (set_spouse s) (pd_store st) |}.

Definition setChildren (updated : list Child.t) (st : PDState) : PDState := {|
  pd_store := updateFormData (set_children updated) (pd_store st);
  pd_showSpouseForm := pd_showSpouseForm st;
  pd_children := updated |}.

Definition addChild (uuid : string) (st : PDState) : PDState :=
  setChildren (pd_children st ++ [newChild uuid]) st.

Definition removeChild (id : string) (st : PDState) : PDState :=
  setChildren (filter_out Child.id id (pd_children st)) st.

Definition updateChild (id : string) (e : ChildEdit) (st : PDState) : PDState :=
  setChildren (map_at Child.id id (fun c => apply_child_edit c e) (pd_children st)) st.

(** [handleNext] only runs [router.push('/address-history')]. *)
Definition handleNext (st : PDState) : option string := Some "/address-history".

Definition step (e : Event) (st : PDState) : PDState * option string :=
  match e with
  | MaritalStatusChange v => (handleMaritalStatusChange v st, None)
  | SpouseChange se => (handleSpouseChange se st, None)
  | AddChild u => (addChild u st, None)
  | RemoveChild id => (removeChild id st, None)
  | UpdateChild id ce => (updateChild id ce st, None)
  | ClickNext => (st, handleNext st)
  end.

(** The events the rendered page offers: the spouse inputs exist only
    while [showSpouseForm] (lines 127-186), and the marital-status radio
    group offers its four values (lines 105-121), never the empty one. *)
Definition available (e : Event) (st : PDState) : bool :=
  match e with
  | MaritalStatusChange v => bool_decide (v <> MaritalStatus.Unset)
  | SpouseChange _ => pd_showSpouseForm st
  | _ => true
  end.

(** One user event of the page. *)
Definition pd_step (st st' : PDState) : Prop := exists e, available e st = true /\ fst (step e st) = st'.

Definition fresh_event (e : Event) (st : PDState) : Prop :=
  match e with
  | AddChild u => u ∉ map Child.id (pd_children st)
  | _ => True
  end.

Definition pd_fresh_step (st st' : PDState) : Prop :=
  exists e, available e st = true /\ fresh_event e st /\ fst (step e st) = st'.

Definition pd_inv (st : PDState) : Prop :=
  pd_showSpouseForm st = bool_decide (maritalStatus (pd_form st) = MaritalStatus.Married) /\
  pd_children st = children (pd_form st).

Definition pd_ids (st : PDState) : list string := map Child.id (pd_children st).
End Page.

Arguments PDState St : clear implicits.
End PersonalDetailsContent.

Import PersonalDetailsContent.

Section Proofs.
Context {St : Type} `{!FormStore St}.
Implicit Types (st : PDState St).

Lemma pd_form_setChildren l st :
  pd_form (setChildren l st) = mergeSection (set_children l) (pd_form st).
Proof. apply updateFormData_law. Qed.

Lemma pd_form_marital v st :
  pd_form (handleMaritalStatusChange v st) = mergeSection (set_maritalStatus v) (pd_form st).
Proof. apply updateFormData_law. Qed.

Lemma pd_form_spouse e st :
  pd_form (handleSpouseChange e st) =
  mergeSection (set_spouse (apply_spouse_edit (default blankSpouse (spouse (pd_form st))) e))
               (pd_form st).
Proof. unfold handleSpouseChange. destruct (spouse (pd_form st)); apply updateFormData_law. Qed.

#[local] Hint Rewrite pd_form_setChildren pd_form_marital pd_form_spouse : forms_rw.

Lemma pd_step_inv e st : pd_inv st -> pd_inv (fst (step e st)).
Proof.
  intros [Hs Hc]. destruct e; cbn [step fst]; unfold pd_inv, addChild, removeChild, updateChild;
    autorewrite with forms_rw; cbn; split; done.
Qed.

Lemma pd_mount_inv s : pd_inv (mount s).
Proof. done. Qed.

(** C10. On every state reachable from mounting the family page, the spouse
    sub-form is shown iff [maritalStatus = 'Married'], and the local
    children list equals [formData.children]. *)
Theorem pd_reachable_inv s st :
  rtc pd_step (mount s) st ->
  pd_showSpouseForm st = bool_decide (maritalStatus (pd_form st) = MaritalStatus.Married) /\
  pd_children st = children (pd_form st).
Proof.
  apply (rtc_invariant pd_step pd_inv); [|apply pd_mount_inv].
  intros x y Hx [e [_ <-]]. by apply pd_step_inv.
Qed.

(** C32. Setting the marital status to "Married", entering spouse data, then
    switching to "Single" hides the sub-form and keeps the spouse record. *)
Theorem married_then_single_keeps_spouse st e :
  let st1 := fst (step (MaritalStatusChange MaritalStatus.Married) st) in
  let st2 := fst (step (SpouseChange e) st1) in
  let st3 := fst (step (MaritalStatusChange MaritalStatus.Single) st2) in
  pd_showSpouseForm st1 = true /\ pd_showSpouseForm st3 = false /\
  spouse (pd_form st3) = Some (apply_spouse_edit (default blankSpouse (spouse (pd_form st))) e).
Proof. cbn [step fst]. autorewrite with forms_rw. cbn. done. Qed.

Lemma pd_step_ids_nodup e st :
  fresh_event e st -> NoDup (pd_ids st) -> NoDup (pd_ids (fst (step e st))).
Proof.
  intros Hf Hnd. unfold pd_ids. destruct e; simpl; try done.
  - rewrite map_app. apply NoDup_app. split; [done|]. split.
    + intros x Hx Hin. apply list_elem_of_singleton in Hin. subst. done.
    + apply NoDup_singleton.
  - by apply NoDup_filter_out.
  - by rewrite keys_map_at by (by intros c; destruct e).
Qed.

(** C27. When [uuidv4()] never returns an id already in the list, child ids
    stay pairwise distinct on every reachable state. *)
Theorem pd_fresh_ids_nodup s st :
  NoDup (map Child.id (children (formData s))) ->
  rtc pd_fresh_step (mount s) st -> NoDup (pd_ids st).
Proof.
  intros H0. apply (rtc_invariant pd_fresh_step (fun st => NoDup (pd_ids st))); [|done].
  intros x y Hx [e [_ [Hf <-]]]. by apply pd_step_ids_nodup.
Qed.

(** Adding two children with distinct ids and removing the first leaves
    exactly the second, with its id unchanged, in the record and in the
    page. *)
Theorem add_two_remove_first st u1 u2 :
  pd_inv st -> children (pd_form st) = [] -> u1 <> u2 ->
  let st3 := fst (step (RemoveChild u1)
                (fst (step (AddChild u2) (fst (step (AddChild u1) st))))) in
  children (pd_form st3) = [newChild u2] /\ pd_children st3 = [newChild u2].
Proof.
  intros [_ Hc] Hnil Hne. cbn [step fst]. unfold addChild, removeChild.
  autorewrite with forms_rw. cbn.
  rewrite Hc, Hnil. simpl. unfold filter_out.
  rewrite filter_cons_False by (simpl; tauto).
  rewrite filter_cons_True by (simpl; congruence). done.
Qed.
End Proofs.

(** ** Witnesses *)

Definition pd0 : PDState FormData := mount initialFormData.

Lemma pd_reachable_inv_witness :
  rtc pd_step pd0 (fst (step (AddChild "c-1") pd0)) /\
  pd_showSpouseForm (fst (step (AddChild "c-1") pd0)) =
    bool_decide (maritalStatus (pd_form (fst (step (AddChild "c-1") pd0))) = MaritalStatus.Married) /\
  pd_children (fst (step (AddChild "c-1") pd0)) = children (pd_form (fst (step (AddChild "c-1") pd0))).
Proof.
  assert (H : rtc pd_step pd0 (fst (step (AddChild "c-1") pd0)))
    by (apply rtc_once; by exists (AddChild "c-1")).
  split; [exact H|]. exact (pd_reachable_inv initialFormData _ H).
Defined.

Lemma pd_fresh_ids_nodup_witness :
  NoDup (map Child.id (children (formData initialFormData))) /\
  rtc pd_fresh_step pd0 (fst (step (AddChild "c-1") pd0)) /\
  NoDup (pd_ids (fst (step (AddChild "c-1") pd0))).
Proof.
  assert (H0 : NoDup (map Child.id (children (formData initialFormData)))) by constructor.
  assert (H1 : rtc pd_fresh_step pd0 (fst (step (AddChild "c-1") pd0))).
  { apply rtc_once. exists (AddChild "c-1"). split; [done|]. split; [apply not_elem_of_nil|done]. }
  split; [exact H0|]. split; [exact H1|]. exact (pd_fresh_ids_nodup initialFormData _ H0 H1).
Defined.

Lemma add_two_remove_first_witness :
  pd_inv pd0 /\ children (pd_form pd0) = [] /\ "c-1" <> "c-2" /\
  children (pd_form (fst (step (RemoveChild "c-1")
     (fst (step (AddChild "c-2") (fst (step (AddChild "c-1") pd0))))))) = [newChild "c-2"] /\
  pd_children (fst (step (RemoveChild "c-1")
     (fst (step (AddChild "c-2") (fst (step (AddChild "c-1") pd0)))))) = [newChild "c-2"].
Proof.
  assert (H1 : pd_inv pd0) by apply pd_mount_inv.
  assert (H2 : children (pd_form pd0) = []) by reflexivity.
  assert (H3 : "c-1" <> "c-2") by discriminate.
  split; [exact H1|]. split; [exact H2|]. split; [exact H3|].
  exact (add_two_remove_first pd0 "c-1" "c-2" H1 H2 H3).
Defined.
