(* ===== verification/PersonalInfoStep.v ===== *)
(** * The home page: PersonalInfo.tsx and NationalIDAnalysis.tsx

    src/app/page.tsx mounts [NationalIDAnalysis] and [PersonalInfo] under
    one [FormDataProvider] ([PassportAnalysis] is imported but not in the
    sources).  [HomeState] holds the store, the react-hook-form values of
    [PersonalInfo] (initialised from [defaultValues: formData.personalInfo]),
    its [formState.errors], and the two pieces of state of
    [NationalIDAnalysis].  Text inputs registered with [register] change
    the values; the radio groups call [setValue]; passport and national-id
    inputs call [updateFormData] directly.  [handleSubmit(onSubmit)] runs
    the zod resolver: with no issue it calls [onSubmit], which stores the
    values and pushes '/personal-details'; otherwise it records the first
    issue of each field and stays.  The [useEffect] on
    [formData.personalInfo] copies the record back into the values.
    Re-validation on change after a failed submit only refreshes the
    displayed errors and is not modelled.

    Theorems: a submit navigates iff [personalInfoSchema] accepts the
    values, and then stores exactly them; a rejected submit changes no
    record field and reports the message of each failing field; the
    spec's email scenario; the analysis stub never writes the record and,
    with a file selected, shows the message asking to select one
    ([nidErrorShown] is the paragraph [{error && <p>{error}</p>}]). *)

From S2P Require Import Prelude FormData Zod.

Module DocField.
Inductive t := number | issuingAuthority | dateOfIssue | dateOfExpiry.
End DocField.

(** [{ ...formData.passport, [field]: e.target.value }] *)
Definition set_doc_field (d : IdDocument.t) (f : DocField.t) (v : string) : IdDocument.t :=
  match f with
  | DocField.number => {| d with IdDocument.number := v |}
  | DocField.issuingAuthority => {| d with IdDocument.issuingAuthority := v |}
  | DocField.dateOfIssue => {| d with IdDocument.dateOfIssue := v |}
  | DocField.dateOfExpiry => {| d with IdDocument.dateOfExpiry := v |}
  end.

(** The state machine of the home page ([Home] with [PersonalInfo] and [NationalIDAnalysis]). *)
Module HomePage.

Inductive Event :=
| EditEmail (v : string)
| EditPhone (v : string)
| EditFirstName (v : string)
| EditLastName (v : string)
| EditPlaceOfBirth (v : string)
| SetGender (g : Gender.t)
| SetNameChanged (choice : string)
| EditPassport (f : DocField.t) (v : string)
| EditNationalId (f : DocField.t) (v : string)
| Submit
| NidFileChange (files : list string)
| NidAnalyze.

Definition nidMessage : string := "Please select a National ID PDF file first.".

Section Page.
Context {St : Type} `{!FormStore St}.

Record HomeState := {
  hs_store : St;
  hs_values : PersonalInfo.t;
  hs_errors : gmap string string;
  hs_nidFile : option string;
  hs_nidError : string }.

Definition hs_form (st : HomeState) : FormData := formData (hs_store st).

Definition mount (s : St) : HomeState := {|
  hs_store := s;
  hs_values := personalInfo (formData s);
  hs_errors := ∅;
  hs_nidFile := None;
  hs_nidError := "" |}.

Definition setValues (v : PersonalInfo.t) (st : HomeState) : HomeState :=
  {| st with hs_values := v |}.

Definition editValue (e : Event) (v : PersonalInfo.t) : PersonalInfo.t :=
  match e with
  | EditEmail x => {| v with PersonalInfo.email := x |}
  | EditPhone x => {| v with PersonalInfo.phone := x |}
  | EditFirstName x => {| v with PersonalInfo.firstName := x |}
  | EditLastName x => {| v with PersonalInfo.lastName := x |}
  | EditPlaceOfBirth x => {| v with PersonalInfo.placeOfBirth := x |}
  | SetGender g => {| v with PersonalInfo.gender := g |}
  | SetNameChanged c => {| v with PersonalInfo.hasNameChanged := bool_decide (c = "yes") |}
  | _ => v
  end.

(** [onSubmit(data)]: [updateFormData({ personalInfo: data })] and
    [router.push('/personal-details')]. *)
Definition onSubmit (data : PersonalInfo.t) (st : HomeState) : HomeState * option string :=
  ({| st with hs_store := updateFormData (set_personalInfo data) (hs_store st);
              hs_errors := ∅ |}, Some "/personal-details").

(** [handleSubmit(onSubmit)] with [zodResolver(personalInfoSchema)]. *)
Definition handleSubmit (st : HomeState) : HomeState * option string :=
  match personalInfoSchema (hs_values st) with
  | [] => onSubmit (hs_values st) st
  | issues => ({| st with hs_errors := errors_of issues |}, None)
  end.

(** [handleFileChange]: a non-empty selection replaces the file and clears
    the error. *)
Definition handleFileChange (files : list string) (st : HomeState) : HomeState :=
  match files with
  | f :: _ => {| st with hs_nidFile := Some f; hs_nidError := "" |}
  | [] => st
  end.

(** [handleAnalyze]: both branches set the same message. *)
Definition handleAnalyze (st : HomeState) : HomeState :=
  match hs_nidFile st with
  | None => {| st with hs_nidError := nidMessage |}
  | Some _ => {| st with hs_nidError := nidMessage |}
  end.

Definition handle (e : Event) (st : HomeState) : HomeState * option string :=
  match e with
  | EditPassport f v =>
      ({| st with hs_store := updateFormData
            (set_passport (set_doc_field (passport (hs_form st)) f v)) (hs_store st) |}, None)
  | EditNationalId f v =>
      ({| st with hs_store := updateFormData
            (set_nationalId (set_doc_field (nationalId (hs_form st)) f v)) (hs_store st) |}, None)
  | Submit => handleSubmit st
  | NidFileChange files => (handleFileChange files st, None)
  | NidAnalyze => (handleAnalyze st, None)
  | e => (setValues (editValue e (hs_values st)) st, None)
  end.

(** [useEffect] on [formData.personalInfo]: [setValue] of every field. *)
Definition after_render (before after : HomeState) : HomeState :=
  if decide (personalInfo (hs_form before) = personalInfo (hs_form after)) then after
  else setValues (personalInfo (hs_form after)) after.

Definition step (e : Event) (st : HomeState) : HomeState * option string :=
  let '(st', nav) := handle e st in (after_render st st', nav).
(** [{error && <p className="text-red-600 mt-4">{error}</p>}]: the
    paragraph NationalIDAnalysis shows under its button. *)
Definition nidErrorShown (st : HomeState) : option string :=
  if bool_decide (hs_nidError st = "") then None else Some (hs_nidError st).
End Page.

Arguments HomeState St : clear implicits.
End HomePage.

Import HomePage.

Section Proofs.
Context {St : Type} `{!FormStore St}.
Implicit Types (st : HomeState St).

Lemma hs_form_after_render b a : hs_form (after_render b a) = hs_form a.
Proof. unfold after_render. by case_decide. Qed.

Lemma step_handle e st :
  step e st = (after_render st (fst (handle e st)), snd (handle e st)).
Proof. unfold step. by destruct (handle e st). Qed.

(** A text input or radio change of the personal-information form only
    changes the form values: the record, and so the effect, stay put. *)
Lemma value_edit_step e st :
  match e with
  | EditEmail _ | EditPhone _ | EditFirstName _ | EditLastName _ | EditPlaceOfBirth _
  | SetGender _ | SetNameChanged _ => True
  | _ => False
  end ->
  step e st = (setValues (editValue e (hs_values st)) st, None).
Proof.
  intros He. rewrite step_handle.
  destruct e; try done; simpl; unfold after_render; by rewrite decide_True.
Qed.

(** An accepted submit, step by step. *)
Lemma submit_accepted_step st :
  personalInfoSchema (hs_values st) = [] ->
  snd (step Submit st) = Some "/personal-details" /\
  hs_form (fst (step Submit st)) = mergeSection (set_personalInfo (hs_values st)) (hs_form st).
Proof.
  intros Hok. rewrite step_handle. simpl. unfold handleSubmit. rewrite Hok. simpl.
  split; [done|]. rewrite hs_form_after_render. apply updateFormData_law.
Qed.

(** C8. A submit whose values [personalInfoSchema] accepts navigates to
    '/personal-details' and stores exactly those values as
    [personalInfo], leaving every other key of the record as it was. *)
Theorem submit_accepted st :
  personalInfoSchema (hs_values st) = [] ->
  snd (step Submit st) = Some "/personal-details" /\
  hs_form (fst (step Submit st)) = mergeSection (set_personalInfo (hs_values st)) (hs_form st).
Proof. exact (submit_accepted_step st). Qed.

(** A submit leaves the national-id analysis alone. *)
Lemma submit_keeps_nidError st : hs_nidError (fst (step Submit st)) = hs_nidError st.
Proof.
  rewrite step_handle. unfold after_render. cbn [fst handle]. unfold handleSubmit.
  destruct (personalInfoSchema _); case_decide; done.
Qed.

(** A rejected submit, step by step. *)
Lemma submit_rejected_step st :
  personalInfoSchema (hs_values st) <> [] ->
  snd (step Submit st) = None /\ hs_form (fst (step Submit st)) = hs_form st /\
  forall f, hs_errors (fst (step Submit st)) !! f =
            snd <$> List.find (fun i => bool_decide (i.1 = f)) (personalInfoSchema (hs_values st)).
Proof.
  intros Hrej. rewrite step_handle. simpl. unfold handleSubmit.
  destruct (personalInfoSchema (hs_values st)) as [|i rest] eqn:E; [done|].
  rewrite <- E. simpl. split; [done|]. unfold after_render. case_decide as Hd; [|done].
  split; [done|]. intros f. by rewrite <- errors_of_first, E.
Qed.

(** C9. A submit that the schema rejects does not navigate, leaves the
    record unchanged, and reports for each field the message of its
    first issue. *)
Theorem submit_rejected st :
  personalInfoSchema (hs_values st) <> [] ->
  snd (step Submit st) = None /\ hs_form (fst (step Submit st)) = hs_form st /\
  forall f, hs_errors (fst (step Submit st)) !! f =
            snd <$> List.find (fun i => bool_decide (i.1 = f)) (personalInfoSchema (hs_values st)).
Proof. exact (submit_rejected_step st). Qed.

Lemma personalInfoSchema_email_only v :
  zod_email (PersonalInfo.email v) = false ->
  5 <= String.length (PersonalInfo.phone v) -> 1 <= String.length (PersonalInfo.firstName v) ->
  1 <= String.length (PersonalInfo.lastName v) -> 1 <= String.length (PersonalInfo.placeOfBirth v) ->
  personalInfoSchema v = [("email", "Valid email required")].
Proof.
  intros He Hp Hf Hl Hb. unfold personalInfoSchema, z_string_email, z_string_min.
  rewrite He. rewrite !bool_decide_eq_true_2 by done. done.
Qed.

(** The spec's scenario: with every other field valid and an invalid
    email, Submit is rejected with the field message "Valid email
    required"; after the email is corrected to "a@b.com", Submit moves to
    '/personal-details'. *)
Theorem email_fix_then_submit st :
  zod_email (PersonalInfo.email (hs_values st)) = false ->
  5 <= String.length (PersonalInfo.phone (hs_values st)) ->
  1 <= String.length (PersonalInfo.firstName (hs_values st)) ->
  1 <= String.length (PersonalInfo.lastName (hs_values st)) ->
  1 <= String.length (PersonalInfo.placeOfBirth (hs_values st)) ->
  snd (step Submit st) = None /\
  hs_errors (fst (step Submit st)) !! "email" = Some "Valid email required" /\
  snd (step Submit (fst (step (EditEmail "a@b.com") (fst (step Submit st))))) =
    Some "/personal-details".
Proof.
  intros He Hp Hf Hl Hb. pose proof (personalInfoSchema_email_only _ He Hp Hf Hl Hb) as E.
  destruct (submit_rejected_step st) as (Hnav & Hform & Herr); [by rewrite E|].
  split; [done|]. split; [by rewrite Herr, E|].
  apply submit_accepted_step. rewrite step_handle. simpl. unfold after_render.
  rewrite decide_True by done. simpl.
  apply personalInfoSchema_nil_iff. simpl. split; [done|].
  assert (Hv : hs_values (fst (step Submit st)) = hs_values st).
  { rewrite step_handle. simpl. unfold handleSubmit. rewrite E. simpl.
    unfold after_render. rewrite decide_True; [done|reflexivity]. }
  rewrite Hv. done.
Qed.

(** C33. The national-id analysis stub never fills anything: after a file
    is selected (which clears the message), "Analyze & Fill Fields"
    leaves the record as it was, does not navigate, and shows "Please
    select a National ID PDF file first." *)
Theorem analyze_never_fills st f files :
  let st1 := fst (step (NidFileChange (f :: files)) st) in
  hs_nidFile st1 = Some f /\ nidErrorShown st1 = None /\
  hs_form (fst (step NidAnalyze st1)) = hs_form st /\
  nidErrorShown (fst (step NidAnalyze st1)) = Some nidMessage /\
  snd (step NidAnalyze st1) = None.
Proof.
  cbn zeta. rewrite !step_handle. simpl. unfold handleAnalyze, after_render, nidErrorShown.
  simpl. rewrite !decide_True by done. simpl. done.
Qed.
End Proofs.

(** ** Witnesses *)

Definition home_badEmail : HomeState FormData :=
  setValues (PersonalInfo.mk "not-an-email" "0123456789" "Ada" "Lovelace" Gender.Female
               "London, UK" false) (mount initialFormData).

Lemma submit_accepted_witness :
  personalInfoSchema (hs_values (setValues (PersonalInfo.mk "a@b.com" "0123456789" "Ada"
     "Lovelace" Gender.Female "London, UK" false) (mount initialFormData))) = [] /\
  snd (step Submit (setValues (PersonalInfo.mk "a@b.com" "0123456789" "Ada"
     "Lovelace" Gender.Female "London, UK" false) (mount initialFormData))) = Some "/personal-details" /\
  hs_form (fst (step Submit (setValues (PersonalInfo.mk "a@b.com" "0123456789" "Ada"
     "Lovelace" Gender.Female "London, UK" false) (mount initialFormData)))) =
  mergeSection (set_personalInfo (PersonalInfo.mk "a@b.com" "0123456789" "Ada"
     "Lovelace" Gender.Female "London, UK" false)) initialFormData.
Proof.
  assert (H : personalInfoSchema (hs_values (setValues (PersonalInfo.mk "a@b.com" "0123456789"
     "Ada" "Lovelace" Gender.Female "London, UK" false) (mount initialFormData))) = [])
    by (vm_compute; reflexivity).
  split; [exact H|]. exact (submit_accepted _ H).
Defined.

Lemma submit_rejected_witness :
  personalInfoSchema (hs_values home_badEmail) <> [] /\
  snd (step Submit home_badEmail) = None /\ hs_form (fst (step Submit home_badEmail)) = hs_form home_badEmail /\
  forall f, hs_errors (fst (step Submit home_badEmail)) !! f =
    snd <$> List.find (fun i => bool_decide (i.1 = f)) (personalInfoSchema (hs_values home_badEmail)).
Proof.
  assert (H : personalInfoSchema (hs_values home_badEmail) <> []) by (vm_compute; discriminate).
  split; [exact H|]. exact (submit_rejected _ H).
Defined.

Lemma email_fix_then_submit_witness :
  zod_email (PersonalInfo.email (hs_values home_badEmail)) = false /\
  snd (step Submit home_badEmail) = None /\
  hs_errors (fst (step Submit home_badEmail)) !! "email" = Some "Valid email required" /\
  snd (step Submit (fst (step (EditEmail "a@b.com") (fst (step Submit home_badEmail))))) =
    Some "/personal-details".
Proof.
  assert (H1 : zod_email (PersonalInfo.email (hs_values home_badEmail)) = false) by reflexivity.
  assert (H2 : 5 <= String.length (PersonalInfo.phone (hs_values home_badEmail))) by (simpl; lia).
  assert (H3 : 1 <= String.length (PersonalInfo.firstName (hs_values home_badEmail))) by (simpl; lia).
  assert (H4 : 1 <= String.length (PersonalInfo.lastName (hs_values home_badEmail))) by (simpl; lia).
  assert (H5 : 1 <= String.length (PersonalInfo.placeOfBirth (hs_values home_badEmail))) by (simpl; lia).
  split; [exact H1|]. exact (email_fix_then_submit _ H1 H2 H3 H4 H5).
Defined.
