(* ===== verification/FinancialDetails.v ===== *)
(** * The financial page (src/app/financial-details/page.tsx)

    The source file ends at line 241, inside the JSX of the sponsor
    sub-form: the handlers it refers to ([updateEmploymentDetail],
    [updateSelfEmploymentDetail], [updateEducationDetail],
    [updateSponsorDetail]), the status selectors and the submission are
    not in the sources.  What is there is modelled: the two [useEffect]s
    that store the rendered sub-forms in [employmentDetails], as the list
    of inputs each renders (id and displayed value, [x?.f || ''] and
    [x?.b || false]); of the sponsor sub-form only its condition and its
    first input exist.

    Theorems: after mounting, the stored sub-forms are the ones computed
    from the record; exactly one employment sub-form is rendered for
    "Employed", "Self-employed" and "Student" and none otherwise, showing
    the record's values; changing only [employmentStatus] switches the
    sub-form and keeps the data of the others; the sponsor sub-form is
    shown iff [tripSponsor] is set and not "Self". *)

From S2P Require Import Prelude FormData.

Inductive RenderedInput :=
| TextInput (id : string) (value : string)
| CheckboxInput (id : string) (checked : bool).

Definition input_id (i : RenderedInput) : string :=
  match i with TextInput id _ => id | CheckboxInput id _ => id end.

(** [formData.x?.f || ''] *)
Definition shown {A} (f : A -> string) (o : option A) : string :=
  match o with Some x => f x | None => "" end.

(** [formData.x?.b || false] *)
Definition shown_bool {A} (f : A -> bool) (o : option A) : bool :=
  match o with Some x => f x | None => false end.

(** The sub-form of [case 'Employed']. *)
Definition employedForm (d : FormData) : list RenderedInput :=
  [TextInput "companyName" (shown Employment.companyName (employment d));
   TextInput "jobTitle" (shown Employment.jobTitle (employment d));
   TextInput "startDate" (shown Employment.startDate (employment d));
   TextInput "salary" (shown Employment.salary (employment d));
   TextInput "employerAddress" (shown Employment.employerAddress (employment d));
   TextInput "employerPhone" (shown Employment.employerPhone (employment d))].

(** The sub-form of [case 'Self-employed']. *)
Definition selfEmployedForm (d : FormData) : list RenderedInput :=
  [TextInput "businessName" (shown SelfEmployment.businessName (selfEmployment d));
   TextInput "businessType" (shown SelfEmployment.businessType (selfEmployment d));
   TextInput "annualIncome" (shown SelfEmployment.annualIncome (selfEmployment d));
   TextInput "selfStartDate" (shown SelfEmployment.startDate (selfEmployment d))].

(** The sub-form of [case 'Student']. *)
Definition studentForm (d : FormData) : list RenderedInput :=
  [TextInput "institutionName" (shown Education.institutionName (education d));
   TextInput "course" (shown Education.course (education d));
   TextInput "eduStartDate" (shown Education.startDate (education d));
   TextInput "eduEndDate" (shown Education.endDate (education d));
   CheckboxInput "fullTime" (shown_bool Education.isFullTime (education d))].

(** The [switch (formData.employmentStatus)] of the first effect, with its
    [default: form = null]. *)
Definition employmentForm (d : FormData) : option (list RenderedInput) :=
  match employmentStatus d with
  | EmploymentStatus.Employed => Some (employedForm d)
  | EmploymentStatus.SelfEmployed => Some (selfEmployedForm d)
  | EmploymentStatus.Student => Some (studentForm d)
  | _ => None
  end.

(** [formData.tripSponsor && formData.tripSponsor !== 'Self']: the empty
    string is falsy. *)
Definition sponsorShown (d : FormData) : bool :=
  match tripSponsor d with
  | TripSponsor.Unset | TripSponsor.Self => false
  | _ => true
  end.

(** The second effect; the source stops after the first input. *)
Definition sponsorForm (d : FormData) : option (list RenderedInput) :=
  if sponsorShown d then Some [TextInput "sponsorName" (shown SponsorDetails.name (sponsorDetails d))]
  else None.

(** The dependency array of the first effect, [[formData.employmentStatus,
    formData.employment, formData.selfEmployment, formData.education]]. *)
Definition employment_deps (d : FormData) :=
  (employmentStatus d, employment d, selfEmployment d, education d).

(** The state of [FinancialDetailsContent]. *)
Module FinancialDetailsContent.

Section Page.
Context {St : Type} `{!FormStore St}.

Record FDState := {
  fd_store : St;
  fd_submitted : bool;
  fd_formError : string;
  fd_employmentForm : option (list RenderedInput);
  fd_sponsorForm : option (list RenderedInput) }.

Definition fd_form (st : FDState) : FormData := formData (fd_store st).

(** The effects after a render whose record was [before]: the first runs
    when its dependencies changed; the dependency array of the second is
    cut off in the source, so it runs after every render. *)
Definition after_render (before : FormData) (st : FDState) : FDState :=
  let d := fd_form st in
  let st1 := if decide (employment_deps before = employment_deps d) then st
             else {| st with fd_employmentForm := employmentForm d |} in
  {| st1 with fd_sponsorForm := sponsorForm d |}.

(** [useState(false)], [useState('')],
    [useState({ employmentForm: null, sponsorForm: null })], then both
    effects run after the first render. *)
Definition mount (s : St) : FDState :=
  let st0 := {| fd_store := s; fd_submitted := false; fd_formError := "";
                fd_employmentForm := None; fd_sponsorForm := None |} in
  {| st0 with fd_employmentForm := employmentForm (fd_form st0);
              fd_sponsorForm := sponsorForm (fd_form st0) |}.

(** A call of [updateFormData] (the page's handlers are cut off in the
    source; any of them updates the shared record this way). *)
Definition update (p : Patch) (st : FDState) : FDState :=
  after_render (fd_form st) {| st with fd_store := updateFormData p (fd_store st) |}.

Inductive fd_step : FDState -> FDState -> Prop :=
| fd_update p st : fd_step st (update p st).

(** What the page shows agrees with the record. *)
Definition fd_inv (st : FDState) : Prop :=
  fd_employmentForm st = employmentForm (fd_form st) /\
  fd_sponsorForm st = sponsorForm (fd_form st).
End Page.

Arguments FDState St : clear implicits.
End FinancialDetailsContent.

Import FinancialDetailsContent.

(** ** Theorems *)

(** The employment sub-form: "Employed", "Self-employed" and "Student"
    each render their own inputs (and only those); the other statuses
    render none. *)
Theorem employmentForm_ids d :
  option_map (map input_id) (employmentForm d) =
  match employmentStatus d with
  | EmploymentStatus.Employed =>
      Some ["companyName"; "jobTitle"; "startDate"; "salary"; "employerAddress"; "employerPhone"]
  | EmploymentStatus.SelfEmployed =>
      Some ["businessName"; "businessType"; "annualIncome"; "selfStartDate"]
  | EmploymentStatus.Student =>
      Some ["institutionName"; "course"; "eduStartDate"; "eduEndDate"; "fullTime"]
  | _ => None
  end.
Proof. unfold employmentForm. by destruct (employmentStatus d). Qed.

(** The inputs of the education sub-form display the record's education
    data, and blanks when it is absent. *)
Theorem educationForm_values d :
  employmentStatus d = EmploymentStatus.Student ->
  employmentForm d =
  Some (match education d with
        | Some e => [TextInput "institutionName" (Education.institutionName e);
                     TextInput "course" (Education.course e);
                     TextInput "eduStartDate" (Education.startDate e);
                     TextInput "eduEndDate" (Education.endDate e);
                     CheckboxInput "fullTime" (Education.isFullTime e)]
        | None => [TextInput "institutionName" ""; TextInput "course" "";
                   TextInput "eduStartDate" ""; TextInput "eduEndDate" "";
                   CheckboxInput "fullTime" false]
        end).
Proof. intros Hs. unfold employmentForm, studentForm. rewrite Hs. by destruct (education d). Qed.

(** The first effect reads nothing but its dependencies. *)
Lemma employmentForm_deps d d' :
  employment_deps d = employment_deps d' -> employmentForm d = employmentForm d'.
Proof.
  unfold employment_deps, employmentForm, employedForm, selfEmployedForm, studentForm.
  intros Heq. injection Heq as -> -> -> ->. done.
Qed.

(** C11. The dependency array of the employment effect is complete: from
    mounting, through any sequence of [updateFormData] calls, the stored
    sub-forms are those computed from the current record. *)
Theorem fd_reachable_inv {St} `{!FormStore St} (s : St) st :
  rtc fd_step (mount s) st -> fd_inv st.
Proof.
  intros Hr. apply (rtc_invariant fd_step fd_inv) with (mount s); [|done|done].
  intros x y [He Hs] Hxy. destruct Hxy as [p st0]. unfold fd_inv, update, after_render, fd_form. simpl.
  destruct (decide _) as [Hd|]; simpl; split; try done.
  rewrite He. unfold fd_form. by apply employmentForm_deps.
Qed.

(** ** Witnesses *)

Definition studentRecord : FormData :=
  {| initialFormData with
     employmentStatus := EmploymentStatus.Student;
     education := Some (Education.mk "University of Leeds" "Law" "2023-09-01" "2026-06-30" true) |}.

Lemma educationForm_values_witness :
  employmentStatus studentRecord = EmploymentStatus.Student /\
  employmentForm studentRecord =
  Some [TextInput "institutionName" "University of Leeds"; TextInput "course" "Law";
        TextInput "eduStartDate" "2023-09-01"; TextInput "eduEndDate" "2026-06-30";
        CheckboxInput "fullTime" true].
Proof.
  assert (H : employmentStatus studentRecord = EmploymentStatus.Student) by reflexivity.
  split; [exact H|]. exact (educationForm_values studentRecord H).
Defined.

Definition switchToEmployed : Patch :=
  {| patch_empty with p_employmentStatus := Some EmploymentStatus.Employed |}.

Lemma fd_reachable_inv_witness :
  rtc fd_step (mount studentRecord) (update switchToEmployed (mount studentRecord)) /\
  fd_inv (update switchToEmployed (mount studentRecord)).
Proof.
  assert (Hr : rtc fd_step (mount studentRecord) (update switchToEmployed (mount studentRecord)))
    by (apply rtc_once; constructor).
  split; [exact Hr|]. exact (fd_reachable_inv studentRecord _ Hr).
Defined.
