(* ===== verification/Wizard.v ===== *)
(** * The wizard: the four pages and [router.push]

    Every page file renders its own [<FormDataProvider>] (src/app/page.tsx
    line 9, personal-details/page.tsx line 19, address-history/page.tsx
    line 19, financial-details/page.tsx line 21), and there is no layout
    under src/ that holds one: [router.push] unmounts the page with its
    provider and mounts the next page under a new provider, whose
    [useState(initialFormData)] starts again from the initial record.
    [FormProvider] states what a provider offers its pages: a store and
    the initial state of a new provider.  [Page] is the page shown with
    its state; [wizard_step] applies one user event of that page and
    follows the path it pushes; an event whose control the page does not
    render at that moment ([available]) leaves it as it is.  The handlers
    of the financial page are cut off in the source, so it receives no
    events here.

    Theorems: the route only ever stays or moves to the next page of the
    fixed order; every navigation lands on a freshly mounted page whose
    record is the initial record; a submit of valid personal information
    reaches the next page without it; and on every page reachable from the
    home page, other than the home page, the identity sections (passport,
    national id, personal information) are the initial ones.  Liveness:
    from every page reachable from the home page, at most nine user
    events ([finish_events]) reach the financial page; [wiz_inv] carries
    the address page's invariant along the wizard for this.  Termination:
    [route_rank] numbers the pages in their order; every page change adds
    one to it, so the relation [route_change] is well founded (by the
    measure [3 - route_rank], as in well-foundedness by inverse image) and
    a run changes page at most three times. *)

From Stdlib Require Import Wellfounded.Inclusion Wellfounded.Inverse_Image Arith.Wf_nat.
From S2P Require Import Prelude FormData Zod PersonalInfoStep PersonalDetails AddressHistory FinancialDetails.
Import HomePage PersonalDetailsContent AddressHistoryContent FinancialDetailsContent.

Class FormProvider (St : Type) `{!FormStore St} := {
  providerInit : St;
  providerInit_law : formData providerInit = initialFormData }.

(** [useState<FormData>(initialFormData)] *)
#[export] Instance typed_provider : FormProvider FormData := {|
  providerInit := initialFormData;
  providerInit_law := eq_refl |}.

Inductive Route := Home | PersonalDetailsR | AddressHistoryR | FinancialDetailsR.

#[global] Instance route_eq_dec : EqDecision Route.
Proof. solve_decision. Defined.

Definition route_of_path (p : string) : option Route :=
  if bool_decide (p = "/") then Some Home
  else if bool_decide (p = "/personal-details") then Some PersonalDetailsR
  else if bool_decide (p = "/address-history") then Some AddressHistoryR
  else if bool_decide (p = "/financial-details") then Some FinancialDetailsR
  else None.

(** The order of the pages, the successor of each page the one it pushes. *)
Definition next_route (r : Route) : option Route :=
  match r with
  | Home => Some PersonalDetailsR
  | PersonalDetailsR => Some AddressHistoryR
  | AddressHistoryR => Some FinancialDetailsR
  | FinancialDetailsR => None
  end.

Inductive WEvent :=
| OnHome (e : HomePage.Event)
| OnPersonal (e : PersonalDetailsContent.Event)
| OnAddress (e : AddressHistoryContent.Event).

(** The three identity sections of the record, written by the home page. *)
Definition identity (d : FormData) : IdDocument.t * IdDocument.t * PersonalInfo.t :=
  (passport d, nationalId d, personalInfo d).

Section Wizard.
Context {St : Type} `{!FormStore St} `{!FormProvider St}.

Inductive Page :=
| PHome (st : HomeState St)
| PPersonal (st : PDState St)
| PAddress (st : AHState St)
| PFinancial (st : FDState St).

Definition page_route (pg : Page) : Route :=
  match pg with
  | PHome _ => Home
  | PPersonal _ => PersonalDetailsR
  | PAddress _ => AddressHistoryR
  | PFinancial _ => FinancialDetailsR
  end.

Definition page_form (pg : Page) : FormData :=
  match pg with
  | PHome st => hs_form st
  | PPersonal st => pd_form st
  | PAddress st => ah_form st
  | PFinancial st => fd_form st
  end.

(** Mounting a page file: a new provider, then the page's own mount. *)
Definition mount_route (r : Route) : Page :=
  match r with
  | Home => PHome (HomePage.mount providerInit)
  | PersonalDetailsR => PPersonal (PersonalDetailsContent.mount providerInit)
  | AddressHistoryR => PAddress (AddressHistoryContent.mount providerInit)
  | FinancialDetailsR => PFinancial (FinancialDetailsContent.mount providerInit)
  end.

(** [router.push(path)]: a known path mounts its page; no push keeps the
    current one. *)
Definition navigate (nav : option string) (pg : Page) : Page :=
  match nav ≫= route_of_path with
  | Some r => mount_route r
  | None => pg
  end.

Definition wizard_step (ev : WEvent) (pg : Page) : Page :=
  match ev, pg with
  | OnHome e, PHome st => let '(st', nav) := HomePage.step e st in navigate nav (PHome st')
  | OnPersonal e, PPersonal st =>
      if PersonalDetailsContent.available e st then
        let '(st', nav) := PersonalDetailsContent.step e st in navigate nav (PPersonal st')
      else pg
  | OnAddress e, PAddress st =>
      if AddressHistoryContent.available e st then
        let '(st', nav) := AddressHistoryContent.step e st in navigate nav (PAddress st')
      else pg
  | _, _ => pg
  end.

Definition wstep (pg pg' : Page) : Prop := exists ev, wizard_step ev pg = pg'.

Fixpoint run (evs : list WEvent) (pg : Page) : Page :=
  match evs with
  | [] => pg
  | ev :: evs' => run evs' (wizard_step ev pg)
  end.
End Wizard.

Arguments Page St : clear implicits.

(** The position of a page in the order of the wizard. *)
Definition route_rank (r : Route) : nat :=
  match r with Home => 0 | PersonalDetailsR => 1 | AddressHistoryR => 2 | FinancialDetailsR => 3 end.

(** One user event after which another page is shown. *)
Definition route_change {St} `{!FormStore St} `{!FormProvider St} (pg' pg : Page St) : Prop :=
  wstep pg pg' /\ page_route pg' <> page_route pg.

(** The number of page changes along a sequence of events. *)
Fixpoint route_changes {St} `{!FormStore St} `{!FormProvider St} (evs : list WEvent) (pg : Page St) : nat :=
  match evs with
  | [] => 0
  | ev :: evs' =>
      (if decide (page_route (wizard_step ev pg) = page_route pg) then 0 else 1) +
      route_changes evs' (wizard_step ev pg)
  end.

(** The events that finish each page: on the home page, valid personal
    information then the submit; on the family page, Next; on the address
    page, one previous address then Next while the section is shown, and
    Next alone when it is hidden. *)
Definition home_finish : list WEvent :=
  [OnHome (HomePage.EditEmail "a@b.com"); OnHome (HomePage.EditPhone "0123456789");
   OnHome (HomePage.EditFirstName "Ada"); OnHome (HomePage.EditLastName "Lovelace");
   OnHome (HomePage.EditPlaceOfBirth "London, UK"); OnHome HomePage.Submit].

Definition personal_finish : list WEvent := [OnPersonal PersonalDetailsContent.ClickNext].

Definition address_finish {St} `{!FormStore St} (st : AHState St) : list WEvent :=
  if ah_showPreviousAddresses st then
    [OnAddress (AddressHistoryContent.AddPreviousAddress "finish"); OnAddress AddressHistoryContent.ClickNext]
  else [OnAddress AddressHistoryContent.ClickNext].

(** The events left to reach the financial page from a page. *)
Definition finish_events {St} `{!FormStore St} `{!FormProvider St} (pg : Page St) : list WEvent :=
  match pg with
  | PHome _ => home_finish ++ personal_finish ++ address_finish (AddressHistoryContent.mount providerInit)
  | PPersonal _ => personal_finish ++ address_finish (AddressHistoryContent.mount providerInit)
  | PAddress st => address_finish st
  | PFinancial _ => []
  end.

(** What the wizard keeps true of the page shown: the address page's
    local state agrees with its record. *)
Definition wiz_inv {St} `{!FormStore St} `{!FormProvider St} (pg : Page St) : Prop :=
  match pg with PAddress st => ah_inv st | _ => True end.

(** ** Lemmas *)

Lemma identity_merge p d :
  p_passport p = None -> p_nationalId p = None -> p_personalInfo p = None ->
  identity (mergeSection p d) = identity d.
Proof. unfold identity. simpl. by intros -> -> ->. Qed.

Section Lemmas.
Context {St : Type} `{!FormStore St} `{!FormProvider St}.

Lemma update_identity p (s : St) :
  p_passport p = None -> p_nationalId p = None -> p_personalInfo p = None ->
  identity (formData (updateFormData p s)) = identity (formData s).
Proof. rewrite updateFormData_law. apply identity_merge. Qed.

Lemma mount_route_form r : page_form (mount_route r) = initialFormData.
Proof. destruct r; apply providerInit_law. Qed.

Lemma mount_route_route r : page_route (mount_route (St:=St) r) = r.
Proof. by destruct r. Qed.

(** The only pushes of the three pages. *)
Lemma home_push e (st : HomeState St) :
  snd (HomePage.step e st) = None \/ snd (HomePage.step e st) = Some "/personal-details".
Proof.
  unfold HomePage.step, HomePage.handle, handleSubmit, onSubmit.
  destruct e; simpl; auto; repeat case_match; simplify_eq; simpl; auto.
Qed.

Lemma personal_push e (st : PDState St) :
  snd (PersonalDetailsContent.step e st) = None \/ snd (PersonalDetailsContent.step e st) = Some "/address-history".
Proof. destruct e; simpl; auto. Qed.

Lemma address_push e (st : AHState St) :
  snd (AddressHistoryContent.step e st) = None \/ snd (AddressHistoryContent.step e st) = Some "/financial-details".
Proof.
  unfold AddressHistoryContent.step, AddressHistoryContent.handle, AddressHistoryContent.handleNext.
  destruct e; simpl; auto. destruct (nextDisabled st); auto.
Qed.

(** A page step keeps the page or mounts the page its push names. *)
Lemma navigate_cases nav (pg : Page St) :
  navigate nav pg = pg \/ exists r, nav ≫= route_of_path = Some r /\ navigate nav pg = mount_route r.
Proof. unfold navigate. destruct (nav ≫= route_of_path); eauto. Qed.

Lemma pd_step_identity e (st : PDState St) :
  identity (pd_form (fst (PersonalDetailsContent.step e st))) = identity (pd_form st).
Proof.
  unfold pd_form. destruct e; simpl; try done;
    unfold handleMaritalStatusChange, handleSpouseChange, addChild, removeChild, updateChild,
      setChildren; simpl; by apply update_identity.
Qed.

Lemma ah_step_identity e (st : AHState St) :
  identity (ah_form (fst (AddressHistoryContent.step e st))) = identity (ah_form st).
Proof.
  unfold AddressHistoryContent.step. destruct (AddressHistoryContent.handle e st) as [st' nav] eqn:Eh.
  simpl. rewrite ah_form_after_render. unfold ah_form.
  destruct e; simpl in Eh; simplify_eq; try done;
    unfold handleCurrentAddressChange, addPreviousAddress, removePreviousAddress,
      updatePreviousAddress, setAddresses; simpl; by apply update_identity.
Qed.

(** What a step of a page returns, by the push of its handler. *)
Lemma wizard_step_shape ev (pg : Page St) :
  wizard_step ev pg = pg \/
  (exists st, pg = PHome st /\ exists e st', wizard_step ev pg = PHome st' /\
     ev = OnHome e /\ st' = fst (HomePage.step e st)) \/
  (exists st, pg = PPersonal st /\ exists e, wizard_step ev pg = PPersonal (fst (PersonalDetailsContent.step e st))) \/
  (exists st, pg = PAddress st /\ exists e, wizard_step ev pg = PAddress (fst (AddressHistoryContent.step e st))) \/
  exists r, wizard_step ev pg = mount_route r /\ next_route (page_route pg) = Some r.
Proof.
  destruct ev as [e|e|e], pg as [st|st|st|st]; simpl; auto.
  - destruct (HomePage.step e st) as [st' nav] eqn:E.
    pose proof (home_push e st) as Hp. rewrite E in Hp. simpl in Hp.
    destruct Hp as [->| ->]; simpl.
    + right; left. exists st. split; [done|]. exists e, st'. by rewrite E.
    + by do 4 right; exists PersonalDetailsR.
  - destruct (PersonalDetailsContent.available e st); [|auto].
    destruct (PersonalDetailsContent.step e st) as [st' nav] eqn:E.
    pose proof (personal_push e st) as Hp. rewrite E in Hp. simpl in Hp.
    destruct Hp as [->| ->]; simpl.
    + do 2 right; left. exists st. split; [done|]. exists e. by rewrite E.
    + by do 4 right; exists AddressHistoryR.
  - destruct (AddressHistoryContent.available e st); [|auto].
    destruct (AddressHistoryContent.step e st) as [st' nav] eqn:E.
    pose proof (address_push e st) as Hp. rewrite E in Hp. simpl in Hp.
    destruct Hp as [->| ->]; simpl.
    + do 3 right; left. exists st. split; [done|]. exists e. by rewrite E.
    + by do 4 right; exists FinancialDetailsR.
Qed.
(** Navigation is linear: an event of a page either keeps the route or
    moves to the next page of the order. *)
Lemma wizard_step_route ev (pg : Page St) :
  page_route (wizard_step ev pg) = page_route pg \/
  next_route (page_route pg) = Some (page_route (wizard_step ev pg)).
Proof.
  destruct (wizard_step_shape ev pg) as [->|[[st [-> [e [st' [-> _]]]]]|[[st [-> [e ->]]]|
    [[st [-> [e ->]]]|[r [-> Hr]]]]]]; auto.
  right. by rewrite mount_route_route.
Qed.

Lemma wizard_step_rank ev (pg : Page St) :
  route_rank (page_route (wizard_step ev pg)) =
  route_rank (page_route pg) +
  (if decide (page_route (wizard_step ev pg) = page_route pg) then 0 else 1).
Proof.
  destruct (wizard_step_route ev pg) as [Hr|Hn]; case_decide as Hd; [by rewrite Hd; lia|done|..];
    revert Hn Hd; destruct (page_route pg), (page_route (wizard_step ev pg)); simpl; (done || lia).
Qed.
End Lemmas.

Lemma initial_personalInfo_rejected : personalInfoSchema (personalInfo initialFormData) <> [].
Proof. vm_compute. discriminate. Qed.

Lemma run_rtc {St} `{!FormStore St} `{!FormProvider St} evs (pg : Page St) :
  rtc wstep pg (run evs pg).
Proof.
  revert pg. induction evs as [|ev evs IH]; intros pg; simpl; [done|].
  eapply rtc_l; [by exists ev|]. apply IH.
Qed.

Lemma run_app {St} `{!FormStore St} `{!FormProvider St} evs1 evs2 (pg : Page St) :
  run (evs1 ++ evs2) pg = run evs2 (run evs1 pg).
Proof. revert pg. induction evs1; intros pg; simpl; auto. Qed.

Lemma filled_info_valid g b :
  personalInfoSchema (PersonalInfo.mk "a@b.com" "0123456789" "Ada" "Lovelace" g "London, UK" b) = [].
Proof. vm_compute. reflexivity. Qed.

Section Finish.
Context {St : Type} `{!FormStore St} `{!FormProvider St}.

(** A value edit on the home page keeps the home page. *)
Lemma wizard_home_edit e (st : HomeState St) :
  match e with
  | HomePage.EditEmail _ | HomePage.EditPhone _ | HomePage.EditFirstName _
  | HomePage.EditLastName _ | HomePage.EditPlaceOfBirth _
  | HomePage.SetGender _ | HomePage.SetNameChanged _ => True
  | _ => False
  end ->
  wizard_step (OnHome e) (PHome st) = PHome (setValues (editValue e (hs_values st)) st).
Proof. intros He. unfold wizard_step. by rewrite value_edit_step. Qed.

(** A submit of valid values mounts the family page on a new provider. *)
Lemma wizard_submit_valid (st : HomeState St) :
  personalInfoSchema (hs_values st) = [] ->
  wizard_step (OnHome HomePage.Submit) (PHome st) = PPersonal (PersonalDetailsContent.mount providerInit).
Proof. intros Hv. unfold wizard_step, HomePage.step, HomePage.handle, handleSubmit. by rewrite Hv. Qed.

Lemma home_finishes (st : HomeState St) :
  run home_finish (PHome st) = PPersonal (PersonalDetailsContent.mount providerInit).
Proof.
  unfold home_finish. cbn [run]. rewrite !wizard_home_edit by done.
  apply wizard_submit_valid. apply filled_info_valid.
Qed.

Lemma personal_finishes (st : PDState St) :
  run personal_finish (PPersonal st) = PAddress (AddressHistoryContent.mount providerInit).
Proof. done. Qed.

Lemma address_finish_length (st : AHState St) : length (address_finish st) <= 2.
Proof. unfold address_finish. destruct (ah_showPreviousAddresses st); simpl; lia. Qed.

Lemma address_finishes (st : AHState St) :
  ah_inv st -> run (address_finish st) (PAddress st) = PFinancial (FinancialDetailsContent.mount providerInit).
Proof.
  intros Hinv. unfold address_finish. destruct (ah_showPreviousAddresses st) eqn:Hs; cbn [run].
  - unfold wizard_step at 2. cbn [AddressHistoryContent.available]. rewrite Hs.
    set (e := AddressHistoryContent.AddPreviousAddress "finish").
    replace (AddressHistoryContent.step e st) with
      (fst (AddressHistoryContent.step e st), None : option string)
      by (unfold AddressHistoryContent.step; simpl; done).
    cbn [navigate mbind option_bind]. unfold wizard_step. cbn [AddressHistoryContent.available].
    pose proof (next_click_result _ (step_inv e st Hinv)) as Hn.
    destruct (AddressHistoryContent.step AddressHistoryContent.ClickNext _) as [st' nav] eqn:E.
    simpl in Hn. rewrite Hn, bool_decide_eq_false_2; [done|].
    rewrite ah_form_after_render. unfold addPreviousAddress. rewrite ah_form_setAddresses. simpl.
    intros [_ Hp]. by destruct (ah_previousAddresses st).
  - unfold wizard_step. cbn [AddressHistoryContent.available].
    unfold AddressHistoryContent.step. cbn [AddressHistoryContent.handle].
    unfold handleNext, nextDisabled. by rewrite Hs.
Qed.

Lemma wiz_inv_step ev (pg : Page St) : wiz_inv pg -> wiz_inv (wizard_step ev pg).
Proof.
  intros Hi.
  destruct (wizard_step_shape ev pg) as [->|[[st [-> [e [st' [-> _]]]]]|[[st [-> [e ->]]]|
    [[st [-> [e ->]]]|[r [-> _]]]]]]; try done.
  - by apply step_inv.
  - by destruct r.
Qed.

(** From a page satisfying the invariant, its finishing events reach the
    financial page. *)
Lemma finish_events_reach (pg : Page St) :
  wiz_inv pg -> run (finish_events pg) pg = PFinancial (FinancialDetailsContent.mount providerInit)
  \/ exists st, pg = PFinancial st /\ run (finish_events pg) pg = pg.
Proof.
  destruct pg as [st|st|st|st]; cbn [finish_events wiz_inv]; intros Hi.
  - left. rewrite !run_app, home_finishes, personal_finishes. apply address_finishes, mount_inv.
  - left. rewrite run_app, personal_finishes. apply address_finishes, mount_inv.
  - left. by apply address_finishes.
  - right. by exists st.
Qed.
End Finish.

(** ** Theorems *)

(** C15. Every page change moves one page forward: along any sequence of
    user events the number of page changes is the distance walked in the
    order / -> /personal-details -> /address-history -> /financial-details,
    so a run changes page at most three times. *)
Theorem route_changes_rank {St} `{!FormStore St} `{!FormProvider St} evs (pg : Page St) :
  route_rank (page_route (run evs pg)) = route_rank (page_route pg) + route_changes evs pg /\
  route_changes evs pg <= 3.
Proof.
  assert (Hr : forall r, route_rank r <= 3) by (intros []; simpl; lia).
  enough (H : route_rank (page_route (run evs pg)) = route_rank (page_route pg) + route_changes evs pg).
  { split; [done|]. pose proof (Hr (page_route (run evs pg))). lia. }
  revert pg. induction evs as [|ev evs IH]; intros pg; simpl; [lia|].
  rewrite IH, wizard_step_rank. lia.
Qed.

(** Navigation terminates: the relation "one user event shows
    another page" is well founded, there is no infinite sequence of page
    changes. *)
Theorem route_change_wf {St} `{!FormStore St} `{!FormProvider St} :
  well_founded (route_change (St:=St)).
Proof.
  apply wf_incl with (fun x y => 3 - route_rank (page_route x) < 3 - route_rank (page_route y)).
  - intros x y [[ev <-] Hne]. pose proof (wizard_step_rank ev y) as Hk.
    case_decide; [done|]. assert (route_rank (page_route (wizard_step ev y)) <= 3)
      by (destruct (page_route (wizard_step ev y)); simpl; lia). lia.
  - apply wf_inverse_image, lt_wf.
Qed.

(** C1. Every change of page mounts the new page under a new provider:
    the page is freshly mounted and its record is [initialFormData],
    whatever was entered before. *)
Theorem navigation_remounts {St} `{!FormStore St} `{!FormProvider St} ev (pg : Page St) :
  page_route (wizard_step ev pg) <> page_route pg ->
  wizard_step ev pg = mount_route (page_route (wizard_step ev pg)) /\
  page_form (wizard_step ev pg) = initialFormData.
Proof.
  intros Hne.
  destruct (wizard_step_shape ev pg) as [Heq|[[st [-> [e [st' [Heq _]]]]]|[[st [-> [e Heq]]]|
    [[st [-> [e Heq]]]|[r [Heq _]]]]]]; rewrite Heq in Hne |- *; try done.
  rewrite mount_route_route. split; [done|]. apply mount_route_form.
Qed.

(** A submit of personal information that [personalInfoSchema]
    accepts leaves the home page for a personal-details page mounted
    from the initial record: the submitted personal information is not
    in the record the next page shows. *)
Theorem valid_submit_drops_personal_info {St} `{!FormStore St} `{!FormProvider St}
    (st : HomeState St) :
  personalInfoSchema (hs_values st) = [] ->
  wizard_step (OnHome HomePage.Submit) (PHome st) = PPersonal (PersonalDetailsContent.mount providerInit) /\
  personalInfo (page_form (wizard_step (OnHome HomePage.Submit) (PHome st))) <> hs_values st.
Proof.
  intros Hv. pose proof (wizard_submit_valid st Hv) as Hw.
  split; [done|]. rewrite Hw. simpl. unfold pd_form. simpl. rewrite providerInit_law.
  intros Heq. apply initial_personalInfo_rejected. by rewrite Heq.
Qed.

(** C2. The home page's data never reaches the other pages: on every page
    reachable from the home page other than the home page itself, the
    passport, national id and personal information of the record are
    those of [initialFormData]. *)
Theorem identity_initial_after_home {St} `{!FormStore St} `{!FormProvider St} (pg : Page St) :
  rtc wstep (mount_route Home) pg -> page_route pg <> Home ->
  identity (page_form pg) = identity initialFormData.
Proof.
  intros Hr.
  apply (rtc_invariant wstep (fun pg => page_route pg <> Home ->
           identity (page_form pg) = identity initialFormData)) with (mount_route Home);
    [|done|done].
  intros x y Hx [ev <-].
  destruct (wizard_step_shape ev x) as [->|[[st [-> [e [st' [-> _]]]]]|[[st [-> [e ->]]]|
    [[st [-> [e ->]]]|[r [-> _]]]]]]; try done.
  - intros _. simpl. rewrite pd_step_identity. by apply Hx.
  - intros _. simpl. rewrite ah_step_identity. by apply Hx.
  - intros _. by rewrite mount_route_form.
Qed.

(** C3. The wizard can always be finished: from every page reachable from
    the home page, at most nine user events the pages offer reach the
    financial page (valid personal information and a submit, Next, then
    one previous address and Next while the previous-address section is
    shown, or Next alone when it is hidden). *)
Theorem wizard_can_finish {St} `{!FormStore St} `{!FormProvider St} (pg : Page St) :
  rtc wstep (mount_route Home) pg ->
  exists evs, length evs <= 9 /\ page_route (run evs pg) = FinancialDetailsR.
Proof.
  intros Hr.
  assert (Hi : wiz_inv pg).
  { apply (rtc_invariant wstep wiz_inv) with (mount_route Home); [|done|done].
    intros x y Hx [ev <-]. by apply wiz_inv_step. }
  exists (finish_events pg). split.
  { destruct pg; cbn [finish_events]; rewrite ?length_app;
      pose proof (address_finish_length (AddressHistoryContent.mount providerInit));
      try pose proof (address_finish_length st); simpl; lia. }
  destruct (finish_events_reach pg Hi) as [->|[st [-> ->]]]; done.
Qed.

(** ** Witnesses *)

(** The spec's first step filled in on the home page: the passport
    number, then valid personal information, then the submit. *)
Definition homeScenario : list WEvent :=
  [OnHome (HomePage.EditPassport DocField.number "X123");
   OnHome (HomePage.EditEmail "a@b.com");
   OnHome (HomePage.EditPhone "0123456789");
   OnHome (HomePage.EditFirstName "Ada");
   OnHome (HomePage.EditLastName "Lovelace");
   OnHome (HomePage.SetGender Gender.Female);
   OnHome (HomePage.EditPlaceOfBirth "London, UK")].

Definition homeFilled : Page FormData := run homeScenario (mount_route Home).

Definition homeFilledState : HomeState FormData :=
  match homeFilled with PHome st => st | _ => HomePage.mount initialFormData end.

Definition afterSubmit : Page FormData := wizard_step (OnHome HomePage.Submit) homeFilled.

Lemma navigation_remounts_witness :
  page_route afterSubmit <> page_route homeFilled /\
  afterSubmit = mount_route (page_route afterSubmit) /\ page_form afterSubmit = initialFormData.
Proof.
  assert (H : page_route afterSubmit <> page_route homeFilled) by (vm_compute; discriminate).
  split; [exact H|]. exact (navigation_remounts _ homeFilled H).
Defined.

Lemma valid_submit_drops_personal_info_witness :
  personalInfoSchema (hs_values homeFilledState) = [] /\
  wizard_step (OnHome HomePage.Submit) (PHome homeFilledState) =
    PPersonal (PersonalDetailsContent.mount providerInit) /\
  personalInfo (page_form (wizard_step (OnHome HomePage.Submit) (PHome homeFilledState))) <>
    hs_values homeFilledState.
Proof.
  assert (H : personalInfoSchema (hs_values homeFilledState) = []) by (vm_compute; reflexivity).
  split; [exact H|]. exact (valid_submit_drops_personal_info homeFilledState H).
Defined.

Lemma identity_initial_after_home_witness :
  rtc wstep (mount_route Home) afterSubmit /\ page_route afterSubmit <> Home /\
  identity (page_form homeFilled) <> identity initialFormData /\
  identity (page_form afterSubmit) = identity initialFormData.
Proof.
  assert (Hr : rtc wstep (mount_route Home) afterSubmit).
  { unfold afterSubmit, homeFilled. change (wizard_step (OnHome HomePage.Submit)
      (run homeScenario (mount_route Home))) with
      (run (homeScenario ++ [OnHome HomePage.Submit]) (mount_route Home)).
    apply run_rtc. }
  assert (Hn : page_route afterSubmit <> Home) by (vm_compute; discriminate).
  split; [exact Hr|]. split; [exact Hn|]. split; [vm_compute; discriminate|].
  exact (identity_initial_after_home afterSubmit Hr Hn).
Defined.

Lemma wizard_can_finish_witness :
  rtc wstep (mount_route Home) afterSubmit /\
  exists evs, length evs <= 9 /\ page_route (run evs afterSubmit) = FinancialDetailsR.
Proof.
  assert (Hr : rtc wstep (mount_route Home) afterSubmit).
  { unfold afterSubmit, homeFilled. change (wizard_step (OnHome HomePage.Submit)
      (run homeScenario (mount_route Home))) with
      (run (homeScenario ++ [OnHome HomePage.Submit]) (mount_route Home)).
    apply run_rtc. }
  split; [exact Hr|]. exact (wizard_can_finish afterSubmit Hr).
Defined.
