(* ===== verification/ComponentTree.v ===== *)
(** * The component tree: [FormDataProvider], [useFormData] and [FormLayout]

    Every page renders a tree of React elements.  This file holds the
    element trees and React's render of them, as far as the context
    semantics and the displayed content depend on it; the pages' own
    trees are in [PageViews].
    - [elem]/[forest] (a tree and its list of children, mutually
      inductive): host elements ([<main>], [<div>], [<h1>], ...), text,
      [<FormDataProvider>], [<FormLayout title>], the components that call
      [useFormData()] ([Consumer], with the markup they return), the
      elements of the components/ui kit ([Widget]: its kind, the props
      the code passes, without [className] and handlers, and its
      children) and components whose source is absent ([Opaque]:
      PassportAnalysis).  The ui kit is not in the sources; a widget is
      taken to render one element of its kind with those props around its
      children.
    - [render]: React's render of such a tree.  [FormContext] is created
      with the default [undefined]; each [<FormDataProvider>] instance has
      its own [useState(initialFormData)], numbered here by a counter, and
      provides it to its subtree; [useFormData()] reads the nearest one
      and throws [Error('useFormData must be used within a
      FormDataProvider')] when there is none (FormDataProvider.tsx lines
      138-182).  No component of the sources is an error boundary, so a
      throw aborts the render ([Err]).  [FormLayout] renders its header,
      the [<h1>] with its title and a [<div>] around its children
      (FormLayout.tsx); its [className] only styles and is dropped.
    - [elem_dom]: the DOM a tree shows, which does not depend on the
      context; [elem_static]: a tree without provider or consumer, which
      renders without reading the context.  [controls] lists the ui
      inputs of a DOM with the value they display.

    Theorems: a tree renders without throwing exactly when every consumer
    is below a provider, and the only error is [useFormData]'s; a render
    that succeeds shows [elem_dom]; a static tree always renders. *)

From S2P Require Import Prelude.

(** ** Elements and the DOM *)

(** The value of a prop: a string, a number or a boolean. *)
Inductive propval :=
| PStr (s : string)
| PNum (z : Z)
| PBool (b : bool).

#[global] Instance propval_eq_dec : EqDecision propval.
Proof. solve_decision. Defined.

Inductive elem :=
| Host (tag : string) (children : forest)
| Text (s : string)
| Provider (children : forest)
| Layout (title : string) (children : forest)
| Consumer (name : string) (body : forest)
| Widget (kind : string) (props : list (string * propval)) (children : forest)
| Opaque (name : string)
with forest :=
| FNil
| FCons (e : elem) (f : forest).

Scheme elem_mut := Induction for elem Sort Prop
with forest_mut := Induction for forest Sort Prop.
Combined Scheme elem_forest_mut from elem_mut, forest_mut.

Fixpoint forest_of (l : list elem) : forest :=
  match l with [] => FNil | e :: l' => FCons e (forest_of l') end.

Inductive dom :=
| DNode (tag : string) (children : list dom)
| DWidget (kind : string) (props : list (string * propval)) (children : list dom)
| DText (s : string).

(** The text of a DOM node, in document order. *)
Fixpoint dom_text (d : dom) : list string :=
  match d with
  | DText s => [s]
  | DNode _ ds | DWidget _ _ ds =>
      (fix go (ds : list dom) : list string :=
         match ds with [] => [] | d' :: ds' => dom_text d' ++ go ds' end) ds
  end.

Definition doms_text (ds : list dom) : list string := concat (map dom_text ds).

(** The ui widgets of a DOM node with their props, in document order. *)
Fixpoint dom_widgets (d : dom) : list (string * list (string * propval)) :=
  match d with
  | DText _ => []
  | DNode _ ds =>
      (fix go (ds : list dom) := match ds with [] => [] | d' :: ds' => dom_widgets d' ++ go ds' end) ds
  | DWidget k ps ds =>
      (k, ps) :: (fix go (ds : list dom) := match ds with [] => [] | d' :: ds' => dom_widgets d' ++ go ds' end) ds
  end.

Definition doms_widgets (ds : list dom) := concat (map dom_widgets ds).

(** The prop [k] of a widget. *)
Fixpoint prop (k : string) (ps : list (string * propval)) : option propval :=
  match ps with
  | [] => None
  | (k', v) :: ps' => if bool_decide (k' = k) then Some v else prop k ps'
  end.

(** An input, a textarea or a checkbox, with its [id] and the value it
    shows ([value], or [checked] for a checkbox). *)
Definition control_value (w : string * list (string * propval)) : option (string * propval) :=
  let '(k, ps) := w in
  let shown := if bool_decide (k = "Checkbox") then prop "checked" ps
               else if bool_decide (k = "Input" \/ k = "Textarea") then prop "value" ps
               else None in
  match prop "id" ps, shown with
  | Some (PStr i), Some v => Some (i, v)
  | _, _ => None
  end.

Definition controls (ds : list dom) : list (string * propval) := omap control_value (doms_widgets ds).

(** ** The context and the provider *)

(** A provider instance, by the order in which it is mounted. *)
Definition provider_id := nat.

(** [createContext<FormContextType | undefined>(undefined)]: outside
    every provider the context is [undefined]. *)
Definition FormContext_default : option provider_id := None.

Definition useFormData_error : string := "useFormData must be used within a FormDataProvider".

(** [useFormData()]: [useContext(FormContext)], throwing when undefined. *)
Definition useFormData (ctx : option provider_id) : result provider_id string :=
  match ctx with
  | None => Err useFormData_error
  | Some c => Ok c
  end.

(** The markup of [FormLayout({ children, title, className })]. *)
Definition formLayout (title : string) (children : list dom) : dom :=
  DNode "div" [
    DNode "div" [DNode "div" [DNode "div" [DText "UK"]; DText "UK VISA APP"]];
    DNode "h1" [DText title];
    DNode "div" children].

(** What a render produces: the next free provider number, the DOM, and
    which provider instance each consumer read (in document order). *)
Definition rendered := (provider_id * list dom * list (string * provider_id))%type.

Fixpoint render (ctx : option provider_id) (next : provider_id) (e : elem) : result rendered string :=
  match e with
  | Host tag cs =>
      (r <-? render_forest ctx next cs ;; let '(n, ds, bs) := r in Ok (n, [DNode tag ds], bs))%form
  | Text s => Ok (next, [DText s], [])
  | Provider cs => render_forest (Some next) (S next) cs
  | Layout title cs =>
      (r <-? render_forest ctx next cs ;; let '(n, ds, bs) := r in Ok (n, [formLayout title ds], bs))%form
  | Consumer name body =>
      (c <-? useFormData ctx ;;
       r <-? render_forest ctx next body ;; let '(n, ds, bs) := r in Ok (n, ds, (name, c) :: bs))%form
  | Widget kind props cs =>
      (r <-? render_forest ctx next cs ;; let '(n, ds, bs) := r in Ok (n, [DWidget kind props ds], bs))%form
  | Opaque name => Ok (next, [DNode name []], [])
  end
with render_forest (ctx : option provider_id) (next : provider_id) (f : forest) : result rendered string :=
  match f with
  | FNil => Ok (next, [], [])
  | FCons e f' =>
      (r <-? render ctx next e ;; let '(n, ds, bs) := r in
       r' <-? render_forest ctx n f' ;; let '(n', ds', bs') := r' in Ok (n', ds ++ ds', bs ++ bs'))%form
  end.

(** A render of the whole page: the root has no provider above it. *)
Definition render_root (e : elem) : result rendered string := render FormContext_default 0 e.

(** Every consumer lies below a provider ([inside]: one is above). *)
Fixpoint consumers_inside (inside : bool) (e : elem) : bool :=
  match e with
  | Host _ cs | Layout _ cs | Widget _ _ cs => forest_inside inside cs
  | Text _ | Opaque _ => true
  | Provider cs => forest_inside true cs
  | Consumer _ body => inside && forest_inside inside body
  end
with forest_inside (inside : bool) (f : forest) : bool :=
  match f with
  | FNil => true
  | FCons e f' => consumers_inside inside e && forest_inside inside f'
  end.

(** The DOM a tree shows. *)
Fixpoint elem_dom (e : elem) : list dom :=
  match e with
  | Host tag cs => [DNode tag (forest_dom cs)]
  | Text s => [DText s]
  | Provider cs => forest_dom cs
  | Layout title cs => [formLayout title (forest_dom cs)]
  | Consumer _ body => forest_dom body
  | Widget kind props cs => [DWidget kind props (forest_dom cs)]
  | Opaque name => [DNode name []]
  end
with forest_dom (f : forest) : list dom :=
  match f with
  | FNil => []
  | FCons e f' => elem_dom e ++ forest_dom f'
  end.

(** No provider and no consumer in the tree. *)
Fixpoint elem_static (e : elem) : bool :=
  match e with
  | Host _ cs | Layout _ cs | Widget _ _ cs => forest_static cs
  | Text _ | Opaque _ => true
  | Provider _ | Consumer _ _ => false
  end
with forest_static (f : forest) : bool :=
  match f with
  | FNil => true
  | FCons e f' => elem_static e && forest_static f'
  end.

(** ** Lemmas *)

Lemma is_ok_bind_ok {A B E} (r : result A E) (f : A -> result B E) :
  (forall a, is_ok (f a) = true) -> is_ok (result_bind r f) = is_ok r.
Proof. intros Hf. destruct r; simpl; [apply Hf|done]. Qed.

Lemma result_bind_err {A B E} (r : result A E) (f : A -> result B E) m :
  result_bind r f = Err m -> r = Err m \/ exists a, r = Ok a /\ f a = Err m.
Proof. destruct r; simpl; [right; eauto|left; congruence]. Qed.

Lemma result_bind_ok {A B E} (r : result A E) (f : A -> result B E) b :
  result_bind r f = Ok b -> exists a, r = Ok a /\ f a = Ok b.
Proof. destruct r; simpl; [eauto|discriminate]. Qed.

(** A render throws iff some consumer has no provider above it. *)
Lemma render_is_ok :
  (forall e ctx n, is_ok (render ctx n e) = consumers_inside (bool_decide (is_Some ctx)) e) /\
  (forall f ctx n, is_ok (render_forest ctx n f) = forest_inside (bool_decide (is_Some ctx)) f).
Proof.
  apply elem_forest_mut; simpl.
  all: try (intros; rewrite is_ok_bind_ok; [by auto|by intros [[??]?]]).
  all: try done.
  - intros name body IH [c|] n; simpl; [|done].
    rewrite is_ok_bind_ok; [|by intros [[??]?]]. rewrite IH. by rewrite bool_decide_eq_true_2 by by eexists.
  - intros e IHe f IHf ctx n. destruct (render ctx n e) as [[[n' ds] bs]|m] eqn:E; simpl.
    + rewrite is_ok_bind_ok; [|by intros [[??]?]]. rewrite IHf, <- (IHe ctx n), E. done.
    + by rewrite <- (IHe ctx n), E.
Qed.

(** The only exception a render raises is [useFormData]'s. *)
Lemma render_err :
  (forall e ctx n m, render ctx n e = Err m -> m = useFormData_error) /\
  (forall f ctx n m, render_forest ctx n f = Err m -> m = useFormData_error).
Proof.
  apply elem_forest_mut; simpl;
    try discriminate; try by eauto.
  - intros tag cs IH ctx n m H. apply result_bind_err in H as [H|[[[??]?] [_ H]]]; [eauto|done].
  - intros title cs IH ctx n m H. apply result_bind_err in H as [H|[[[??]?] [_ H]]]; [eauto|done].
  - intros name body IH [c|] n m H; simpl in H; [|by inversion H].
    apply result_bind_err in H as [H|[[[??]?] [_ H]]]; [eauto|done].
  - intros kind ps cs IH ctx n m H. apply result_bind_err in H as [H|[[[??]?] [_ H]]]; [eauto|done].
  - intros e IHe f IHf ctx n m H.
    apply result_bind_err in H as [H|[[[n' ?]?] [_ H]]]; [eauto|].
    apply result_bind_err in H as [H|[[[??]?] [_ H]]]; [eauto|done].
Qed.

(** A render that succeeds shows the tree's DOM. *)
Lemma render_dom :
  (forall e ctx n n' ds bs, render ctx n e = Ok (n', ds, bs) -> ds = elem_dom e) /\
  (forall f ctx n n' ds bs, render_forest ctx n f = Ok (n', ds, bs) -> ds = forest_dom f).
Proof.
  apply elem_forest_mut; simpl; try by intros; simplify_eq.
  - intros tag cs IH ctx n n' ds bs H. apply result_bind_ok in H as [[[??]?] [H1 H2]].
    simplify_eq. by erewrite (IH _ _ _ _ _ H1).
  - intros cs IH ctx n n' ds bs H. by eapply IH.
  - intros title cs IH ctx n n' ds bs H. apply result_bind_ok in H as [[[??]?] [H1 H2]].
    simplify_eq. by erewrite (IH _ _ _ _ _ H1).
  - intros name body IH ctx n n' ds bs H. apply result_bind_ok in H as [c [_ H]].
    apply result_bind_ok in H as [[[??]?] [H1 H2]]. simplify_eq. by eapply IH.
  - intros kind ps cs IH ctx n n' ds bs H. apply result_bind_ok in H as [[[??]?] [H1 H2]].
    simplify_eq. by erewrite (IH _ _ _ _ _ H1).
  - intros e IHe f IHf ctx n n' ds bs H. apply result_bind_ok in H as [[[??]?] [H1 H]].
    apply result_bind_ok in H as [[[??]?] [H2 H3]]. simplify_eq.
    by erewrite (IHe _ _ _ _ _ H1), (IHf _ _ _ _ _ H2).
Qed.

(** A static tree renders in any context, mounting no provider and
    binding no consumer. *)
Lemma render_static :
  (forall e ctx n, elem_static e = true -> render ctx n e = Ok (n, elem_dom e, [])) /\
  (forall f ctx n, forest_static f = true -> render_forest ctx n f = Ok (n, forest_dom f, [])).
Proof.
  apply elem_forest_mut; simpl; try done.
  all: try (intros ? ? IH ctx n Hs; by rewrite IH).
  all: try (intros ? ? ? IH ctx n Hs; by rewrite IH).
  intros e IHe f IHf ctx n [He Hf]%andb_true_iff. rewrite IHe by done. simpl. by rewrite IHf.
Qed.

Lemma forest_dom_of l : forest_dom (forest_of l) = concat (map elem_dom l).
Proof. induction l as [|e l IH]; simpl; [done|by rewrite IH]. Qed.

Lemma forest_static_of l : forest_static (forest_of l) = forallb elem_static l.
Proof. induction l as [|e l IH]; simpl; [done|by rewrite IH]. Qed.

Lemma dom_text_node t ds : dom_text (DNode t ds) = doms_text ds.
Proof. induction ds as [|d ds IH]; [done|]. simpl in *. by rewrite IH. Qed.

Lemma dom_text_widget k ps ds : dom_text (DWidget k ps ds) = doms_text ds.
Proof. induction ds as [|d ds IH]; [done|]. simpl in *. by rewrite IH. Qed.

Lemma dom_widgets_node t ds : dom_widgets (DNode t ds) = doms_widgets ds.
Proof. induction ds as [|d ds IH]; [done|]. simpl in *. by rewrite IH. Qed.

Lemma dom_widgets_widget k ps ds : dom_widgets (DWidget k ps ds) = (k, ps) :: doms_widgets ds.
Proof. induction ds as [|d ds IH]; [done|]. simpl in *. injection IH as IH. by rewrite IH. Qed.

Lemma doms_text_app ds1 ds2 : doms_text (ds1 ++ ds2) = doms_text ds1 ++ doms_text ds2.
Proof. unfold doms_text. by rewrite map_app, concat_app. Qed.

Lemma doms_widgets_app ds1 ds2 : doms_widgets (ds1 ++ ds2) = doms_widgets ds1 ++ doms_widgets ds2.
Proof. unfold doms_widgets. by rewrite map_app, concat_app. Qed.

Lemma controls_app ds1 ds2 : controls (ds1 ++ ds2) = controls ds1 ++ controls ds2.
Proof. unfold controls. by rewrite doms_widgets_app, omap_app. Qed.

#[export] Hint Rewrite forest_dom_of forest_static_of dom_text_node dom_text_widget
  dom_widgets_node dom_widgets_widget doms_text_app doms_widgets_app controls_app : forms_rw.

(** ** Theorems *)

(** C13. [useFormData]'s exception: a tree renders without throwing
    exactly when every component that calls [useFormData()] lies below a
    [<FormDataProvider>], and a render that throws throws
    'useFormData must be used within a FormDataProvider'. *)
Theorem render_throws_iff (e : elem) :
  is_ok (render_root e) = consumers_inside false e /\
  (forall m, render_root e = Err m -> m = useFormData_error).
Proof.
  split; [apply (proj1 render_is_ok)|]. intros m. apply (proj1 render_err).
Qed.

(** ** Witnesses *)

(** [PersonalInfo] rendered outside a provider throws, inside one it
    reads that provider. *)
Lemma render_throws_iff_witness :
  render_root (Consumer "PersonalInfo" FNil) = Err useFormData_error /\
  is_ok (render_root (Provider (forest_of [Consumer "PersonalInfo" FNil]))) = true /\
  is_ok (render_root (Consumer "PersonalInfo" FNil)) = consumers_inside false (Consumer "PersonalInfo" FNil).
Proof.
  split; [reflexivity|]. split; [reflexivity|].
  exact (proj1 (render_throws_iff (Consumer "PersonalInfo" FNil))).
Defined.
