(* ===== verification/PageViews.v ===== *)
(** * What the pages render

    The element tree of each page of the wizard, from the default export
    of its page file down to the ui widgets, with the props the code
    passes to them ([className] and handlers left out: the handlers are
    the page state machines' events):
    - the home page (src/app/page.tsx): the PassportAnalysis component
      (absent from the sources), the NationalIDAnalysis card with its
      error paragraph, and the PersonalInfo form: the fields registered
      with react-hook-form (uncontrolled: no [value]), their error
      paragraphs, the gender and name-change radio groups with their
      [defaultValue], the passport and national-id inputs showing the
      record, the Next button and the banner under it;
    - the family page (personal-details/page.tsx): the marital-status
      radio group, the spouse card when [showSpouseForm], one card per
      entry of the local [children] with its inputs, and Next;
    - the address page (address-history/page.tsx): the current-address
      card, the previous-address section when [showPreviousAddresses]
      with one card per entry of the local [previousAddresses], and the
      Next button with its [disabled] prop;
    - the financial page has no tree ([page_tree] gives [None]): its
      markup is cut off in the source and the file does not compile.

    Theorems: every page renders without throwing with one provider to
    which its consumers are bound, under the header and its title; the
    inputs of the family and address pages show the record (on every
    state reachable from mounting: the local copies the pages render
    from agree with it), the address page's Next button is disabled
    exactly when the record has under 12 months and no previous address;
    the home page ends, in every state, with the banner saying the server
    received the data, and after any rejected submit its paragraphs
    ([doms_paras]) are the national-id error and hint and one error
    paragraph per rejected field, in the order of the form. *)

From S2P Require Import Prelude FormData JsNumber JsString Zod.
From S2P Require Import PersonalInfoStep PersonalDetails AddressHistory FinancialDetails.
From S2P Require Import Wizard ComponentTree.
Import HomePage PersonalDetailsContent AddressHistoryContent.

(** ** Markup helpers *)

Definition node (tag : string) (cs : list elem) : elem := Host tag (forest_of cs).

Definition widget (kind : string) (ps : list (string * propval)) (cs : list elem) : elem :=
  Widget kind ps (forest_of cs).

(** [<Label htmlFor={id}>text</Label>] *)
Definition label (id text : string) : elem := widget "Label" [("htmlFor", PStr id)] [Text text].

(** [<div><Label htmlFor={id}>text</Label><Input id={id} .../></div>] *)
Definition field (id text : string) (ps : list (string * propval)) : elem :=
  node "div" [label id text; widget "Input" (("id", PStr id) :: ps) []].

(** [<div><RadioGroupItem value id/><Label htmlFor={id}>text</Label></div>] *)
Definition radio_item (value id text : string) : elem :=
  node "div" [widget "RadioGroupItem" [("value", PStr value); ("id", PStr id)] []; label id text].

(** [<div><Checkbox id checked/><Label htmlFor={id}>text</Label></div>] *)
Definition checkbox_field (id text : string) (checked : bool) : elem :=
  node "div" [widget "Checkbox" [("id", PStr id); ("checked", PBool checked)] []; label id text].

(** The string values of the TypeScript unions. *)
Definition gender_value (g : Gender.t) : string :=
  match g with Gender.Male => "Male" | Gender.Female => "Female" | Gender.Other => "Other" end.

Definition marital_value (m : MaritalStatus.t) : string :=
  match m with
  | MaritalStatus.Single => "Single" | MaritalStatus.Married => "Married"
  | MaritalStatus.Divorced => "Divorced" | MaritalStatus.Widowed => "Widowed"
  | MaritalStatus.Unset => ""
  end.

(** ** The home page *)

(** [{errors.k && <p>{errors.k.message}</p>}] *)
Definition field_error (errs : gmap string string) (k : string) : list elem :=
  match errs !! k with
  | Some m => [node "p" [Text m]]
  | None => []
  end.

(** A field registered with react-hook-form: [{...register(k)}] passes
    [name] (and handlers), no [value]. *)
Definition registered_field (errs : gmap string string) (k text : string) : elem :=
  node "div" ([label k text; widget "Input" [("id", PStr k); ("name", PStr k)] []] ++ field_error errs k).

(** The four inputs of an identity document, showing the record. *)
Definition doc_fields (numberLabel i1 i2 i3 i4 : string) (d : IdDocument.t) : list elem :=
  [field i1 numberLabel [("value", PStr (IdDocument.number d))];
   field i2 "Issuing Authority?" [("value", PStr (IdDocument.issuingAuthority d))];
   field i3 "Date of Issue?" [("type", PStr "date"); ("value", PStr (IdDocument.dateOfIssue d))];
   field i4 "Date of Expiry?" [("type", PStr "date"); ("value", PStr (IdDocument.dateOfExpiry d))]].

Definition successBanner : string := "Application data received successfully by server!".

(** What [PersonalInfo] returns, with react-hook-form's [errors] and the
    record [formData]. *)
Definition personalInfo_markup (errs : gmap string string) (d : FormData) : elem :=
  node "form" [
    node "h2" [Text "Personal Information"];
    node "div" [
      registered_field errs "email" "Your Email Address?";
      registered_field errs "phone" "Your Phone Number?";
      registered_field errs "firstName" "Your First Name (Latin characters)?";
      registered_field errs "lastName" "Your Last Name (Latin characters)?";
      node "div" ([widget "Label" [] [Text "Your Gender?"];
                   widget "RadioGroup" [("defaultValue", PStr (gender_value (PersonalInfo.gender (personalInfo d))))]
                     [radio_item "Male" "male" "Male"; radio_item "Female" "female" "Female";
                      radio_item "Other" "other" "Other"]] ++ field_error errs "gender");
      registered_field errs "placeOfBirth" "Your Place of Birth (City, Country)?";
      node "div" [widget "Label" [] [Text "Have your names/surnames changed?"];
                  widget "RadioGroup"
                    [("defaultValue", PStr (if PersonalInfo.hasNameChanged (personalInfo d) then "yes" else "no"))]
                    [radio_item "yes" "name-changed-yes" "Yes"; radio_item "no" "name-changed-no" "No"]]];
    node "h2" [Text "Passport Information"];
    node "div" (doc_fields "Passport Number?" "passportNumber" "issuingAuthority" "dateOfIssue" "dateOfExpiry"
                  (passport d));
    node "h2" [Text "National Identity Document (ID Card) - If applicable"];
    node "div" (doc_fields "National ID Number?" "nationalIdNumber" "nationalIdAuthority" "nationalIdIssue"
                  "nationalIdExpiry" (nationalId d));
    node "div" [widget "Button" [("type", PStr "submit")] [Text "Next"]];
    node "div" [Text successBanner]].

(** What [NationalIDAnalysis] returns, with its [error] state. *)
Definition nid_markup (error : string) : elem :=
  node "div" (
    [node "h2" [Text "National ID Analysis (Optional)"];
     node "div" [label "national-id-pdf" "Upload National ID PDF:";
                 widget "Input" [("id", PStr "national-id-pdf"); ("type", PStr "file"); ("accept", PStr ".pdf")] []];
     widget "Button" [] [Text "Analyze & Fill Fields"]] ++
    (if bool_decide (error = "") then [] else [node "p" [Text error]]) ++
    [node "p" [Text "Upload national ID to auto-fill fields below."]]).

(** ** The family page *)

(** [`child-${child.id}-${field}`] *)
Definition child_id (c : Child.t) (f : string) : string := "child-" +:+ Child.id c +:+ "-" +:+ f.

(** The spouse card, reading [formData.spouse?.f || ''] and
    [formData.spouse?.travelingWithYou || false]. *)
Definition spouse_card (d : FormData) : elem :=
  widget "Card" [] [widget "CardContent" [] [
    node "h3" [Text "Spouse Information"];
    node "div" [
      field "spouse-firstName" "First Name" [("value", PStr (shown Spouse.firstName (spouse d)))];
      field "spouse-lastName" "Last Name" [("value", PStr (shown Spouse.lastName (spouse d)))];
      field "spouse-dateOfBirth" "Date of Birth"
        [("type", PStr "date"); ("value", PStr (shown Spouse.dateOfBirth (spouse d)))];
      field "spouse-nationality" "Nationality" [("value", PStr (shown Spouse.nationality (spouse d)))];
      checkbox_field "spouse-traveling" "Traveling with you to UK?"
        (shown_bool Spouse.travelingWithYou (spouse d))]]].

(** The card of [children.map((child, index) => ...)]. *)
Definition child_card (index : nat) (c : Child.t) : elem :=
  widget "Card" [("key", PStr (Child.id c))] [widget "CardContent" [] [
    node "div" [node "h4" [Text "Child "; Text (string_of_Z (Z.of_nat (S index)))];
                widget "Button" [] [Text "Remove"]];
    node "div" [
      field (child_id c "firstName") "First Name" [("value", PStr (Child.firstName c))];
      field (child_id c "lastName") "Last Name" [("value", PStr (Child.lastName c))];
      field (child_id c "dateOfBirth") "Date of Birth" [("type", PStr "date"); ("value", PStr (Child.dateOfBirth c))];
      field (child_id c "relationship") "Relationship"
        [("value", PStr (Child.relationship c)); ("placeholder", PStr "e.g., Son, Daughter, Step-Child")];
      checkbox_field (child_id c "traveling") "Traveling with you to UK?" (Child.travelingWithYou c)]]].

(** The children section: the empty message or one card per child of the
    local [children]. *)
Definition children_section (children : list Child.t) : elem :=
  node "div" (
    [node "div" [node "h3" [Text "Children Information"]; widget "Button" [] [Text "Add Child"]]] ++
    (if bool_decide (length children = 0) then [node "p" [Text "No children added."]]
     else [node "div" (imap child_card children)])).

Section Views.
Context {St : Type} `{!FormStore St}.

(** What [PersonalDetailsContent] returns. *)
Definition pd_markup (st : PDState St) : elem :=
  node "main" [Layout "Family Information" (forest_of [
    node "div" (
      [node "div" [widget "Label" [] [Text "Marital Status"];
                   widget "RadioGroup" [("value", PStr (marital_value (maritalStatus (pd_form st))))]
                     [radio_item "Single" "marital-single" "Single";
                      radio_item "Married" "marital-married" "Married";
                      radio_item "Divorced" "marital-divorced" "Divorced";
                      radio_item "Widowed" "marital-widowed" "Widowed"]]] ++
      (if pd_showSpouseForm st then [spouse_card (pd_form st)] else []) ++
      [children_section (pd_children st);
       node "div" [widget "Button" [] [Text "Next"]]])])].
End Views.

(** ** The address page *)

(** [`prev-${address.id}-${field}`] *)
Definition prev_id (a : PreviousAddress.t) (f : string) : string :=
  "prev-" +:+ PreviousAddress.id a +:+ "-" +:+ f.

(** The current-address card, reading [formData.currentAddress]; the
    durations are [<Input type="number" min="0" (max="11")>]. *)
Definition current_card (a : CurrentAddress.t) : elem :=
  widget "Card" [] [widget "CardContent" [] [
    node "h3" [Text "Current Address"];
    node "div" [
      field "street" "Street Address" [("value", PStr (CurrentAddress.street a))];
      node "div" [field "city" "City" [("value", PStr (CurrentAddress.city a))];
                  field "state" "State/Province" [("value", PStr (CurrentAddress.state a))]];
      node "div" [field "postalCode" "Postal Code" [("value", PStr (CurrentAddress.postalCode a))];
                  field "country" "Country" [("value", PStr (CurrentAddress.country a))]];
      node "div" [
        node "h4" [Text "How long have you lived at this address?"];
        node "div" [
          field "yearsAtAddress" "Years"
            [("type", PStr "number"); ("min", PStr "0"); ("value", PNum (CurrentAddress.yearsAtAddress a))];
          field "monthsAtAddress" "Months"
            [("type", PStr "number"); ("min", PStr "0"); ("max", PStr "11");
             ("value", PNum (CurrentAddress.monthsAtAddress a))]]]]]].

(** The card of [previousAddresses.map((address, index) => ...)]. *)
Definition prev_card (index : nat) (a : PreviousAddress.t) : elem :=
  widget "Card" [("key", PStr (PreviousAddress.id a))] [widget "CardContent" [] [
    node "div" [node "h4" [Text "Previous Address "; Text (string_of_Z (Z.of_nat (S index)))];
                widget "Button" [] [Text "Remove"]];
    node "div" [
      field (prev_id a "street") "Street Address" [("value", PStr (PreviousAddress.street a))];
      node "div" [field (prev_id a "city") "City" [("value", PStr (PreviousAddress.city a))];
                  field (prev_id a "state") "State/Province" [("value", PStr (PreviousAddress.state a))]];
      node "div" [field (prev_id a "postalCode") "Postal Code" [("value", PStr (PreviousAddress.postalCode a))];
                  field (prev_id a "country") "Country" [("value", PStr (PreviousAddress.country a))]];
      node "div" [field (prev_id a "fromDate") "From Date"
                    [("type", PStr "date"); ("value", PStr (PreviousAddress.fromDate a))];
                  field (prev_id a "toDate") "To Date"
                    [("type", PStr "date"); ("value", PStr (PreviousAddress.toDate a))]];
      node "div" [label (prev_id a "reason") "Reason for Leaving";
                  widget "Textarea" [("id", PStr (prev_id a "reason"));
                                     ("value", PStr (PreviousAddress.reasonForLeaving a)); ("rows", PNum 3)] []]]]].

(** [{showPreviousAddresses && (...)}]: the reminder or one card per
    entry of the local [previousAddresses]. *)
Definition previous_section (previousAddresses : list PreviousAddress.t) : elem :=
  node "div" (
    [node "div" [node "h3" [Text "Previous Addresses"];
                 widget "Button" [] [Text "Add Previous Address"]]] ++
    (if bool_decide (length previousAddresses = 0) then
       [node "p" [Text "You must add your previous address history to cover at least the last 12 months."]]
     else [node "div" (imap prev_card previousAddresses)])).

Section AddressView.
Context {St : Type} `{!FormStore St}.

(** What [AddressHistoryContent] returns. *)
Definition ah_markup (st : AHState St) : elem :=
  node "main" [Layout "Address History" (forest_of [
    node "div" (
      [current_card (currentAddress (ah_form st))] ++
      (if ah_showPreviousAddresses st then [previous_section (ah_previousAddresses st)] else []) ++
      [node "div" [widget "Button" [("disabled", PBool (nextDisabled st))] [Text "Next"]]])])].
End AddressView.

(** ** The pages *)

Section Pages.
Context {St : Type} `{!FormStore St} `{!FormProvider St}.

(** [Home] of src/app/page.tsx. *)
Definition home_tree (st : HomeState St) : elem :=
  Provider (forest_of [
    node "main" [
      Layout "UK Visa Application" (forest_of [
        Opaque "PassportAnalysis";
        Consumer "NationalIDAnalysis" (forest_of [nid_markup (hs_nidError st)]);
        Consumer "PersonalInfo" (forest_of [personalInfo_markup (hs_errors st) (hs_form st)])])]]).

(** The default export of a page file: the provider around the page's
    content component. *)
Definition content_page (name : string) (body : list elem) : elem :=
  Provider (forest_of [Consumer name (forest_of body)]).

(** The element tree of each page; none for the financial page, whose
    file is cut off inside the markup of [FinancialDetailsContent] and
    does not compile. *)
Definition page_tree (pg : Page St) : option elem :=
  match pg with
  | PHome st => Some (home_tree st)
  | PPersonal st => Some (content_page "PersonalDetailsContent" [pd_markup st])
  | PAddress st => Some (content_page "AddressHistoryContent" [ah_markup st])
  | PFinancial _ => None
  end.
End Pages.

(** The consumers of each page, in document order. *)
Definition page_consumers (r : Route) : list string :=
  match r with
  | Home => ["NationalIDAnalysis"; "PersonalInfo"]
  | PersonalDetailsR => ["PersonalDetailsContent"]
  | AddressHistoryR => ["AddressHistoryContent"]
  | FinancialDetailsR => ["FinancialDetailsContent"]
  end.

(** The title each page gives its [FormLayout] (the financial page's
    markup is cut off in the source). *)
Definition page_title (r : Route) : option string :=
  match r with
  | Home => Some "UK Visa Application"
  | PersonalDetailsR => Some "Family Information"
  | AddressHistoryR => Some "Address History"
  | FinancialDetailsR => None
  end.

(** What the family page's inputs should show: the record's spouse when
    married, and each child of the record. *)
Definition spouse_controls (d : FormData) : list (string * propval) :=
  [("spouse-firstName", PStr (shown Spouse.firstName (spouse d)));
   ("spouse-lastName", PStr (shown Spouse.lastName (spouse d)));
   ("spouse-dateOfBirth", PStr (shown Spouse.dateOfBirth (spouse d)));
   ("spouse-nationality", PStr (shown Spouse.nationality (spouse d)));
   ("spouse-traveling", PBool (shown_bool Spouse.travelingWithYou (spouse d)))].

Definition child_controls (c : Child.t) : list (string * propval) :=
  [(child_id c "firstName", PStr (Child.firstName c)); (child_id c "lastName", PStr (Child.lastName c));
   (child_id c "dateOfBirth", PStr (Child.dateOfBirth c));
   (child_id c "relationship", PStr (Child.relationship c));
   (child_id c "traveling", PBool (Child.travelingWithYou c))].

(** What the address page's inputs should show. *)
Definition current_controls (a : CurrentAddress.t) : list (string * propval) :=
  [("street", PStr (CurrentAddress.street a)); ("city", PStr (CurrentAddress.city a));
   ("state", PStr (CurrentAddress.state a)); ("postalCode", PStr (CurrentAddress.postalCode a));
   ("country", PStr (CurrentAddress.country a));
   ("yearsAtAddress", PNum (CurrentAddress.yearsAtAddress a));
   ("monthsAtAddress", PNum (CurrentAddress.monthsAtAddress a))].

Definition prev_controls (a : PreviousAddress.t) : list (string * propval) :=
  [(prev_id a "street", PStr (PreviousAddress.street a)); (prev_id a "city", PStr (PreviousAddress.city a));
   (prev_id a "state", PStr (PreviousAddress.state a));
   (prev_id a "postalCode", PStr (PreviousAddress.postalCode a));
   (prev_id a "country", PStr (PreviousAddress.country a));
   (prev_id a "fromDate", PStr (PreviousAddress.fromDate a));
   (prev_id a "toDate", PStr (PreviousAddress.toDate a));
   (prev_id a "reason", PStr (PreviousAddress.reasonForLeaving a))].

(** The value of prop [key] on every widget of kind [kind]. *)
Definition widget_props (kind key : string) (ds : list dom) : list propval :=
  omap (fun '(k, ps) => if bool_decide (k = kind) then prop key ps else None) (doms_widgets ds).

(** ** Lemmas *)

(** The controls, the props and the staticity of a tree, element by
    element. *)
Definition elem_controls (e : elem) : list (string * propval) := controls (elem_dom e).

Definition elem_props (kind key : string) (e : elem) : list propval := widget_props kind key (elem_dom e).

Lemma widget_props_app kind key ds1 ds2 :
  widget_props kind key (ds1 ++ ds2) = widget_props kind key ds1 ++ widget_props kind key ds2.
Proof. unfold widget_props. by rewrite doms_widgets_app, omap_app. Qed.

Lemma controls_concat (l : list elem) :
  controls (concat (map elem_dom l)) = concat (map elem_controls l).
Proof. induction l as [|e l IH]; simpl; [done|]. by rewrite controls_app, IH. Qed.

Lemma props_concat kind key (l : list elem) :
  widget_props kind key (concat (map elem_dom l)) = concat (map (elem_props kind key) l).
Proof. induction l as [|e l IH]; simpl; [done|]. by rewrite widget_props_app, IH. Qed.

Lemma controls_node1 t ds : controls [DNode t ds] = controls ds.
Proof. unfold controls, doms_widgets. cbn [map concat]. by rewrite dom_widgets_node, app_nil_r. Qed.

Lemma omap_cons' {A B} (f : A -> option B) x l : omap f (x :: l) = option_list (f x) ++ omap f l.
Proof. cbn. by destruct (f x). Qed.

Lemma controls_widget1 k ps ds :
  controls [DWidget k ps ds] = option_list (control_value (k, ps)) ++ controls ds.
Proof.
  unfold controls, doms_widgets. cbn [map concat]. rewrite dom_widgets_widget, app_nil_r.
  by rewrite omap_cons'.
Qed.

Lemma props_node1 kind key t ds : widget_props kind key [DNode t ds] = widget_props kind key ds.
Proof. unfold widget_props, doms_widgets. cbn [map concat]. by rewrite dom_widgets_node, app_nil_r. Qed.

Lemma props_widget1 kind key k ps ds :
  widget_props kind key [DWidget k ps ds] =
  (if bool_decide (k = kind) then option_list (prop key ps) else []) ++ widget_props kind key ds.
Proof.
  unfold widget_props, doms_widgets. cbn [map concat]. rewrite dom_widgets_widget, app_nil_r.
  rewrite omap_cons'. simpl. by case_bool_decide.
Qed.

Lemma elem_controls_node t l : elem_controls (node t l) = concat (map elem_controls l).
Proof. unfold elem_controls, node. cbn [elem_dom]. by rewrite controls_node1, forest_dom_of, controls_concat. Qed.

Lemma elem_controls_widget k ps l :
  elem_controls (widget k ps l) = option_list (control_value (k, ps)) ++ concat (map elem_controls l).
Proof. unfold elem_controls, widget. cbn [elem_dom]. by rewrite controls_widget1, forest_dom_of, controls_concat. Qed.

Lemma controls_cons2 d1 d2 ds : controls (d1 :: d2 :: ds) = controls [d1] ++ controls (d2 :: ds).
Proof. apply (controls_app [d1]). Qed.

Lemma props_cons2 kind key d1 d2 ds :
  widget_props kind key (d1 :: d2 :: ds) = widget_props kind key [d1] ++ widget_props kind key (d2 :: ds).
Proof. apply (widget_props_app _ _ [d1]). Qed.

Lemma elem_controls_layout t l : elem_controls (Layout t (forest_of l)) = concat (map elem_controls l).
Proof.
  unfold elem_controls. cbn [elem_dom]. unfold formLayout.
  repeat rewrite ?controls_cons2, ?controls_node1. rewrite forest_dom_of, controls_concat. reflexivity.
Qed.

Lemma elem_props_node kind key t l : elem_props kind key (node t l) = concat (map (elem_props kind key) l).
Proof. unfold elem_props, node. cbn [elem_dom]. by rewrite props_node1, forest_dom_of, props_concat. Qed.

Lemma elem_props_widget kind key k ps l :
  elem_props kind key (widget k ps l) =
  (if bool_decide (k = kind) then option_list (prop key ps) else []) ++ concat (map (elem_props kind key) l).
Proof. unfold elem_props, widget. cbn [elem_dom]. by rewrite props_widget1, forest_dom_of, props_concat. Qed.

Lemma elem_props_layout kind key t l :
  elem_props kind key (Layout t (forest_of l)) = concat (map (elem_props kind key) l).
Proof.
  unfold elem_props. cbn [elem_dom]. unfold formLayout.
  repeat rewrite ?props_cons2, ?props_node1. rewrite forest_dom_of, props_concat. reflexivity.
Qed.

Lemma elem_static_node t l : elem_static (node t l) = forallb elem_static l.
Proof. apply forest_static_of. Qed.

Lemma elem_static_widget k ps l : elem_static (widget k ps l) = forallb elem_static l.
Proof. apply forest_static_of. Qed.

Lemma elem_static_layout t l : elem_static (Layout t (forest_of l)) = forallb elem_static l.
Proof. apply forest_static_of. Qed.

(** One card per entry: a map over [imap]. *)
Lemma concat_map_imap {A B} (F : elem -> list B) (f : nat -> A -> elem) (g : A -> list B) l :
  (forall i x, F (f i x) = g x) -> concat (map F (imap f l)) = concat (map g l).
Proof.
  revert f. induction l as [|x l IH]; intros f Hf; [done|]. simpl.
  rewrite Hf. f_equal. apply IH. intros i y. apply Hf.
Qed.

Lemma forallb_imap {A} (f : nat -> A -> elem) l :
  (forall i x, elem_static (f i x) = true) -> forallb elem_static (imap f l) = true.
Proof.
  revert f. induction l as [|x l IH]; intros f Hf; [done|]. simpl.
  rewrite Hf. apply IH. intros i y. apply Hf.
Qed.

Lemma field_error_static errs k : forallb elem_static (field_error errs k) = true.
Proof. unfold field_error. by destruct (errs !! k). Qed.

Lemma child_card_controls i c : elem_controls (child_card i c) = child_controls c.
Proof. reflexivity. Qed.

Lemma prev_card_controls i a : elem_controls (prev_card i a) = prev_controls a.
Proof. reflexivity. Qed.

Lemma child_card_static i c : elem_static (child_card i c) = true.
Proof. reflexivity. Qed.

Lemma prev_card_static i a : elem_static (prev_card i a) = true.
Proof. reflexivity. Qed.

Lemma prev_card_disabled i a : elem_props "Button" "disabled" (prev_card i a) = [].
Proof. reflexivity. Qed.

Create Rewrite HintDb views_rw.
#[export] Hint Rewrite elem_controls_node elem_controls_widget elem_controls_layout
  elem_props_node elem_props_widget elem_props_layout
  elem_static_node elem_static_widget elem_static_layout
  map_app concat_app forallb_app field_error_static : views_rw.

(** Expand a view down to its cards and its conditionals. *)
Ltac view_simpl := repeat (autorewrite with views_rw; cbn [map concat app forallb andb]).

Definition elem_text (e : elem) : list string := doms_text (elem_dom e).

Lemma text_cons2 d1 d2 ds : doms_text (d1 :: d2 :: ds) = doms_text [d1] ++ doms_text (d2 :: ds).
Proof. apply (doms_text_app [d1]). Qed.

Lemma text_node1 t ds : doms_text [DNode t ds] = doms_text ds.
Proof. unfold doms_text at 1. cbn [map concat]. by rewrite dom_text_node, app_nil_r. Qed.

Lemma text_concat (l : list elem) : doms_text (concat (map elem_dom l)) = concat (map elem_text l).
Proof. induction l as [|e l IH]; simpl; [done|]. by rewrite doms_text_app, IH. Qed.

Lemma elem_text_node t l : elem_text (node t l) = concat (map elem_text l).
Proof. unfold elem_text, node. cbn [elem_dom]. by rewrite text_node1, forest_dom_of, text_concat. Qed.

Lemma elem_text_widget k ps l : elem_text (widget k ps l) = concat (map elem_text l).
Proof.
  unfold elem_text, widget, doms_text at 1. cbn [elem_dom map concat].
  rewrite dom_text_widget, app_nil_r, forest_dom_of. apply text_concat.
Qed.

Lemma elem_text_layout t l :
  elem_text (Layout t (forest_of l)) = "UK" :: "UK VISA APP" :: t :: concat (map elem_text l).
Proof.
  unfold elem_text. cbn [elem_dom]. unfold formLayout.
  repeat rewrite ?text_cons2, ?text_node1. rewrite forest_dom_of, text_concat. reflexivity.
Qed.

Lemma elem_text_text s : elem_text (Text s) = [s].
Proof. reflexivity. Qed.

(** The texts of the paragraphs ([<p>]) of a DOM, in document order. *)
Fixpoint dom_paras (d : dom) : list string :=
  match d with
  | DText _ => []
  | DNode t ds =>
      if bool_decide (t = "p") then doms_text ds
      else (fix go (ds : list dom) : list string :=
              match ds with [] => [] | d' :: ds' => dom_paras d' ++ go ds' end) ds
  | DWidget _ _ ds =>
      (fix go (ds : list dom) : list string :=
         match ds with [] => [] | d' :: ds' => dom_paras d' ++ go ds' end) ds
  end.

Definition doms_paras (ds : list dom) : list string := concat (map dom_paras ds).

Definition elem_paras (e : elem) : list string := doms_paras (elem_dom e).

(** The fields of the personal-information form that show an error
    paragraph, in the order of the form. *)
Definition personalInfo_fields : list string :=
  ["email"; "phone"; "firstName"; "lastName"; "gender"; "placeOfBirth"].

Lemma dom_paras_widget k ps ds : dom_paras (DWidget k ps ds) = doms_paras ds.
Proof. induction ds as [|d ds IH]; [done|]. simpl in *. by rewrite IH. Qed.

Lemma dom_paras_node t ds :
  dom_paras (DNode t ds) = if bool_decide (t = "p") then doms_text ds else doms_paras ds.
Proof. simpl. case_bool_decide; [done|]. exact (dom_paras_widget "" [] ds). Qed.

Lemma doms_paras_cons d ds : doms_paras (d :: ds) = dom_paras d ++ doms_paras ds.
Proof. done. Qed.

Lemma doms_paras_nil : doms_paras [] = [].
Proof. done. Qed.

Lemma dom_paras_text s : dom_paras (DText s) = [].
Proof. done. Qed.

Lemma doms_paras_app ds1 ds2 : doms_paras (ds1 ++ ds2) = doms_paras ds1 ++ doms_paras ds2.
Proof. unfold doms_paras. by rewrite map_app, concat_app. Qed.

Lemma paras_concat (l : list elem) : doms_paras (concat (map elem_dom l)) = concat (map elem_paras l).
Proof. induction l as [|e l IH]; simpl; [done|]. by rewrite doms_paras_app, IH. Qed.

Lemma elem_paras_p l : elem_paras (node "p" l) = concat (map elem_text l).
Proof.
  unfold elem_paras, node, doms_paras at 1. cbn [elem_dom map concat].
  by rewrite dom_paras_node, bool_decide_eq_true_2, app_nil_r, forest_dom_of, text_concat.
Qed.

Lemma elem_paras_node t l : t <> "p" -> elem_paras (node t l) = concat (map elem_paras l).
Proof.
  intros Ht. unfold elem_paras, node, doms_paras at 1. cbn [elem_dom map concat].
  by rewrite dom_paras_node, bool_decide_eq_false_2, app_nil_r, forest_dom_of, paras_concat.
Qed.

Lemma elem_paras_text s : elem_paras (Text s) = [].
Proof. done. Qed.

Lemma elem_paras_widget k ps l : elem_paras (widget k ps l) = concat (map elem_paras l).
Proof.
  unfold elem_paras, widget, doms_paras at 1. cbn [elem_dom map concat].
  by rewrite dom_paras_widget, app_nil_r, forest_dom_of, paras_concat.
Qed.

Lemma elem_paras_layout t l : elem_paras (Layout t (forest_of l)) = concat (map elem_paras l).
Proof.
  unfold elem_paras. cbn [elem_dom]. unfold formLayout. rewrite forest_dom_of.
  repeat (rewrite ?doms_paras_cons, ?doms_paras_nil, ?dom_paras_text, ?app_nil_r;
          rewrite dom_paras_node, bool_decide_eq_false_2 by discriminate).
  by rewrite paras_concat.
Qed.

Lemma field_error_paras errs k :
  concat (map elem_paras (field_error errs k)) = option_list (errs !! k).
Proof. unfold field_error. destruct (errs !! k); [|done]. cbn [map concat]. by rewrite elem_paras_p. Qed.

Lemma registered_field_paras errs k t : elem_paras (registered_field errs k t) = option_list (errs !! k).
Proof.
  unfold registered_field. rewrite elem_paras_node by discriminate.
  rewrite map_app, concat_app, field_error_paras. reflexivity.
Qed.

Lemma omap_option_list {A B} (f : A -> option B) l : omap f l = concat (map (fun x => option_list (f x)) l).
Proof. induction l as [|x l IH]; [done|]. by rewrite omap_cons', IH. Qed.

Lemma nid_markup_paras e :
  elem_paras (nid_markup e) =
  (if bool_decide (e = "") then [] else [e]) ++ ["Upload national ID to auto-fill fields below."].
Proof.
  unfold nid_markup, label. rewrite elem_paras_node by discriminate. rewrite !map_app, !concat_app.
  case_bool_decide; cbn [map concat]; rewrite ?elem_paras_p; cbn [map concat];
    repeat (rewrite ?elem_paras_widget, ?elem_paras_text; cbn [map concat];
            rewrite ?elem_paras_node by discriminate); done.
Qed.

(** The error paragraphs of the form: one per field with an error, in
    the order of the form. *)
Lemma personalInfo_markup_paras errs d :
  elem_paras (personalInfo_markup errs d) = omap (fun k => errs !! k) personalInfo_fields.
Proof.
  unfold personalInfo_markup. rewrite elem_paras_node by discriminate. cbn [map concat].
  rewrite !elem_paras_node by discriminate. cbn [map concat].
  rewrite !registered_field_paras, !elem_paras_node by discriminate.
  rewrite map_app, concat_app, field_error_paras. unfold personalInfo_fields, doc_fields, radio_item, field, label.
  repeat (rewrite ?elem_paras_widget, ?elem_paras_text; cbn [map concat];
          rewrite ?elem_paras_node by discriminate).
  rewrite omap_option_list. cbn [map concat]. by rewrite ?app_nil_r, ?app_nil_l.
Qed.

Lemma last_app_r {A} (l1 l2 : list A) x : last l2 = Some x -> last (l1 ++ l2) = Some x.
Proof. intros H. apply last_app_Some. by left. Qed.

Lemma last_cons_r {A} (y x : A) l : last l = Some x -> last (y :: l) = Some x.
Proof. intros H. destruct l; [done|]. by rewrite last_cons_cons. Qed.

Lemma spouse_card_controls d : elem_controls (spouse_card d) = spouse_controls d.
Proof. reflexivity. Qed.

Lemma current_card_controls a : elem_controls (current_card a) = current_controls a.
Proof. reflexivity. Qed.

Lemma nid_markup_static e : elem_static (nid_markup e) = true.
Proof. unfold nid_markup. view_simpl. by case_bool_decide. Qed.

Lemma personalInfo_markup_static errs d : elem_static (personalInfo_markup errs d) = true.
Proof. unfold personalInfo_markup, registered_field. view_simpl. reflexivity. Qed.

Lemma concat_map_nil {A B} (l : list A) : concat (map (fun _ => @nil B) l) = [].
Proof. by induction l. Qed.

Lemma children_section_controls cs :
  elem_controls (children_section cs) = concat (map child_controls cs).
Proof.
  unfold children_section. view_simpl. case_bool_decide as Hl; view_simpl;
    try (apply nil_length_inv in Hl; rewrite Hl);
    rewrite ?(concat_map_imap elem_controls child_card child_controls) by apply child_card_controls;
    simpl; rewrite ?app_nil_r; reflexivity.
Qed.

Lemma children_section_static cs : elem_static (children_section cs) = true.
Proof.
  unfold children_section. view_simpl.
  case_bool_decide; view_simpl; rewrite ?forallb_imap by apply child_card_static; reflexivity.
Qed.

Lemma previous_section_controls l :
  elem_controls (previous_section l) = concat (map prev_controls l).
Proof.
  unfold previous_section. view_simpl. case_bool_decide as Hl; view_simpl;
    try (apply nil_length_inv in Hl; rewrite Hl);
    rewrite ?(concat_map_imap elem_controls prev_card prev_controls) by apply prev_card_controls;
    simpl; rewrite ?app_nil_r; reflexivity.
Qed.

Lemma previous_section_disabled l :
  elem_props "Button" "disabled" (previous_section l) = [].
Proof.
  unfold previous_section. view_simpl. destruct (bool_decide (length l = 0)); view_simpl;
    rewrite ?(concat_map_imap (elem_props "Button" "disabled") prev_card (fun _ => [])) by apply prev_card_disabled;
    rewrite ?concat_map_nil; reflexivity.
Qed.

Lemma previous_section_static l : elem_static (previous_section l) = true.
Proof.
  unfold previous_section. view_simpl.
  case_bool_decide; view_simpl; rewrite ?forallb_imap by apply prev_card_static; reflexivity.
Qed.

#[export] Hint Rewrite children_section_controls children_section_static
  previous_section_controls previous_section_disabled previous_section_static : views_rw.

(** The paragraphs of the home page: NationalIDAnalysis's error and
    hint, then the form's error paragraphs. *)
Lemma home_paras e errs d :
  doms_paras (elem_dom (node "main" [Layout "UK Visa Application" (forest_of
    [Opaque "PassportAnalysis"; nid_markup e; personalInfo_markup errs d])])) =
  (if bool_decide (e = "") then [] else [e]) ++ ["Upload national ID to auto-fill fields below."] ++
  omap (fun k => errs !! k) personalInfo_fields.
Proof.
  fold (elem_paras (node "main" [Layout "UK Visa Application" (forest_of
    [Opaque "PassportAnalysis"; nid_markup e; personalInfo_markup errs d])])).
  rewrite elem_paras_node by discriminate. cbn [map concat]. rewrite elem_paras_layout. cbn [map concat].
  rewrite nid_markup_paras, personalInfo_markup_paras.
  unfold elem_paras at 1. cbn [elem_dom]. rewrite doms_paras_cons, dom_paras_node, bool_decide_eq_false_2 by discriminate.
  by rewrite ?app_nil_r, <- ?app_assoc.
Qed.

Section ViewLemmas.
Context {St : Type} `{!FormStore St}.

(** The family page's inputs: the spouse card when the local flag says
    so, and the cards of the local children. *)
Lemma pd_markup_controls (st : PDState St) :
  elem_controls (pd_markup st) =
  (if pd_showSpouseForm st then spouse_controls (pd_form st) else []) ++
  concat (map child_controls (pd_children st)).
Proof.
  unfold pd_markup. view_simpl.
  destruct (pd_showSpouseForm st); view_simpl;
    rewrite ?spouse_card_controls; simpl; rewrite ?app_nil_r; reflexivity.
Qed.

Lemma pd_markup_static (st : PDState St) : elem_static (pd_markup st) = true.
Proof.
  unfold pd_markup. view_simpl. by destruct (pd_showSpouseForm st).
Qed.

(** The address page's inputs: the current address, and the cards of the
    local list when the local flag shows the section. *)
Lemma ah_markup_controls (st : AHState St) :
  elem_controls (ah_markup st) =
  current_controls (currentAddress (ah_form st)) ++
  (if ah_showPreviousAddresses st then concat (map prev_controls (ah_previousAddresses st)) else []).
Proof.
  unfold ah_markup. view_simpl. rewrite current_card_controls.
  destruct (ah_showPreviousAddresses st); view_simpl; simpl; rewrite ?app_nil_r; reflexivity.
Qed.

(** The only [disabled] prop of the address page is the Next button's. *)
Lemma ah_markup_disabled (st : AHState St) :
  elem_props "Button" "disabled" (ah_markup st) = [PBool (nextDisabled st)].
Proof.
  unfold ah_markup. view_simpl.
  destruct (ah_showPreviousAddresses st); view_simpl; simpl; rewrite ?app_nil_r; reflexivity.
Qed.

Lemma ah_markup_static (st : AHState St) : elem_static (ah_markup st) = true.
Proof.
  unfold ah_markup. view_simpl. destruct (ah_showPreviousAddresses st); view_simpl; reflexivity.
Qed.
End ViewLemmas.

Lemma main_layout_title t l :
  take 3 (elem_text (node "main" [Layout t (forest_of l)])) = ["UK"; "UK VISA APP"; t].
Proof. rewrite elem_text_node. cbn [map concat]. by rewrite elem_text_layout. Qed.

Section PageLemmas.
Context {St : Type} `{!FormStore St} `{!FormProvider St}.

(** A page file whose content component returns a static tree renders it
    under one provider, to which the component is bound. *)
Lemma content_page_render name (v : list elem) :
  forallb elem_static v = true ->
  render_root (content_page name v) = Ok (1, concat (map elem_dom v), [(name, 0)]).
Proof.
  intros Hv. unfold render_root, content_page.
  cbn [render render_forest forest_of useFormData result_bind FormContext_default].
  rewrite (proj2 render_static _ _ _ ltac:(by rewrite forest_static_of)), forest_dom_of.
  cbn [result_bind]. by rewrite !app_nil_r.
Qed.

(** The home page renders its two consumers under its one provider. *)
Lemma home_render (st : HomeState St) :
  render_root (home_tree st) =
  Ok (1, elem_dom (node "main" [Layout "UK Visa Application" (forest_of
            [Opaque "PassportAnalysis"; nid_markup (hs_nidError st);
             personalInfo_markup (hs_errors st) (hs_form st)])]),
      [("NationalIDAnalysis", 0); ("PersonalInfo", 0)]).
Proof.
  unfold render_root, home_tree.
  cbn [render render_forest forest_of useFormData result_bind FormContext_default node].
  rewrite (proj1 render_static _ _ _ (nid_markup_static _)). cbn [result_bind].
  rewrite (proj1 render_static _ _ _ (personalInfo_markup_static _ _)). cbn [result_bind].
  rewrite !app_nil_r. reflexivity.
Qed.
End PageLemmas.

(** ** Theorems *)

(** C14. Every page of the wizard whose file is complete (all but the
    financial page) renders without throwing, with exactly one provider
    instance (the one its page file mounts at its root), to which every
    consumer of the page is bound; the page shows the "UK VISA APP"
    header and then its title. *)
Theorem pages_render {St} `{!FormStore St} `{!FormProvider St} (pg : Page St) :
  match page_tree pg with
  | Some e =>
      exists ds bs t, render_root e = Ok (1, ds, bs) /\
        map fst bs = page_consumers (page_route pg) /\ Forall (fun b => b.2 = 0) bs /\
        page_title (page_route pg) = Some t /\ take 3 (doms_text ds) = ["UK"; "UK VISA APP"; t]
  | None => page_route pg = FinancialDetailsR
  end.
Proof.
  destruct pg as [st|st|st|st]; cbn [page_tree page_route page_consumers page_title]; [| | |done].
  - rewrite home_render. eexists _, _, _. split; [reflexivity|]. split_and!; [done|by repeat constructor|done|].
    apply main_layout_title.
  - rewrite content_page_render by (cbn [forallb]; by rewrite pd_markup_static).
    eexists _, _, _. split; [reflexivity|]. split_and!; [done|by repeat constructor|done|].
    rewrite ?app_nil_r. apply main_layout_title.
  - rewrite content_page_render by (cbn [forallb]; by rewrite ah_markup_static).
    eexists _, _, _. split; [reflexivity|]. split_and!; [done|by repeat constructor|done|].
    rewrite ?app_nil_r. apply main_layout_title.
Qed.

Lemma home_text_last e errs d :
  last (elem_text (node "main" [Layout "UK Visa Application" (forest_of
          [Opaque "PassportAnalysis"; nid_markup e; personalInfo_markup errs d])])) = Some successBanner.
Proof.
  rewrite elem_text_node. cbn [map concat]. rewrite elem_text_layout. cbn [map concat].
  rewrite !app_nil_r. do 3 apply last_cons_r. do 2 apply last_app_r.
  unfold personalInfo_markup. rewrite elem_text_node. cbn [map concat]. rewrite !app_nil_r.
  do 7 apply last_app_r. by rewrite elem_text_node.
Qed.

(** C16. The home page shows "Application data received successfully by
    server!" as its last text in every state: on its first render, before
    anything is submitted, as after a rejected submit. *)
Theorem home_banner_always {St} `{!FormStore St} `{!FormProvider St} (st : HomeState St) :
  match render_root (home_tree st) with
  | Ok (_, ds, _) => last (doms_text ds) = Some successBanner
  | Err _ => False
  end.
Proof. rewrite home_render. apply home_text_last. Qed.

(** C17. A submit of the home page that the zod resolver rejects, from
    any state: the page does not navigate, and the paragraphs it then
    shows are NationalIDAnalysis's error (if any) and hint, followed by
    exactly one error paragraph per field the schema rejects, in the
    order of the form, with the message of that field's first issue. *)
Theorem rejected_submit_page {St} `{!FormStore St} `{!FormProvider St} (st : HomeState St) :
  personalInfoSchema (hs_values st) <> [] ->
  snd (HomePage.step HomePage.Submit st) = None /\
  match render_root (home_tree (fst (HomePage.step HomePage.Submit st))) with
  | Ok (_, ds, _) =>
      doms_paras ds =
        option_list (nidErrorShown st) ++ ["Upload national ID to auto-fill fields below."] ++
        omap (fun f => snd <$> List.find (fun i => bool_decide (i.1 = f)) (personalInfoSchema (hs_values st)))
             personalInfo_fields
  | Err _ => False
  end.
Proof.
  intros Hrej. destruct (submit_rejected_step st Hrej) as (Hnav & _ & Herr). split; [done|].
  rewrite home_render, home_paras, submit_keeps_nidError, !(omap_option_list _ personalInfo_fields).
  unfold nidErrorShown. f_equal; [by case_bool_decide|]. do 2 f_equal. apply map_ext. intros f. by rewrite Herr.
Qed.

(** C18. Composition of the family page's view with its state machine:
    on every state reachable from mounting, the page's inputs show the
    record, the spouse's inputs exactly when the record says "Married"
    and one card per child of the record, in order (the view reads the
    local [showSpouseForm] and [children], which agree with the record). *)
Theorem family_view_shows_record {St} `{!FormStore St} (s : St) (st : PDState St) :
  rtc pd_step (PersonalDetailsContent.mount s) st ->
  elem_controls (pd_markup st) =
    (if bool_decide (maritalStatus (pd_form st) = MaritalStatus.Married)
     then spouse_controls (pd_form st) else []) ++
    concat (map child_controls (children (pd_form st))).
Proof.
  intros Hr. assert (Hinv : pd_inv st).
  { apply (rtc_invariant pd_step pd_inv) with (PersonalDetailsContent.mount s); [|apply pd_mount_inv|done].
    intros x y Hx [e [_ <-]]. by apply pd_step_inv. }
  destruct Hinv as [Hs Hc]. by rewrite pd_markup_controls, Hs, Hc.
Qed.

(** C19. Composition of the address page's view with its state machine:
    on every state reachable from mounting, the inputs show the record's
    current address, and its previous addresses exactly when the record
    totals under 12 months; the Next button is disabled exactly when the
    record totals under 12 months and has no previous address. *)
Theorem address_view_shows_record {St} `{!FormStore St} (s : St) (st : AHState St) :
  rtc ah_step (AddressHistoryContent.mount s) st ->
  elem_controls (ah_markup st) =
    current_controls (currentAddress (ah_form st)) ++
    (if bool_decide (calculateTotalMonths (ah_form st) < 12)%Z
     then concat (map prev_controls (previousAddresses (ah_form st))) else []) /\
  elem_props "Button" "disabled" (ah_markup st) =
    [PBool (bool_decide (calculateTotalMonths (ah_form st) < 12)%Z &&
            bool_decide (previousAddresses (ah_form st) = []))].
Proof.
  intros Hr. assert (Hinv : ah_inv st).
  { apply (rtc_invariant ah_step ah_inv) with (AddressHistoryContent.mount s); [|apply mount_inv|done].
    intros x y Hx [e [_ <-]]. by apply step_inv. }
  destruct Hinv as [Hp Hs]. rewrite ah_markup_controls, ah_markup_disabled, Hs, Hp.
  split; [done|]. unfold nextDisabled. rewrite Hs, Hp. do 3 f_equal.
  apply bool_decide_ext. apply length_zero_iff_nil.
Qed.

(** ** Witnesses *)

Definition pd_married_child : PDState FormData :=
  fst (PersonalDetailsContent.step (AddChild "c-1")
         (fst (PersonalDetailsContent.step (MaritalStatusChange MaritalStatus.Married) pd0))).

Lemma family_view_shows_record_witness :
  rtc pd_step (PersonalDetailsContent.mount initialFormData) pd_married_child /\
  elem_controls (pd_markup pd_married_child) =
    (if bool_decide (maritalStatus (pd_form pd_married_child) = MaritalStatus.Married)
     then spouse_controls (pd_form pd_married_child) else []) ++
    concat (map child_controls (children (pd_form pd_married_child))).
Proof.
  assert (H : rtc pd_step (PersonalDetailsContent.mount initialFormData) pd_married_child).
  { eapply rtc_l; [by exists (MaritalStatusChange MaritalStatus.Married)|].
    apply rtc_once. by exists (AddChild "c-1"). }
  split; [exact H|]. exact (family_view_shows_record initialFormData _ H).
Defined.

Lemma address_view_shows_record_witness :
  rtc ah_step (AddressHistoryContent.mount initialFormData) ah1 /\
  elem_controls (ah_markup ah1) =
    current_controls (currentAddress (ah_form ah1)) ++
    (if bool_decide (calculateTotalMonths (ah_form ah1) < 12)%Z
     then concat (map prev_controls (previousAddresses (ah_form ah1))) else []) /\
  elem_props "Button" "disabled" (ah_markup ah1) =
    [PBool (bool_decide (calculateTotalMonths (ah_form ah1) < 12)%Z &&
            bool_decide (previousAddresses (ah_form ah1) = []))].
Proof.
  assert (H : rtc ah_step (AddressHistoryContent.mount initialFormData) ah1)
    by (apply rtc_once; by exists (AddPreviousAddress "7f1c0a")).
  split; [exact H|]. exact (address_view_shows_record initialFormData _ H).
Defined.

Lemma rejected_submit_page_witness :
  personalInfoSchema (hs_values (HomePage.mount (St:=FormData) providerInit)) <> [] /\
  snd (HomePage.step HomePage.Submit (HomePage.mount (St:=FormData) providerInit)) = None /\
  match render_root (home_tree (fst (HomePage.step HomePage.Submit (HomePage.mount (St:=FormData) providerInit)))) with
  | Ok (_, ds, _) =>
      doms_paras ds =
        option_list (nidErrorShown (HomePage.mount (St:=FormData) providerInit)) ++
        ["Upload national ID to auto-fill fields below."] ++
        omap (fun f => snd <$> List.find (fun i => bool_decide (i.1 = f))
                         (personalInfoSchema (hs_values (HomePage.mount (St:=FormData) providerInit))))
             personalInfo_fields
  | Err _ => False
  end.
Proof.
  assert (H : personalInfoSchema (hs_values (HomePage.mount (St:=FormData) providerInit)) <> [])
    by (vm_compute; discriminate).
  split; [exact H|]. exact (rejected_submit_page _ H).
Defined.
